(** * chat-with-syllabus: the retrieval-augmentation core, embedded in Rocq

    A shallow embedding of three source files of the backend:

    - [app/services/gemini_service.py]: [RateLimiter] and [GeminiService];
    - [app/services/enhanced_rag.py]: [EnhancedRAGService];
    - [app/routers/chat.py]: the in-memory session store and its pruning.

    Conventions of the embedding.

    - A Python [str] is a Rocq [string] read as the sequence of its code
      points, restricted to U+0000..U+00FF (one [ascii] per code point), so
      that [len] is [String.length]. [str.lower], [str.strip] and
      [str.isspace] are the Unicode ones on that range.
    - A Python [int] is a [Z].
    - A finite Python [float] is the rational [Q] it denotes. Comparison and
      [format(x, ".4f")] of finite doubles are exactly comparison and
      correctly rounded printing of those rationals; float arithmetic is
      read as exact rational arithmetic.
    - [time.time], [time.sleep], the generation backend and the vector store
      are effects: they are threaded through a state-and-exception monad
      over a [world] that holds the clock, the limiter's window and a log of
      the calls made. *)

From Stdlib Require Import ZArith QArith Qabs Lqa Ascii String List Sorted Lia Bool.
From Stdlib Require Import DecimalString.
From stdpp Require Import gmap strings.
Import ListNotations.
Close Scope Q_scope.

(** ** Python built-ins on strings *)

Module Py.

Definition ord (c : ascii) : N := N_of_ascii c.

(** [str.isspace] for one code point below U+0100. *)
Definition isspace (c : ascii) : bool :=
  let n := ord c in
  ((9 <=? n) && (n <=? 13) || (28 <=? n) && (n <=? 32)
   || (n =? 133) || (n =? 160))%N.

(** [str.lower] for one code point below U+0100. *)
Definition lower_char (c : ascii) : ascii :=
  let n := ord c in
  if ((65 <=? n) && (n <=? 90)
      || (192 <=? n) && (n <=? 222) && negb (n =? 215))%N
  then ascii_of_N (n + 32) else c.

Fixpoint lower (s : string) : string :=
  match s with
  | EmptyString => EmptyString
  | String c s' => String (lower_char c) (lower s')
  end.

Fixpoint lstrip (s : string) : string :=
  match s with
  | EmptyString => EmptyString
  | String c s' => if isspace c then lstrip s' else s
  end.

Fixpoint rstrip (s : string) : string :=
  match s with
  | EmptyString => EmptyString
  | String c s' =>
      match rstrip s' with
      | EmptyString => if isspace c then EmptyString else String c EmptyString
      | r => String c r
      end
  end.

(** [s.strip()] *)
Definition strip (s : string) : string := rstrip (lstrip s).

(** Empty, or made of whitespace only. *)
Fixpoint blank (s : string) : bool :=
  match s with
  | EmptyString => true
  | String c s' => isspace c && blank s'
  end.

(** [needle in hay] *)
Fixpoint contains (needle hay : string) : bool :=
  if String.prefix needle hay then true
  else match hay with
       | EmptyString => false
       | String _ hay' => contains needle hay'
       end.

(** [s.replace(old, new)] for a non-empty [old] (every call site passes a
    literal): [skip] counts the characters of a match still to be dropped. *)
Fixpoint replace_from (old new : string) (skip : nat) (s : string) : string :=
  match s with
  | EmptyString => EmptyString
  | String c s' =>
      match skip with
      | S k => replace_from old new k s'
      | O =>
          if String.prefix old s
          then new +:+ replace_from old new (String.length old - 1) s'
          else String c (replace_from old new 0 s')
      end
  end.

Definition replace (old new s : string) : string := replace_from old new 0 s.

(** [sep.join(parts)] *)
Fixpoint join (sep : string) (parts : list string) : string :=
  match parts with
  | [] => EmptyString
  | [p] => p
  | p :: rest => p +:+ sep +:+ join sep rest
  end.

(** [s.split(sep)] for a one-character separator. *)
Fixpoint split (sep : ascii) (s : string) : list string :=
  match s with
  | EmptyString => [EmptyString]
  | String c s' =>
      let r := split sep s' in
      if Ascii.eqb c sep then EmptyString :: r
      else match r with
           | h :: t => String c h :: t
           | [] => [String c EmptyString]
           end
  end.

(** [str(n)] for an int. *)
Definition str_int (z : Z) : string := NilZero.string_of_int (Z.to_int z).

(** Finite floats as rationals. *)
Definition Qltb (x y : Q) : bool := negb (Qle_bool y x).

(** [min(a, b)] and [max(a, b)]: the first argument unless the second is
    strictly smaller (larger). *)
Definition min (a b : Q) : Q := if Qltb b a then b else a.
Definition max (a b : Q) : Q := if Qltb a b then b else a.

(** Nearest integer to a non-negative rational, ties to even. *)
Definition round_half_even (q : Q) : Z :=
  let n := Qnum q in
  let d := Zpos (Qden q) in
  let fl := (n / d)%Z in
  match (2 * (n mod d) ?= d)%Z with
  | Lt => fl
  | Gt => (fl + 1)%Z
  | Eq => if Z.even fl then fl else (fl + 1)%Z
  end.

Fixpoint zfill_from (fuel width : nat) (s : string) : string :=
  match fuel with
  | O => s
  | S f =>
      if (String.length s <? width)%nat then zfill_from f width ("0" +:+ s)
      else s
  end.

(** [s.zfill(width)] for a string of digits. *)
Definition zfill (width : nat) (s : string) : string := zfill_from width width s.

(** [format(x, ".4f")] *)
Definition format_4f (x : Q) : string :=
  let scaled := round_half_even (Qabs x * 10000)%Q in
  (if Qltb x 0 then "-" else "")
  +:+ str_int (scaled / 10000) +:+ "." +:+ zfill 4 (str_int (scaled mod 10000)).

(** The values a metadata entry or a dict key may hold in this model. *)
Inductive value : Type :=
| PNone
| PStr (s : string)
| PInt (z : Z).

(** Truth value of an object: [None], [""] and [0] are falsy. *)
Definition truthy (v : value) : bool :=
  match v with
  | PNone => false
  | PStr s => negb (String.eqb s "")
  | PInt z => negb (z =? 0)%Z
  end.

(** [a or b] *)
Definition or_ (a b : value) : value := if truthy a then a else b.

(** [str(v)], as an f-string renders a value. *)
Definition str (v : value) : string :=
  match v with
  | PNone => "None"
  | PStr s => s
  | PInt z => str_int z
  end.

Definition value_eqb (a b : value) : bool :=
  match a, b with
  | PNone, PNone => true
  | PStr s, PStr t => String.eqb s t
  | PInt x, PInt y => (x =? y)%Z
  | _, _ => false
  end.

(** A [dict] whose order of insertion matters: keys are unique, a new key
    goes last, an update keeps the key's place. *)
Fixpoint dict_get {K V} (eqb : K -> K -> bool) (k : K) (d : list (K * V)) : option V :=
  match d with
  | [] => None
  | (k', v) :: d' => if eqb k k' then Some v else dict_get eqb k d'
  end.

Fixpoint dict_set {K V} (eqb : K -> K -> bool) (k : K) (v : V) (d : list (K * V)) : list (K * V) :=
  match d with
  | [] => [(k, v)]
  | (k', v') :: d' =>
      if eqb k k' then (k, v) :: d' else (k', v') :: dict_set eqb k v d'
  end.

End Py.

(** ** [hashlib.sha1(text.encode("utf-8")).hexdigest()] *)

Module Sha1.

Local Open Scope N_scope.

Definition mask32 : N := 4294967295.
Definition add32 (x y : N) : N := N.land (x + y) mask32.
Definition rotl (n x : N) : N :=
  N.land (N.lor (N.shiftl x n) (N.shiftr x (32 - n))) mask32.

(** UTF-8 of a code point below U+0100: one byte, or two from U+0080 on. *)
Definition utf8_char (c : ascii) : list N :=
  let n := Py.ord c in
  if n <? 128 then [n]
  else [N.lor 192 (N.shiftr n 6); N.lor 128 (N.land n 63)].

Fixpoint utf8 (s : string) : list N :=
  match s with
  | EmptyString => []
  | String c s' => (utf8_char c ++ utf8 s')%list
  end.

(** The eight bytes of a 64-bit length, most significant first. *)
Definition be64 (n : N) : list N :=
  map (fun i => N.land (N.shiftr n (8 * i)) 255) [7; 6; 5; 4; 3; 2; 1; 0].

(** The message followed by 0x80, zeros up to 56 modulo 64, and its length
    in bits. *)
Definition pad (msg : list N) : list N :=
  let len := N.of_nat (length msg) in
  let zeros := N.to_nat ((119 - len mod 64) mod 64) in
  (msg ++ [128] ++ repeat 0 zeros ++ be64 (8 * len))%list.

Fixpoint words (fuel : nat) (bytes : list N) : list N :=
  match fuel, bytes with
  | S f, b0 :: b1 :: b2 :: b3 :: rest =>
      N.lor (N.shiftl b0 24) (N.lor (N.shiftl b1 16) (N.lor (N.shiftl b2 8) b3))
      :: words f rest
  | _, _ => []
  end.

(** The message schedule, latest word first: w[t] is computed from w[t-3],
    w[t-8], w[t-14] and w[t-16]. *)
Fixpoint schedule (n : nat) (rev_w : list N) : list N :=
  match n with
  | O => rev_w
  | S n' =>
      let w := rotl 1 (N.lxor (N.lxor (nth 2 rev_w 0) (nth 7 rev_w 0))
                              (N.lxor (nth 13 rev_w 0) (nth 15 rev_w 0))) in
      schedule n' (w :: rev_w)
  end.

Definition state : Type := N * N * N * N * N.

Definition round (t : nat) (w : N) (st : state) : state :=
  let '(a, b, c, d, e) := st in
  let '(f, k) :=
    if (t <? 20)%nat
    then (N.lor (N.land b c) (N.land (N.lxor b mask32) d), 1518500249)
    else if (t <? 40)%nat
    then (N.lxor (N.lxor b c) d, 1859775393)
    else if (t <? 60)%nat
    then (N.lor (N.lor (N.land b c) (N.land b d)) (N.land c d), 2400959708)
    else (N.lxor (N.lxor b c) d, 3395469782) in
  let temp := add32 (add32 (add32 (add32 (rotl 5 a) f) e) k) w in
  (temp, a, rotl 30 b, c, d).

Fixpoint rounds (t : nat) (ws : list N) (st : state) : state :=
  match ws with
  | [] => st
  | w :: ws' => rounds (S t) ws' (round t w st)
  end.

Definition compress (h : state) (block : list N) : state :=
  let ws := rev (schedule 64 (rev (words 16 block))) in
  let '(h0, h1, h2, h3, h4) := h in
  let '(a, b, c, d, e) := rounds 0 ws h in
  (add32 h0 a, add32 h1 b, add32 h2 c, add32 h3 d, add32 h4 e).

Fixpoint blocks (fuel : nat) (bytes : list N) (h : state) : state :=
  match fuel with
  | O => h
  | S f => blocks f (skipn 64 bytes) (compress h (firstn 64 bytes))
  end.

Definition init : state :=
  (1732584193, 4023233417, 2562383102, 271733878, 3285377520).

Definition digest (msg : list N) : state :=
  let padded := pad msg in
  blocks (length padded / 64)%nat padded init.

Definition hex_digit (n : N) : ascii :=
  if n <? 10 then ascii_of_N (48 + n) else ascii_of_N (87 + n).

Definition hex32 (w : N) : string :=
  fold_right (fun i acc => String (hex_digit (N.land (N.shiftr w (4 * i)) 15)) acc)
             EmptyString [7; 6; 5; 4; 3; 2; 1; 0].

Definition hexdigest (s : string) : string :=
  let '(h0, h1, h2, h3, h4) := digest (utf8 s) in
  hex32 h0 +:+ hex32 h1 +:+ hex32 h2 +:+ hex32 h3 +:+ hex32 h4.

End Sha1.

(** ** Effects: the clock, the limiter's window, the external services *)

Module Effects.

Inductive event : Type :=
| EvAcquire                              (* RateLimiter.acquire was entered *)
| EvSleep (seconds : Q)                  (* time.sleep(seconds) *)
| EvGenerate (prompt : string)           (* model.generate_content(prompt) *)
| EvSearchWithScore (query : string) (k : Z)
| EvSearch (query : string) (k : Z).

Inductive exn : Type :=
| IndexError                             (* deque index out of range *)
| SearchError.                           (* the vector store raised *)

(** What the process can observe and change: the wall clock read by
    [time.time()], the deque [RateLimiter.call_timestamps] (front first), the
    number of backend invocations so far, and the log of calls made (oldest
    first). *)
Record world : Type := World {
  clock : Q;
  call_timestamps : list Q;
  generate_calls : nat;
  log : list event
}.

Inductive outcome (A : Type) : Type :=
| Return (a : A)
| Raise (e : exn).
Arguments Return {A} a.
Arguments Raise {A} e.

Definition M (A : Type) : Type := world -> outcome A * world.

Definition ret {A} (a : A) : M A := fun w => (Return a, w).
Definition raise {A} (e : exn) : M A := fun w => (Raise e, w).
Definition bind {A B} (m : M A) (k : A -> M B) : M B :=
  fun w => match m w with
           | (Return a, w') => k a w'
           | (Raise e, w') => (Raise e, w')
           end.

(** [try: m except Exception: handler] *)
Definition try_except {A} (m : M A) (handler : exn -> M A) : M A :=
  fun w => match m w with
           | (Return a, w') => (Return a, w')
           | (Raise e, w') => handler e w'
           end.

Definition record (e : event) : M unit :=
  fun w => (Return tt,
            World (clock w) (call_timestamps w) (generate_calls w) (log w ++ [e])).

(** [time.time()] *)
Definition time_time : M Q := fun w => (Return (clock w), w).

(** [time.sleep(seconds)]: the clock moves on by the time slept. *)
Definition time_sleep (seconds : Q) : M unit :=
  fun w => (Return tt,
            World (clock w + seconds)%Q (call_timestamps w) (generate_calls w)
                  (log w ++ [EvSleep seconds])).

Definition get_timestamps : M (list Q) := fun w => (Return (call_timestamps w), w).
Definition set_timestamps (ts : list Q) : M unit :=
  fun w => (Return tt, World (clock w) ts (generate_calls w) (log w)).

(** What one call of the generation backend does: a response whose [text]
    attribute may be missing or [None], or an exception with its message. *)
Inductive reply : Type :=
| Response (text : option string)
| Failure (message : string).

(** A document of the vector store. *)
Record document : Type := Document {
  page_content : string;
  metadata : list (string * Py.value)
}.

(** The collaborators the services are constructed with. The backend may
    answer each invocation differently; a search returns [None] when the
    store raises. [set_order] is the order in which Python iterates over a
    set of strings, given in order of insertion. *)
Record externals : Type := Externals {
  generate_content : nat -> string -> reply;
  similarity_search_with_score : string -> Z -> option (list (document * Q));
  similarity_search : string -> Z -> option (list document);
  set_order : list string -> list string
}.

Definition call_generate (ext : externals) (prompt : string) : M reply :=
  fun w => (Return (generate_content ext (generate_calls w) prompt),
            World (clock w) (call_timestamps w) (S (generate_calls w))
                  (log w ++ [EvGenerate prompt])).

Definition call_search_with_score (ext : externals) (query : string) (k : Z)
  : M (list (document * Q)) :=
  bind (record (EvSearchWithScore query k)) (fun _ =>
  match similarity_search_with_score ext query k with
  | Some docs => ret docs
  | None => raise SearchError
  end).

Definition call_search (ext : externals) (query : string) (k : Z)
  : M (list document) :=
  bind (record (EvSearch query k)) (fun _ =>
  match similarity_search ext query k with
  | Some docs => ret docs
  | None => raise SearchError
  end).

(** Time passing between two calls: the clock moves on, nothing else
    changes. *)
Definition elapse (seconds : Q) (w : world) : world :=
  World (clock w + seconds)%Q (call_timestamps w) (generate_calls w) (log w).

Definition is_acquire (e : event) : bool :=
  match e with EvAcquire => true | _ => false end.
Definition is_generate (e : event) : bool :=
  match e with EvGenerate _ => true | _ => false end.
Definition is_search (e : event) : bool :=
  match e with EvSearchWithScore _ _ | EvSearch _ _ => true | _ => false end.

(** How many events of a kind a log holds. *)
Definition count (kind : event -> bool) (l : list event) : nat :=
  length (List.filter kind l).

End Effects.

Import Effects.

Notation "'let*' x ':=' m 'in' k" := (bind m (fun x => k))
  (at level 10, x name, m at level 100, k at level 200, only parsing).

Definition nl : string := String (ascii_of_N 10) EmptyString.

(** ** gemini_service.py *)

Module RateLimiter.

(** [while self.call_timestamps and now - self.call_timestamps[0] > 60.0:
    self.call_timestamps.popleft()] *)
Fixpoint drop_old (now : Q) (ts : list Q) : list Q :=
  match ts with
  | [] => []
  | t0 :: rest => if Py.Qltb 60 (now - t0)%Q then drop_old now rest else ts
  end.

(** [acquire(self)], with [self.max_per_minute] as argument. *)
Definition acquire (max_per_minute : Z) : M unit :=
  let* _ := record EvAcquire in
  let* now := time_time in
  let* ts := get_timestamps in
  let* _ := set_timestamps (drop_old now ts) in
  let* ts := get_timestamps in
  let* _ :=
    if (Z.of_nat (length ts) >=? max_per_minute)%Z
    then match ts with
         | [] => raise IndexError
         | t0 :: _ =>
             let sleep_for := (60 - (now - t0) + 0.01)%Q in
             if Py.Qltb 0 sleep_for then time_sleep sleep_for else ret tt
         end
    else ret tt in
  let* now' := time_time in
  let* ts := get_timestamps in
  set_timestamps (ts ++ [now']).

(** A limiter in use: before each call of [acquire] some time passes, the
    next entry of [gaps]. The run stops at the first call that raises. *)
Fixpoint acquire_each (max_per_minute : Z) (gaps : list Q) (w : world)
  : outcome unit * world :=
  match gaps with
  | [] => (Return tt, w)
  | gap :: gaps' =>
      match acquire max_per_minute (elapse gap w) with
      | (Return _, w') => acquire_each max_per_minute gaps' w'
      | (Raise e, w') => (Raise e, w')
      end
  end.

(** The entries of a window issued within the 60 seconds before [now]. *)
Definition recent (now : Q) (ts : list Q) : list Q :=
  List.filter (fun t => negb (Py.Qltb 60 (now - t)%Q)) ts.

End RateLimiter.

Module GeminiService.

Definition guidelines : string :=
  "You are an academic assistant for the MCA (Master of Computer Applications) syllabus." +:+ nl +:+
  "Answer concisely and accurately using ONLY the provided context." +:+ nl +:+
  "If the context is insufficient, say you are not sure and suggest where to look." +:+ nl +:+
  nl +:+
  "Specialized guidance you support:" +:+ nl +:+
  "- Course structure queries: semesters, subjects, modules, credit distribution." +:+ nl +:+
  "- Prerequisite questions: assumed knowledge, required prior courses, skills." +:+ nl +:+
  "- Grading system explanations: internal assessment, end-semester exams, weightage." +:+ nl +:+
  "- Career guidance: roles and pathways aligned with syllabus topics." +:+ nl +:+
  nl +:+
  "Formatting:" +:+ nl +:+
  "- Provide a direct answer first." +:+ nl +:+
  "- If relevant, add a short bullet list of key points." +:+ nl +:+
  "- End with a one-line confidence score: Confidence: <low|medium|high>." +:+ nl.

Definition _build_prompt (question context_text : string) : string :=
  guidelines +:+ nl +:+
  "Context:" +:+ nl +:+
  context_text +:+ nl +:+
  nl +:+
  "Question: " +:+ question +:+ nl +:+
  "Answer:".

(** Returns the label and the score. *)
Definition _estimate_confidence (answer_text context_text : string) : string * Q :=
  if String.eqb (Py.strip answer_text) "" then ("low", 0.2%Q)
  else
    let len_score :=
      Py.min (inject_Z (Z.of_nat (String.length answer_text)) / 600)%Q 1%Q in
    let context_factor :=
      if String.eqb (Py.strip context_text) "" then 0%Q else 0.5%Q in
    let score := (0.3 + 0.5 * len_score + context_factor)%Q in
    let score := Py.max 0%Q (Py.min score 1%Q) in
    let label :=
      if Py.Qltb 0.75 score then "high"
      else if Py.Qltb 0.5 score then "medium" else "low" in
    (label, score).

(** The dict [{"answer": ..., "confidence": ...}] that every path returns. *)
Record generation : Type := Generation {
  answer : string;
  confidence : Q
}.

(** The [context] argument: a string or a list of strings. *)
Inductive context_arg : Type :=
| CtxStr (s : string)
| CtxList (parts : list string).

Definition fallback : string :=
  "I'm not fully confident based on the provided context. Please provide more details or relevant syllabus excerpts.".

Definition is_transient (msg : string) : bool :=
  Py.contains "429" msg || Py.contains "rate" msg || Py.contains "temporarily" msg
  || Py.contains "deadline" msg || Py.contains "timeout" msg.

(** An invocation that raises, told apart by the branch the handler takes
    on [str(exc).lower()]. *)
Definition transient_failure (r : reply) : bool :=
  match r with
  | Failure message => is_transient (Py.lower message)
  | Response _ => false
  end.
Definition permanent_failure (r : reply) : bool :=
  match r with
  | Failure message => negb (is_transient (Py.lower message))
  | Response _ => false
  end.

(** The statements after the loop: the fallback answer. *)
Definition after_retries : M generation :=
  ret (Generation (fallback +:+ nl +:+ nl +:+ "Confidence: low") 0.2%Q).

(** The loop [for attempt in range(1, max_attempts + 1)], over the attempt
    numbers still to come; [break] and the end of the range both lead to
    [after_retries]. *)
Fixpoint attempts (ext : externals) (prompt context_text : string)
  (range : list Z) (delay : Q) : M generation :=
  match range with
  | [] => after_retries
  | _attempt :: range' =>
      let* r := call_generate ext prompt in
      match r with
      | Response t =>
          let text := match t with Some s => s | None => EmptyString end in
          let '(conf_label, conf_score) := _estimate_confidence text context_text in
          let formatted := Py.strip text in
          let formatted :=
            if negb (Py.contains "Confidence:" formatted)
            then formatted +:+ nl +:+ nl +:+ "Confidence: " +:+ conf_label
            else formatted in
          ret (Generation formatted conf_score)
      | Failure message =>
          let msg := Py.lower message in
          if is_transient msg
          then let* _ := time_sleep delay in
               attempts ext prompt context_text range' (delay * 2)%Q
          else after_retries
      end
  end.

Definition max_attempts : Z := 3.

(** [range(1, stop)] *)
Definition range_from_1 (stop : Z) : list Z :=
  map (fun i => Z.of_nat i + 1)%Z (seq 0 (Z.to_nat (stop - 1))).

(** [context if isinstance(context, str) else "\n\n".join(context or [])] *)
Definition context_text_of (context : context_arg) : string :=
  match context with
  | CtxStr s => s
  | CtxList parts => Py.join (nl +:+ nl) parts
  end.

(** The answer returned when no attempt succeeded. *)
Definition fallback_generation : generation :=
  Generation (fallback +:+ nl +:+ nl +:+ "Confidence: low") 0.2%Q.

Definition generate_answer (ext : externals) (max_per_minute : Z)
  (question : string) (context : context_arg) : M generation :=
  let context_text := context_text_of context in
  let prompt := _build_prompt question context_text in
  let* _ := RateLimiter.acquire max_per_minute in
  attempts ext prompt context_text (range_from_1 (max_attempts + 1)) 1%Q.

End GeminiService.

(** ** Python's block structure

    A module is compiled as a whole when it is imported, before any of it
    runs. The tokenizer turns the indentation of every logical line into
    INDENT and DEDENT tokens, with a stack of the indentations that are
    open; the grammar wants an INDENT after the header of a compound
    statement, and nowhere else. *)

Module Syntax.

(** A statement, as far as blocks go: the header of a compound statement
    ([def], [if], [for], ...) that ends its line with the colon and so
    opens a block, or a simple statement. *)
Inductive statement : Type :=
| Header (keyword : string)
| Simple.

(** A logical line: the physical lines it spans (an open bracket or an
    open triple-quoted string joins lines), the number of tabs it is
    indented by, and its statement. Blank lines and comment lines are no
    logical lines. *)
Record logical_line : Type := Line {
  first_line : Z;
  last_line : Z;
  indent : nat;
  stmt : statement
}.

Inductive indentation_error : Type :=
| ExpectedBlock (keyword : string) (header_line : Z)
    (* expected an indented block after the statement on line [header_line] *)
| UnexpectedIndent
| UnindentMismatch.
    (* unindent does not match any outer indentation level *)

(** What compiling gives, as far as indentation goes: [IndentationError]
    names the line it is raised at ([None] at the end of the text). *)
Inductive compiled : Type :=
| Accepted
| IndentationError (msg : indentation_error) (lineno : option Z).

(** The tokenizer's [while column < indents[-1]]: the levels deeper than
    [column] are closed; [None] when [column] is none of the open
    levels. The stack has its top first. *)
Fixpoint dedent (column : nat) (indents : list nat) : option (list nat) :=
  match indents with
  | [] => Some []
  | top :: below =>
      if (column <? top)%nat
      then if existsb (Nat.eqb column) indents then dedent column below else None
      else Some indents
  end.

(** The lines of a text against the stack [indents]; [pending] is the
    header whose block has not begun yet, if the line before was one. *)
Fixpoint check (indents : list nat) (pending : option (string * Z))
  (lines : list logical_line) : compiled :=
  match lines with
  | [] =>
      match pending with
      | Some (keyword, header_line) =>
          IndentationError (ExpectedBlock keyword header_line) None
      | None => Accepted
      end
  | l :: rest =>
      let top := hd 0%nat indents in
      let next :=
        match stmt l with
        | Header keyword => Some (keyword, first_line l)
        | Simple => None
        end in
      if (top <? indent l)%nat
      then
        match pending with
        | Some _ => check (indent l :: indents) next rest
        | None => IndentationError UnexpectedIndent (Some (first_line l))
        end
      else
        match dedent (indent l) indents with
        | None => IndentationError UnindentMismatch (Some (first_line l))
        | Some indents' =>
            match pending with
            | Some (keyword, header_line) =>
                IndentationError (ExpectedBlock keyword header_line) (Some (first_line l))
            | None => check indents' next rest
            end
        end
  end.

End Syntax.

(** ** enhanced_rag.py *)

Module EnhancedRAGService.

(** [_hash_text(text)] *)
Definition _hash_text (text : string) : string := Sha1.hexdigest text.

(** The fields of [self] set by [__init__]; [max_per_minute] is the cap of
    the limiter inside [self.gen]. *)
Record service : Type := Service {
  max_context_chars : Z;
  per_variant_k : Z;
  max_per_minute : Z
}.

(** [EnhancedRAGService(pdf, gen)] over [GeminiService()]: the defaults. *)
Definition default_service : service := Service 6000 4 60.

(** A retrieved tuple [(score, content, metadata)]. *)
Definition chunk : Type := (Q * string * list (string * Py.value))%type.

(** The dict returned by [_analyze_question]. *)
Record analysis : Type := Analysis {
  semesters : list string;
  focus : string
}.

(** An entry of the [sources] list. *)
Record source : Type := Source {
  index : Z;
  name : Py.value;
  page : Py.value;
  score : Q
}.

Definition focus_keywords : list (string * list string) :=
  [("credits", ["credit"; "ects"]);
   ("prerequisite", ["prerequisite"; "prereq"; "eligibility"]);
   ("grading", ["grade"; "grading"; "assessment"; "exam"]);
   ("career", ["career"; "job"; "role"]);
   ("project", ["project"; "capstone"])].

Definition generate_mca_context_prompt : string :=
  "MCA domain context. Prioritize: course structure (semesters, subjects, modules, credits), " +:+
  "prerequisites (skills, prior courses), grading (internal assessment, exams, weightage), " +:+
  "and career guidance (roles aligned to syllabus topics). Extract concise, factual statements. " +:+
  "Prefer the most relevant and recent syllabus details. Include brief bullet lists for enumerations.".

(** [variants.add(v)] on a set kept in order of insertion. *)
Definition set_add (v : string) (variants : list string) : list string :=
  if existsb (String.eqb v) variants then variants else variants ++ [v].

Definition _expand_query (ext : externals) (question : string) : list string :=
  let q := Py.strip question in
  let variants := [q] in
  let lower := Py.lower q in
  let variants :=
    if Py.contains "credit" lower
    then set_add (q +:+ " credit distribution per semester") variants
    else variants in
  let variants :=
    if Py.contains "prereq" lower || Py.contains "prerequisite" lower
       || Py.contains "eligibility" lower
    then set_add (q +:+ " prerequisites and assumed knowledge") variants
    else variants in
  let variants :=
    if Py.contains "grade" lower || Py.contains "assessment" lower
       || Py.contains "exam" lower
    then set_add (q +:+ " grading system internal assessment and end-semester weightage") variants
    else variants in
  let variants :=
    if Py.contains "syllabus" lower || Py.contains "course" lower
       || Py.contains "semester" lower
    then set_add (q +:+ " MCA course structure subjects and modules") variants
    else variants in
  let variants :=
    if Py.contains "career" lower || Py.contains "job" lower
       || Py.contains "role" lower
    then set_add (q +:+ " career pathways aligned to syllabus topics") variants
    else variants in
  set_order ext variants.

(** The tail of the pattern, [\s*[1-8]], at the start of [s]: the number of
    characters it takes. No digit is a space, so the greedy [\s*] never
    has to give a character back. *)
Fixpoint spaces_then_digit (s : string) : option nat :=
  match s with
  | EmptyString => None
  | String c s' =>
      if ((49 <=? Py.ord c) && (Py.ord c <=? 56))%N then Some 1%nat
      else if Py.isspace c then option_map S (spaces_then_digit s')
      else None
  end.

Fixpoint drop (n : nat) (s : string) : string :=
  match n, s with
  | S k, String _ s' => drop k s'
  | _, _ => s
  end.

(** [semester_pattern], [(sem(?:ester)?\s*[1-8])], matched at the start of
    [s]: the length of the match. The optional group is tried first with
    [ester], then without. *)
Definition semester_match (s : string) : option nat :=
  if String.prefix "sem" s then
    let rest := drop 3 s in
    let with_ester :=
      if String.prefix "ester" rest
      then option_map (Nat.add 8) (spaces_then_digit (drop 5 rest))
      else None in
    match with_ester with
    | Some n => Some n
    | None => option_map (Nat.add 3) (spaces_then_digit rest)
    end
  else None.

(** [semester_pattern.findall(s)]: the matches from left to right, none
    overlapping; [skip] counts the characters of a match still to pass. *)
Fixpoint findall_from (skip : nat) (s : string) : list string :=
  match s with
  | EmptyString => []
  | String _ s' =>
      match skip with
      | S k => findall_from k s'
      | O =>
          match semester_match s with
          | Some n => String.substring 0 n s :: findall_from (n - 1) s'
          | None => findall_from 0 s'
          end
      end
  end.

Definition _analyze_question (question : string) : analysis :=
  let lower := Py.lower question in
  let semesters :=
    map (fun m => Py.replace "semester" "sem" (Py.replace " " "" (Py.strip m)))
        (findall_from 0 lower) in
  let focus :=
    match find (fun '(_, keywords) =>
                  existsb (fun word => Py.contains word lower) keywords)
               focus_keywords with
    | Some (label, _) => label
    | None => "general"
    end in
  Analysis semesters focus.

Definition scored (d : document * Q) : chunk :=
  (snd d, page_content (fst d), metadata (fst d)).
Definition unscored (d : document) : chunk :=
  (1%Q, page_content d, metadata d).

(** The loop over the variants. [results] is the list built so far; when
    the plain search raises as well, the outer handler logs the error and
    what was collected until then is returned. *)
Fixpoint retrieve_loop (ext : externals) (k : Z) (variants : list string)
  (results : list chunk) : M (list chunk) :=
  match variants with
  | [] => ret results
  | variant :: variants' =>
      let* found :=
        try_except
          (let* with_scores := call_search_with_score ext variant k in
           ret (Some (map scored with_scores)))
          (fun _ =>
             try_except
               (let* docs := call_search ext variant k in
                ret (Some (map unscored docs)))
               (fun _ => ret None)) in
      match found with
      | Some chunks => retrieve_loop ext k variants' (results ++ chunks)
      | None => ret results
      end
  end.

Definition _retrieve_with_sources (self : service) (ext : externals)
  (question : string) : M (list chunk) :=
  retrieve_loop ext (per_variant_k self) (_expand_query ext question) [].

(** The deduplication loop: [by_hash] maps a content hash to the tuple kept
    for it. *)
Definition dedup_step (by_hash : list (string * chunk)) (item : chunk)
  : list (string * chunk) :=
  let '(score, content, meta) := item in
  let h := _hash_text content in
  match Py.dict_get String.eqb h by_hash with
  | None => Py.dict_set String.eqb h item by_hash
  | Some (score', _, _) =>
      if Py.Qltb score score' then Py.dict_set String.eqb h item by_hash
      else by_hash
  end.

Definition dedup (retrieved : list chunk) : list (string * chunk) :=
  fold_left dedup_step retrieved [].

(** [sorted(items, key=lambda x: x[0])]: a stable sort; an item goes before
    the first one whose score is not smaller than its own. *)
Fixpoint insert_by_score (x : chunk) (l : list chunk) : list chunk :=
  match l with
  | [] => [x]
  | y :: l' =>
      if Py.Qltb (fst (fst y)) (fst (fst x)) then y :: insert_by_score x l'
      else x :: l
  end.

Definition sorted_by_score (items : list chunk) : list chunk :=
  fold_right insert_by_score [] items.

(** The local state of [_build_context]. *)
Record packing : Type := Packing {
  context_parts : list string;
  sources : list source;
  total_chars : Z
}.

Definition len (s : string) : Z := Z.of_nat (String.length s).

Definition preamble (a : analysis) : string :=
  "Guidance: " +:+ generate_mca_context_prompt +:+ nl +:+
  "Focus: " +:+ focus a +:+ " | Semesters: " +:+
  Py.join ", " (match semesters a with [] => ["all"] | sems => sems end) +:+ nl.

Definition context_mentions_semester (a : analysis) (text : string) : bool :=
  match semesters a with
  | [] => true
  | targets =>
      let text_lower := Py.lower text in
      existsb (fun sem => Py.contains (Py.strip (Py.replace "sem" "" sem)) text_lower)
              targets
  end.

Definition meta_get (meta : list (string * Py.value)) (key : string) : Py.value :=
  match Py.dict_get String.eqb key meta with
  | Some v => v
  | None => Py.PNone
  end.

Definition header_of (idx : Z) (name page : Py.value) (score : Q) : string :=
  let header := "[" +:+ Py.str_int idx +:+ "] Source: " +:+ Py.str name in
  let header :=
    match page with
    | Py.PNone => header
    | _ => header +:+ ", page " +:+ Py.str page
    end in
  header +:+ " (score: " +:+ Py.format_4f score +:+ ")".

Definition segment_of (idx : Z) (item : chunk) : string :=
  let '(score, content, meta) := item in
  let name := Py.or_ (Py.or_ (meta_get meta "source") (meta_get meta "file_path"))
                     (Py.PStr "document") in
  let page := Py.or_ (Py.or_ (meta_get meta "page") (meta_get meta "page_number"))
                     (meta_get meta "page_index") in
  header_of idx name page score +:+ nl +:+ content +:+ nl.

Definition source_of (idx : Z) (item : chunk) : source :=
  let '(score, content, meta) := item in
  let name := Py.or_ (Py.or_ (meta_get meta "source") (meta_get meta "file_path"))
                     (Py.PStr "document") in
  let page := Py.or_ (Py.or_ (meta_get meta "page") (meta_get meta "page_number"))
                     (meta_get meta "page_index") in
  Source idx name page score.

(** [try_append]: [None] is the result [False], which leaves the state as it
    was. *)
Definition try_append (self : service) (idx : Z) (item : chunk) (st : packing)
  : option packing :=
  let segment := segment_of idx item in
  if (total_chars st + len segment >? max_context_chars self)%Z then None
  else Some (Packing (context_parts st ++ [segment])
                     (sources st ++ [source_of idx item])
                     (total_chars st + len segment)%Z).

(** [for idx, item in enumerate(items, start=idx)]: with [filtering], an
    item that does not mention a requested semester is passed over
    ([continue]); the first item that does not fit ends the loop
    ([break]). *)
Fixpoint pack_loop (self : service) (a : analysis) (filtering : bool)
  (items : list chunk) (idx : Z) (st : packing) : packing :=
  match items with
  | [] => st
  | item :: items' =>
      if filtering && negb (context_mentions_semester a (snd (fst item)))
      then pack_loop self a filtering items' (idx + 1)%Z st
      else match try_append self idx item st with
           | None => st
           | Some st' => pack_loop self a filtering items' (idx + 1)%Z st'
           end
  end.

Definition count_names (srcs : list source) : list (Py.value * Z) :=
  fold_left (fun doc_counts src =>
               let seen := match Py.dict_get Py.value_eqb (name src) doc_counts with
                           | Some n => n
                           | None => 0%Z
                           end in
               Py.dict_set Py.value_eqb (name src) (seen + 1)%Z doc_counts)
            srcs [].

Definition summary_text (srcs : list source) : string :=
  "Document coverage:" +:+ nl +:+
  Py.join nl (map (fun '(name, count) =>
                     "- " +:+ Py.str name +:+ ": " +:+ Py.str_int count +:+ " context blocks")
                  (count_names srcs)) +:+ nl.

Definition is_nil {A} (l : list A) : bool :=
  match l with [] => true | _ => false end.

(** [sorted_items]: the values of [by_hash], sorted. *)
Definition ranked (retrieved : list chunk) : list chunk :=
  sorted_by_score (map snd (dedup retrieved)).

(** The state before the first chunk: the guidance preamble is in, and
    counted. *)
Definition initial (a : analysis) : packing :=
  Packing [preamble a] [] (len (preamble a)).

Definition _build_context (self : service) (retrieved : list chunk) (a : analysis)
  : string * list source :=
  match retrieved with
  | [] => (EmptyString, [])
  | _ =>
      let sorted_items := ranked retrieved in
      let st := initial a in
      let applied_filter := negb (is_nil (semesters a)) in
      let st := pack_loop self a applied_filter sorted_items 1 st in
      let st :=
        if applied_filter && is_nil (sources st)
        then pack_loop self a false sorted_items 1 st
        else st in
      let st :=
        if negb (is_nil (sources st))
        then
          let summary := summary_text (sources st) in
          if (total_chars st + len summary <=? max_context_chars self)%Z
          then Packing (context_parts st ++ [summary]) (sources st) (total_chars st)
          else st
        else st in
      (Py.strip (Py.join nl (context_parts st)), sources st)
  end.

Definition _generate_follow_up (question : string) (a : analysis)
  (srcs : list source) : string :=
  if String.eqb (focus a) "credits"
  then "Would you like a semester-by-semester credit comparison?"
  else if String.eqb (focus a) "prerequisite"
  then "Should I list bridge courses to meet the prerequisites?"
  else if String.eqb (focus a) "career"
  then "Do you want recommendations for internships aligned with these courses?"
  else if negb (is_nil srcs)
  then "Need more detail from any of the cited documents?"
  else "Would you like to explore related MCA modules?".

Definition _confidence_explanation (confidence : Q) (context_count source_count : Z)
  : string :=
  if Py.Qltb 0.75 confidence
  then "High confidence based on " +:+ Py.str_int context_count +:+
       " context blocks across " +:+ Py.str_int source_count +:+ " sources."
  else if Py.Qltb 0.5 confidence
  then "Moderate confidence: " +:+ Py.str_int context_count +:+
       " context blocks from " +:+ Py.str_int source_count +:+ " sources."
  else "Low confidence because only " +:+ Py.str_int context_count +:+
       " context blocks were relevant.".

(** [ask_question(self, question)], l.192-255, as the file has it: its
    logical lines, each with the tabs it is indented by. The [return] of
    l.211-217 stands at the indentation of the [if] of l.210, not inside
    it. *)
Definition ask_question_text : list Syntax.logical_line :=
  [ Syntax.Line 192 192 1 (Syntax.Header "def");  (* def ask_question(self, question): *)
    Syntax.Line 193 200 2 Syntax.Simple;          (* the docstring *)
    Syntax.Line 201 201 2 Syntax.Simple;          (* question = (question or ...).strip() *)
    Syntax.Line 202 202 2 (Syntax.Header "if");   (* if not question: *)
    Syntax.Line 203 203 3 Syntax.Simple;          (* return {answer, sources, confidence} *)
    Syntax.Line 205 205 2 Syntax.Simple;          (* t0 = time.time() *)
    Syntax.Line 206 206 2 Syntax.Simple;          (* analysis = self._analyze_question(question) *)
    Syntax.Line 207 207 2 Syntax.Simple;          (* retrieved = self._retrieve_with_sources(question) *)
    Syntax.Line 208 208 2 Syntax.Simple;          (* context_text, sources = self._build_context(...) *)
    Syntax.Line 210 210 2 (Syntax.Header "if");   (* if not context_text or not sources: *)
    Syntax.Line 211 217 2 Syntax.Simple;          (* return {answer, ..., follow_up} *)
    Syntax.Line 220 220 2 Syntax.Simple;          (* t1 = time.time() *)
    Syntax.Line 221 227 2 Syntax.Simple;          (* instruction_block = (...) *)
    Syntax.Line 228 228 2 Syntax.Simple;          (* prompt_context = ... *)
    Syntax.Line 230 230 2 Syntax.Simple;          (* gen_result = self.gen.generate_answer(...) *)
    Syntax.Line 231 231 2 Syntax.Simple;          (* answer = ... *)
    Syntax.Line 232 232 2 Syntax.Simple;          (* confidence = ... *)
    Syntax.Line 233 233 2 Syntax.Simple;          (* t2 = time.time() *)
    Syntax.Line 235 237 2 Syntax.Simple;          (* logger.info(...) *)
    Syntax.Line 240 240 2 (Syntax.Header "if");   (* if ... not in answer and ... in answer: *)
    Syntax.Line 241 241 3 Syntax.Simple;          (* parts = [...] *)
    Syntax.Line 242 242 3 (Syntax.Header "if");   (* if len(parts) >= 3: *)
    Syntax.Line 243 243 4 Syntax.Simple;          (* answer = ... *)
    Syntax.Line 245 245 2 Syntax.Simple;          (* follow_up = self._generate_follow_up(...) *)
    Syntax.Line 246 246 2 Syntax.Simple;          (* unique_sources = len({...}) *)
    Syntax.Line 247 247 2 Syntax.Simple;          (* confidence_expl = self._confidence_explanation(...) *)
    Syntax.Line 249 255 2 Syntax.Simple ].        (* return {answer, ..., follow_up} *)

(** The indentations open where [ask_question] begins: the module's and
    the one of the body of [class EnhancedRAGService]. *)
Definition class_body : list nat := [1; 0]%nat.

(** What compiling [ask_question] gives. *)
Definition compile_ask_question : Syntax.compiled :=
  Syntax.check class_body None ask_question_text.

End EnhancedRAGService.

(** ** routers/chat.py: the session store *)

Module chat.

(** A message appended by [ask]; [ts] is the value of [time.time()] at that
    moment, the key that [m.get("ts", 0.0)] reads. *)
Record message : Type := Message {
  ts : Q;
  question : string;
  answer : string;
  sources : list EnhancedRAGService.source;
  confidence : Q;
  confidence_explanation : string;
  follow_up_question : option string
}.

Definition SESSION_TTL_SECONDS : Q := inject_Z (60 * 60 * 24).

(** [max((m.get("ts", 0.0) for m in msgs), default=0.0)] *)
Definition last_ts (msgs : list message) : Q :=
  match msgs with
  | [] => 0%Q
  | m :: rest => fold_left (fun best m' => Py.max best (ts m')) rest (ts m)
  end.

Definition expired (now : Q) (msgs : list message) : bool :=
  Py.Qltb SESSION_TTL_SECONDS (now - last_ts msgs)%Q.

(** The first loop: the ids collected in [to_delete]. *)
Definition to_delete (now : Q) (SESSIONS : gmap string (list message)) : list string :=
  map fst (List.filter (fun item => expired now (snd item)) (map_to_list SESSIONS)).

(** [_prune_sessions()], on the global [SESSIONS]; [now] is [time.time()]. *)
Definition _prune_sessions (w : world) (SESSIONS : gmap string (list message))
  : gmap string (list message) :=
  let now := clock w in
  fold_left (fun store sid => delete sid store) (to_delete now SESSIONS) SESSIONS.

(** [create_session()]; [session_id] is the fresh [uuid4]. *)
Definition create_session (w : world) (session_id : string)
  (SESSIONS : gmap string (list message)) : gmap string (list message) :=
  <[session_id := []]> (_prune_sessions w SESSIONS).

(** What an endpoint does: it returns a body, raises
    [HTTPException(status_code, detail)], or lets a pydantic
    [ValidationError] through. *)
Inductive response (A : Type) : Type :=
| Ok (body : A)
| HTTPException (status_code : Z) (detail : string)
| ValidationError.
Arguments Ok {A} body.
Arguments HTTPException {A} status_code detail.
Arguments ValidationError {A}.

Module AskRequest.
Record t : Type := Make {
  question : string;
  session_id : option string
}.
End AskRequest.

Module AskResponse.
Record t : Type := Make {
  answer : string;
  sources : list EnhancedRAGService.source;
  confidence : Q;
  confidence_explanation : string;
  follow_up_question : option string;
  session_id : string
}.
End AskResponse.

Module SessionInfo.
Record t : Type := Make {
  session_id : string;
  message_count : Z;
  updated_at : Q
}.
End SessionInfo.

(** A [SourceItem] built from the dict [s]: [name] must be a string; [page] may be absent or an
    int, and a string is accepted when pydantic can read it as an int,
    which [parse_int] decides. The item has the page as an int. *)
Definition source_item (parse_int : string -> option Z)
  (s : EnhancedRAGService.source) : option EnhancedRAGService.source :=
  match EnhancedRAGService.name s with
  | Py.PStr _ =>
      match EnhancedRAGService.page s with
      | Py.PNone | Py.PInt _ => Some s
      | Py.PStr p =>
          match parse_int p with
          | Some z => Some (EnhancedRAGService.Source (EnhancedRAGService.index s)
                              (EnhancedRAGService.name s) (Py.PInt z)
                              (EnhancedRAGService.score s))
          | None => None
          end
      end
  | _ => None
  end.

(** The list of the [SourceItem]s of [raw_sources]: [None] when one of
    them is refused. *)
Fixpoint source_items (parse_int : string -> option Z)
  (raw_sources : list EnhancedRAGService.source)
  : option (list EnhancedRAGService.source) :=
  match raw_sources with
  | [] => Some []
  | s :: rest =>
      match source_item parse_int s, source_items parse_int rest with
      | Some item, Some items => Some (item :: items)
      | _, _ => None
      end
  end.

(** The dict that [_rag.ask_question] hands to [ask], as [ask] reads it:
    the five keys it looks up with [.get], each absent or with a value of
    the type [ask] takes it for. *)
Module AskResult.
Record t : Type := Make {
  answer : option string;
  sources : option (list EnhancedRAGService.source);
  confidence : option Q;
  confidence_explanation : option string;
  follow_up : option string
}.
End AskResult.

(** [value] if the key is there, else [default]. *)
Definition get {A : Type} (value : option A) (default : A) : A :=
  match value with
  | Some v => v
  | None => default
  end.

(** [SESSIONS[session_id]] after [if session_id not in SESSIONS:
    SESSIONS[session_id] = []]. *)
Definition ensure_session (session_id : string)
  (SESSIONS : gmap string (list message)) : gmap string (list message) :=
  match SESSIONS !! session_id with
  | Some _ => SESSIONS
  | None => <[session_id := []]> SESSIONS
  end.

(** [ask(request)], on the global [SESSIONS]. The call
    [_rag.ask_question(request.question)] of l.80 is the parameter
    [ask_question]: [ask] sees only what it returns, or that it raises.
    [uuid4] is the value of [str(uuid.uuid4())]. The request has passed its
    own validation: its question is not empty. *)
Definition ask (ask_question : string -> M AskResult.t)
  (parse_int : string -> option Z) (uuid4 : string) (request : AskRequest.t)
  (w : world) (SESSIONS : gmap string (list message))
  : response AskResponse.t * world * gmap string (list message) :=
  let SESSIONS := _prune_sessions w SESSIONS in
  let session_id :=
    match AskRequest.session_id request with
    | Some sid => if String.eqb sid "" then uuid4 else sid
    | None => uuid4
    end in
  let SESSIONS := ensure_session session_id SESSIONS in
  match ask_question (AskRequest.question request) w with
  | (Raise _, w') => (HTTPException 500 "Failed to generate answer", w', SESSIONS)
  | (Return result, w') =>
      let answer := get (AskResult.answer result) "" in
      let confidence := get (AskResult.confidence result) 0%Q in
      let confidence_expl := get (AskResult.confidence_explanation result) "" in
      let follow_up := AskResult.follow_up result in
      let raw_sources := get (AskResult.sources result) [] in
      match source_items parse_int raw_sources with
      | None => (ValidationError, w', SESSIONS)
      | Some srcs =>
          let stored :=
            Message (clock w') (AskRequest.question request) answer srcs confidence
                    confidence_expl follow_up in
          let SESSIONS :=
            match SESSIONS !! session_id with
            | Some msgs => <[session_id := (msgs ++ [stored])%list]> SESSIONS
            | None => SESSIONS
            end in
          if Py.Qltb confidence 0 || Py.Qltb 1 confidence
          then (ValidationError, w', SESSIONS)
          else (Ok (AskResponse.Make answer srcs confidence confidence_expl follow_up
                      session_id),
                w', SESSIONS)
      end
  end.

(** [history(session_id)] *)
Definition history (w : world) (session_id : string)
  (SESSIONS : gmap string (list message))
  : response (string * list message) * gmap string (list message) :=
  let SESSIONS := _prune_sessions w SESSIONS in
  match SESSIONS !! session_id with
  | None => (HTTPException 404 "Session not found", SESSIONS)
  | Some history_items => (Ok (session_id, history_items), SESSIONS)
  end.

(** [max((m.get("ts", 0.0) for m in msgs), default=default)] *)
Definition latest (default : Q) (msgs : list message) : Q :=
  match msgs with
  | [] => default
  | m :: rest => fold_left (fun best m' => Py.max best (ts m')) rest (ts m)
  end.

(** [list_sessions()]; the order of the list is the order of the dict,
    which a [gmap] does not keep. *)
Definition list_sessions (w : world) (SESSIONS : gmap string (list message))
  : list SessionInfo.t * gmap string (list message) :=
  let SESSIONS := _prune_sessions w SESSIONS in
  let now := clock w in
  (map (fun item => SessionInfo.Make (fst item) (Z.of_nat (length (snd item)))
                      (latest now (snd item)))
       (map_to_list SESSIONS),
   SESSIONS).

(** [delete_session(session_id)]; [del] of a key that is present does not
    raise, so the handler that answers 500 is never entered. *)
Definition delete_session (w : world) (session_id : string)
  (SESSIONS : gmap string (list message))
  : response (string * string) * gmap string (list message) :=
  let SESSIONS := _prune_sessions w SESSIONS in
  match SESSIONS !! session_id with
  | None => (HTTPException 404 "Session not found", SESSIONS)
  | Some _ => (Ok (session_id, "deleted"), base.delete session_id SESSIONS)
  end.

End chat.

(** ** Scenarios and invariants used in the statements below *)

(** A process just started: the clock at some epoch time, an empty window,
    no call made yet. *)
Definition fresh_world : world := World 1700000000 [] 0 [].

(** Collaborators whose backend always gives the same reply, and whose
    store finds nothing. *)
Definition always (r : reply) : externals :=
  Externals (fun _ _ => r) (fun _ _ => Some []) (fun _ _ => Some []) (fun variants => variants).

(** A backend that fails once on a rate limit and then answers. *)
Definition flaky_backend : externals :=
  Externals (fun n _ => match n with
                        | O => Failure "429 Too Many Requests"
                        | _ => Response (Some "Semester 1 carries 20 credits.")
                        end)
            (fun _ _ => Some []) (fun _ _ => Some []) (fun variants => variants).

(** A backend that is always rate limited, and one that rejects the key. *)
Definition rate_limited_backend : externals :=
  always (Failure "429 Resource exhausted: rate limit").
Definition rejecting_backend : externals :=
  always (Failure "API key not valid").

(** The state of a limiter in use: the window is in the order of the
    calls, none of them in the future; it holds at most one entry more than
    the cap, and when it does its oldest entry has left the last 60
    seconds. *)
Definition window_ok (max_per_minute : Z) (w : world) : Prop :=
  StronglySorted Qle (call_timestamps w) /\
  Forall (fun t => (t <= clock w)%Q) (call_timestamps w) /\
  (Z.of_nat (length (call_timestamps w)) <= max_per_minute + 1)%Z /\
  (Z.of_nat (length (call_timestamps w)) = max_per_minute + 1 ->
   exists t0 rest, call_timestamps w = t0 :: rest /\ (60 < clock w - t0)%Q)%Z.

(** A message of a session, asked at time [t]. *)
Definition asked_at (t : Q) : chat.message :=
  chat.Message t "How many credits?" "20 credits." [] 0.9%Q
    "High confidence based on 1 context blocks across 1 sources." None.

(** [new] cites items of [items], numbered from [base], in increasing
    order: each entry is the source record of the item at its index. *)
Definition cites (items : list EnhancedRAGService.chunk) (base : Z)
  (new : list EnhancedRAGService.source) : Prop :=
  StronglySorted Z.lt (map EnhancedRAGService.index new) /\
  Forall (fun src => exists n item,
            nth_error items n = Some item /\
            EnhancedRAGService.index src = (base + Z.of_nat n)%Z /\
            src = EnhancedRAGService.source_of (EnhancedRAGService.index src) item) new.

(** The characters of the parts, without the separators that join adds. *)
Fixpoint sum_len (parts : list string) : Z :=
  match parts with
  | [] => 0%Z
  | p :: parts' => (EnhancedRAGService.len p + sum_len parts')%Z
  end.

(** The bookkeeping of the packing loop: [total_chars] is the sum of the
    parts, there is one part per source besides the preamble, and once a
    chunk is packed the total is within the budget and the last part ends
    in a newline. *)
Definition accounted (self : EnhancedRAGService.service)
  (st : EnhancedRAGService.packing) : Prop :=
  EnhancedRAGService.total_chars st = sum_len (EnhancedRAGService.context_parts st) /\
  length (EnhancedRAGService.context_parts st)
  = S (length (EnhancedRAGService.sources st)) /\
  (EnhancedRAGService.sources st <> [] ->
   (EnhancedRAGService.total_chars st <= EnhancedRAGService.max_context_chars self)%Z /\
   exists front body,
     EnhancedRAGService.context_parts st = (front ++ [body +:+ nl])%list /\
     front <> []).

(** ** Observations used in the further properties *)

(** The timestamps recorded by the calls of a run of [acquire], one per
    completed call, in the order of the calls. *)
Fixpoint issued (max_per_minute : Z) (gaps : list Q) (w : world) : list Q :=
  match gaps with
  | [] => []
  | gap :: gaps' =>
      match RateLimiter.acquire max_per_minute (elapse gap w) with
      | (Return _, w') => List.last (call_timestamps w') 0%Q :: issued max_per_minute gaps' w'
      | (Raise _, _) => []
      end
  end.

(** Any [n + 1] consecutive entries of [history] span more than 60
    seconds. *)
Definition spaced (n : nat) (history : list Q) : Prop :=
  forall i a b,
    nth_error history i = Some a -> nth_error history (i + n) = Some b ->
    (60 < b - a)%Q.

(** The history of a limiter in use: the window is its tail, what was
    dropped is older than 60 seconds, and the calls so far are spaced. *)
Definition history_ok (max_per_minute : Z) (history : list Q) (w : world) : Prop :=
  window_ok max_per_minute w /\
  (exists dropped,
     history = (dropped ++ call_timestamps w)%list /\
     Forall (fun d => (60 < clock w - d)%Q) dropped) /\
  spaced (Z.to_nat max_per_minute) history.

(** What the retry loop logs for [k] failed attempts, each followed by its
    backoff sleep, the delay doubling from [delay]. *)
Fixpoint retries (prompt : string) (delay : Q) (k : nat) : list event :=
  match k with
  | O => []
  | S k' => EvGenerate prompt :: EvSleep delay :: retries prompt (delay * 2)%Q k'
  end.

(** What a successful invocation returns for the backend's text. *)
Definition formatted_answer (text context_text : string) : GeminiService.generation :=
  let formatted := Py.strip text in
  GeminiService.Generation
    (if negb (Py.contains "Confidence:" formatted)
     then formatted +:+ nl +:+ nl +:+ "Confidence: "
          +:+ fst (GeminiService._estimate_confidence text context_text)
     else formatted)
    (snd (GeminiService._estimate_confidence text context_text)).

(** The variants built so far: the question is among them, none twice,
    each starts with the question, and there are at most [n]. *)
Definition expanded (q : string) (n : nat) (variants : list string) : Prop :=
  In q variants /\ NoDup variants /\
  Forall (fun v => String.prefix q v = true) variants /\
  length variants <= n.

(** [c] is a result of the search for one of [variants]: of the scored
    search, or, where that one raises, of the plain search, with the
    placeholder score 1.0. *)
Definition found_by (ext : externals) (k : Z) (variants : list string)
  (c : EnhancedRAGService.chunk) : Prop :=
  exists variant,
    In variant variants /\
    match similarity_search_with_score ext variant k with
    | Some with_scores => In c (map EnhancedRAGService.scored with_scores)
    | None =>
        match similarity_search ext variant k with
        | Some docs => In c (map EnhancedRAGService.unscored docs)
        | None => False
        end
    end.

(** From [w] to [w'] nothing happened but searches: the clock, the
    limiter's window and the backend's call count are the same, and the
    log grew by search events only. *)
Definition only_searched (w w' : world) : Prop :=
  clock w' = clock w /\
  call_timestamps w' = call_timestamps w /\
  generate_calls w' = generate_calls w /\
  exists added, log w' = (log w ++ added)%list /\ forallb is_search added = true.

(** The parts of a retrieved tuple. *)
Definition score_of (c : EnhancedRAGService.chunk) : Q := fst (fst c).
Definition content_of (c : EnhancedRAGService.chunk) : string := snd (fst c).

(** [by_hash] after the tuples [seen]: one entry per hash, each the tuple
    of a seen chunk under the hash of its content, and for every seen
    chunk the entry under its hash has a score that is not larger. *)
Definition deduplicated (by_hash : list (string * EnhancedRAGService.chunk))
  (seen : list EnhancedRAGService.chunk) : Prop :=
  NoDup (map fst by_hash) /\
  Forall (fun entry =>
            fst entry = EnhancedRAGService._hash_text (content_of (snd entry)) /\
            In (snd entry) seen) by_hash /\
  Forall (fun item =>
            exists kept,
              Py.dict_get String.eqb (EnhancedRAGService._hash_text (content_of item)) by_hash
              = Some kept /\
              (score_of kept <= score_of item)%Q) seen.

(** Ascending by score. *)
Definition by_score (a b : EnhancedRAGService.chunk) : Prop :=
  (score_of a <= score_of b)%Q.

(** The session id that [ask] uses: the one of the request, or the fresh
    one when the request has none (or an empty one). *)
Definition session_of (uuid4 : string) (request : chat.AskRequest.t) : string :=
  match chat.AskRequest.session_id request with
  | Some sid => if String.eqb sid "" then uuid4 else sid
  | None => uuid4
  end.

(** The messages of a session, none for a session that does not exist. *)
Definition messages_of (session_id : string)
  (SESSIONS : gmap string (list chat.message)) : list chat.message :=
  match SESSIONS !! session_id with
  | Some msgs => msgs
  | None => []
  end.

(** [src] cites an item of [items], numbered from [base], and whether that
    item mentions a semester the analysis names is [flag]. *)
Definition cites_semester (a : EnhancedRAGService.analysis)
  (items : list EnhancedRAGService.chunk) (base : Z) (flag : bool)
  (src : EnhancedRAGService.source) : Prop :=
  exists n item,
    nth_error items n = Some item /\
    EnhancedRAGService.index src = (base + Z.of_nat n)%Z /\
    src = EnhancedRAGService.source_of (EnhancedRAGService.index src) item /\
    EnhancedRAGService.context_mentions_semester a (content_of item) = flag.

(** Two pipelines behind [ask]: one that takes two seconds and answers
    every question with the same package, citing one page; one that
    raises. *)
Definition answering_pipeline (question : string) : M chat.AskResult.t :=
  fun w =>
    (Return (chat.AskResult.Make
               (Some "Semester 1 carries 20 credits.")
               (Some [EnhancedRAGService.Source 1 (Py.PStr "mca.pdf") (Py.PInt 3) 0.25%Q])
               (Some 0.85%Q)
               (Some "High confidence based on 1 context blocks across 1 sources.")
               (Some "Would you like a semester-by-semester credit comparison?")),
     elapse 2 w).
Definition failing_pipeline (question : string) : M chat.AskResult.t :=
  raise SearchError.

(** pydantic reading no string as an int. *)
Definition no_coercion (p : string) : option Z := None.

(** * Properties *)

(** ** The embedding on known inputs *)

Example sha1_empty : Sha1.hexdigest "" = "da39a3ee5e6b4b0d3255bfef95601890afd80709".
Proof. vm_compute. reflexivity. Qed.

Example sha1_abc : Sha1.hexdigest "abc" = "a9993e364706816aba3e25717850c26c9cd0d89d".
Proof. vm_compute. reflexivity. Qed.

Example sha1_two_blocks :
  Sha1.hexdigest "abcdbcdecdefdefgefghfghighijhijkijkljklmklmnlmnomnopnopq"
  = "84983e441c3bd26ebaae4aa1f95129e5e54670f1".
Proof. vm_compute. reflexivity. Qed.

Example format_4f_examples :
  Py.format_4f 0.25 = "0.2500" /\ Py.format_4f 1 = "1.0000" /\
  Py.format_4f 12.99996 = "13.0000" /\ Py.format_4f (-0.5) = "-0.5000".
Proof. vm_compute. repeat split. Qed.

Example strip_lower_example : Py.strip (Py.lower "  Semester 2 CREDITS  ") = "semester 2 credits".
Proof. reflexivity. Qed.

Example analyze_question_example :
  EnhancedRAGService._analyze_question "What are the credits for Sem1 and semester 2?"
  = EnhancedRAGService.Analysis ["sem1"; "sem2"] "credits".
Proof. vm_compute. reflexivity. Qed.

(** Two transient failures and then an answer: one [acquire], three
    invocations, sleeps of one and then two seconds. *)
Example generate_answer_backoff_example :
  let ext := Externals (fun n _ => if (n <? 2)%nat then Failure "Deadline exceeded"
                                   else Response (Some "20 credits."))
                       (fun _ _ => Some []) (fun _ _ => Some []) (fun variants => variants) in
  let run := GeminiService.generate_answer ext 60 "How many credits?"
               (GeminiService.CtxStr "Semester 1: 20 credits") fresh_world in
  map (fun e => match e with EvGenerate _ => EvGenerate "" | _ => e end) (log (snd run))
  = [EvAcquire; EvGenerate ""; EvSleep 1; EvGenerate ""; EvSleep 2; EvGenerate ""] /\
  option_map GeminiService.answer
    (match fst run with Return g => Some g | Raise _ => None end)
  = Some ("20 credits." +:+ nl +:+ nl +:+ "Confidence: high").
Proof. vm_compute. split; reflexivity. Qed.

(** The same chunk retrieved twice is cited once, with the lower score. *)
Example build_context_dedup_example :
  snd (EnhancedRAGService._build_context EnhancedRAGService.default_service
         [(0.5%Q, "Semester 1: 20 credits", [("source", Py.PStr "a.pdf")]);
          (0.25%Q, "Semester 1: 20 credits", [("source", Py.PStr "b.pdf"); ("page", Py.PInt 3)])]
         (EnhancedRAGService.Analysis [] "general"))
  = [EnhancedRAGService.Source 1 (Py.PStr "b.pdf") (Py.PInt 3) 0.25%Q].
Proof. vm_compute. reflexivity. Qed.

(** ** Comparisons of rationals *)

Lemma Qltb_lt (x y : Q) : Py.Qltb x y = true <-> (x < y)%Q.
Proof.
  unfold Py.Qltb. rewrite negb_true_iff.
  split; intros H.
  - apply Qnot_le_lt. intros Hle. apply Qle_bool_iff in Hle. congruence.
  - destruct (Qle_bool y x) eqn:E; [|reflexivity].
    apply Qle_bool_iff in E. exfalso. exact (Qlt_not_le _ _ H E).
Qed.

Lemma Qltb_ge (x y : Q) : Py.Qltb x y = false <-> (y <= x)%Q.
Proof.
  unfold Py.Qltb. rewrite negb_false_iff. apply Qle_bool_iff.
Qed.

Lemma min_cases (a b : Q) :
  (Py.min a b = a /\ (a <= b)%Q) \/ (Py.min a b = b /\ (b < a)%Q).
Proof.
  unfold Py.min. destruct (Py.Qltb b a) eqn:E.
  - right. split; [reflexivity | now apply Qltb_lt].
  - left. split; [reflexivity | now apply Qltb_ge].
Qed.

Lemma max_cases (a b : Q) :
  (Py.max a b = a /\ (b <= a)%Q) \/ (Py.max a b = b /\ (a < b)%Q).
Proof.
  unfold Py.max. destruct (Py.Qltb a b) eqn:E.
  - right. split; [reflexivity | now apply Qltb_lt].
  - left. split; [reflexivity | now apply Qltb_ge].
Qed.

(** ** gemini_service.py: the confidence heuristic *)

Lemma len_score_nonneg (n : nat) : (0 <= inject_Z (Z.of_nat n) / 600)%Q.
Proof.
  apply Qle_shift_div_l; [reflexivity|].
  rewrite Qmult_0_l. change 0%Q with (inject_Z 0). rewrite <- Zle_Qle. lia.
Qed.

(** The two branches of the heuristic, read off the code: with a stripped
    answer and a stripped context that are not empty the score is at least
    0.8 and the label is high; any other label needs one of them empty. *)
Lemma estimate_confidence_cases (answer_text context_text : string) :
  let '(label, score) := GeminiService._estimate_confidence answer_text context_text in
  (Py.strip answer_text <> "" -> Py.strip context_text <> "" ->
   (0.8 <= score)%Q /\ label = "high") /\
  (label <> "high" -> Py.strip answer_text = "" \/ Py.strip context_text = "").
Proof.
  unfold GeminiService._estimate_confidence.
  destruct (String.eqb (Py.strip answer_text) "") eqn:Ea.
  - apply String.eqb_eq in Ea. split; [congruence | auto].
  - apply String.eqb_neq in Ea.
    destruct (String.eqb (Py.strip context_text) "") eqn:Ec.
    + apply String.eqb_eq in Ec. split; [congruence | auto].
    + apply String.eqb_neq in Ec.
      pose proof (len_score_nonneg (String.length answer_text)) as Hn.
      set (r := (inject_Z (Z.of_nat (String.length answer_text)) / 600)%Q) in *.
      assert (Hs : (0.8 <= Py.max 0 (Py.min (0.3 + 0.5 * Py.min r 1 + 0.5) 1))%Q).
      { destruct (min_cases r 1) as [[-> ?]|[-> ?]];
          match goal with
          | |- context [Py.min ?x 1] =>
              destruct (min_cases x 1) as [[-> ?]|[-> ?]]
          end;
          match goal with
          | |- context [Py.max 0 ?x] =>
              destruct (max_cases 0 x) as [[-> ?]|[-> ?]]
          end; lra. }
      assert (Hl : Py.Qltb 0.75 (Py.max 0 (Py.min (0.3 + 0.5 * Py.min r 1 + 0.5) 1)) = true).
      { apply Qltb_lt. lra. }
      rewrite Hl. split; [auto | congruence].
Qed.

(** C10, as stated, fails: a whitespace-only answer is not empty, yet the
    code scores it 0.2 and labels it low, whatever the context. *)
Lemma estimate_confidence_whitespace_answer :
  " " <> "" /\ "Semester 1: 20 credits" <> "" /\
  GeminiService._estimate_confidence " " "Semester 1: 20 credits" = ("low", 0.2%Q).
Proof. repeat split; discriminate. Qed.

(** C10 (amended): when the answer text and the context text are both
    non-empty after stripping whitespace, the score computed by
    [_estimate_confidence] is at least 0.8 and the label is high; so the
    labels medium and low are reached only when the stripped answer or the
    stripped context is empty. *)
Theorem estimate_confidence_high (answer_text context_text : string) :
  let label := fst (GeminiService._estimate_confidence answer_text context_text) in
  let score := snd (GeminiService._estimate_confidence answer_text context_text) in
  (Py.strip answer_text <> "" -> Py.strip context_text <> "" ->
   (0.8 <= score)%Q /\ label = "high") /\
  (label = "medium" \/ label = "low" ->
   Py.strip answer_text = "" \/ Py.strip context_text = "").
Proof.
  cbv zeta.
  pose proof (estimate_confidence_cases answer_text context_text) as H.
  destruct (GeminiService._estimate_confidence answer_text context_text)
    as [label score].
  cbn [fst snd]. split; [apply H|].
  intros Hl. apply H. destruct Hl as [-> | ->]; discriminate.
Qed.

Lemma estimate_confidence_high_witness :
  (0.8 <= snd (GeminiService._estimate_confidence "20 credits." "Semester 1"))%Q /\
  fst (GeminiService._estimate_confidence "20 credits." "Semester 1") = "high".
Proof.
  apply (proj1 (estimate_confidence_high "20 credits." "Semester 1"));
    vm_compute; discriminate.
Defined.

(** ** gemini_service.py: [RateLimiter.acquire] step by step *)

(** What one call of [acquire] does to the world. *)
Lemma acquire_unfold (max_per_minute : Z) (w : world) :
  RateLimiter.acquire max_per_minute w =
  let now := clock w in
  let ts := RateLimiter.drop_old now (call_timestamps w) in
  let entered := (log w ++ [EvAcquire])%list in
  if (Z.of_nat (length ts) >=? max_per_minute)%Z
  then match ts with
       | [] => (Raise IndexError, World now [] (generate_calls w) entered)
       | t0 :: _ =>
           let sleep_for := (60 - (now - t0) + 0.01)%Q in
           if Py.Qltb 0 sleep_for
           then (Return tt,
                 World (now + sleep_for)%Q (ts ++ [(now + sleep_for)%Q])
                       (generate_calls w) (entered ++ [EvSleep sleep_for]))
           else (Return tt, World now (ts ++ [now]) (generate_calls w) entered)
       end
  else (Return tt, World now (ts ++ [now]) (generate_calls w) entered).
Proof.
  destruct w as [now ts n lg].
  unfold RateLimiter.acquire, bind, record, time_time, get_timestamps,
    set_timestamps, time_sleep, ret, raise.
  cbn [clock call_timestamps generate_calls log fst snd].
  destruct (Z.of_nat (length (RateLimiter.drop_old now ts)) >=? max_per_minute)%Z;
    [|reflexivity].
  destruct (RateLimiter.drop_old now ts) as [|t0 rest]; [reflexivity|].
  destruct (Py.Qltb 0 (60 - (now - t0) + 0.01)); reflexivity.
Qed.

(** With a positive cap [acquire] returns: the window it indexes is not
    empty. It leaves the backend untouched and logs itself first. *)
Lemma acquire_returns (max_per_minute : Z) (w : world) :
  (0 < max_per_minute)%Z ->
  exists w' slept,
    RateLimiter.acquire max_per_minute w = (Return tt, w') /\
    generate_calls w' = generate_calls w /\
    log w' = (log w ++ EvAcquire :: slept)%list /\
    count is_acquire slept = 0 /\ count is_generate slept = 0.
Proof.
  intros Hcap. rewrite acquire_unfold. cbv zeta.
  destruct (Z.of_nat (length (RateLimiter.drop_old (clock w) (call_timestamps w)))
            >=? max_per_minute)%Z eqn:Hfull.
  - destruct (RateLimiter.drop_old (clock w) (call_timestamps w)) as [|t0 rest].
    + apply Z.geb_le in Hfull. simpl in Hfull. lia.
    + destruct (Py.Qltb 0 (60 - (clock w - t0) + 0.01)).
      * eexists _, [EvSleep _]. cbn [generate_calls log].
        rewrite <- app_assoc. repeat split.
      * eexists _, []. repeat split.
  - eexists _, []. repeat split.
Qed.

Lemma acquire_log (max_per_minute : Z) (w : world) :
  exists slept,
    log (snd (RateLimiter.acquire max_per_minute w)) = (log w ++ EvAcquire :: slept)%list /\
    generate_calls (snd (RateLimiter.acquire max_per_minute w)) = generate_calls w /\
    count is_acquire slept = 0 /\ count is_generate slept = 0.
Proof.
  rewrite acquire_unfold. cbv zeta.
  destruct (Z.of_nat (length (RateLimiter.drop_old (clock w) (call_timestamps w)))
            >=? max_per_minute)%Z.
  - destruct (RateLimiter.drop_old (clock w) (call_timestamps w)) as [|t0 rest].
    + exists []. repeat split.
    + destruct (Py.Qltb 0 (60 - (clock w - t0) + 0.01)).
      * exists [EvSleep (60 - (clock w - t0) + 0.01)%Q]. cbn [snd log generate_calls].
        rewrite <- app_assoc. repeat split.
      * exists []. repeat split.
  - exists []. repeat split.
Qed.

Lemma count_app (kind : event -> bool) (l1 l2 : list event) :
  count kind (l1 ++ l2) = count kind l1 + count kind l2.
Proof. unfold count. now rewrite List.filter_app, length_app. Qed.

(** ** gemini_service.py: the retry loop *)

(** The loop always returns; it logs no [acquire], and one backend
    invocation per attempt made: at least one when the range is not empty,
    never more than the range holds. *)
Lemma attempts_log (ext : externals) (prompt context_text : string)
  (range : list Z) :
  forall (delay : Q) (w : world),
  exists g w' made,
    GeminiService.attempts ext prompt context_text range delay w = (Return g, w') /\
    log w' = (log w ++ made)%list /\
    count is_acquire made = 0 /\
    count is_generate made <= length range /\
    (range <> [] -> 1 <= count is_generate made).
Proof.
  induction range as [|attempt range IH]; intros delay w.
  - exists GeminiService.fallback_generation, w, [].
    rewrite app_nil_r. repeat split; [unfold count; simpl; lia | congruence].
  - cbn [GeminiService.attempts]. unfold bind at 1, call_generate.
    set (w1 := World (clock w) (call_timestamps w) (S (generate_calls w))
                     (log w ++ [EvGenerate prompt])).
    destruct (generate_content ext (generate_calls w) prompt) as [t | message].
    + destruct (GeminiService._estimate_confidence _ context_text) as [label score].
      eexists _, w1, [EvGenerate prompt]. unfold ret.
      repeat split; unfold count; simpl; lia.
    + destruct (GeminiService.is_transient (Py.lower message)).
      * unfold bind, time_sleep.
        set (w2 := World _ _ _ _).
        destruct (IH (delay * 2)%Q w2) as (g & w' & made & Hrun & Hlog & Hacq & Hgen & _).
        exists g, w', (EvGenerate prompt :: EvSleep delay :: made).
        rewrite Hrun. split; [reflexivity|].
        split. { rewrite Hlog. subst w2 w1. cbn [log]. now rewrite <- !app_assoc. }
        change (EvGenerate prompt :: EvSleep delay :: made)
          with ([EvGenerate prompt; EvSleep delay] ++ made)%list.
        rewrite !count_app. cbn [count List.filter is_acquire is_generate length].
        fold (count is_acquire made). fold (count is_generate made).
        repeat split; simpl; lia.
      * eexists _, w1, [EvGenerate prompt]. unfold GeminiService.after_retries, ret.
        repeat split; unfold count; simpl; lia.
Qed.

(** C2, as stated, fails: the backend is attempted twice in one call, and
    [acquire] is called once. *)
Lemma generate_answer_retry_without_acquire :
  let w' := snd (GeminiService.generate_answer flaky_backend 60 "How many credits?"
                   (GeminiService.CtxStr "Semester 1: 20 credits") fresh_world) in
  count is_generate (log w') = 2 /\ count is_acquire (log w') = 1.
Proof. vm_compute. split; reflexivity. Qed.

(** C2 (amended): a call of [generate_answer] enters [acquire] exactly
    once, before every backend invocation of that call; when [acquire]
    returns, the backend is invoked between one and three times, none of
    the retries passing through [acquire] again. *)
Theorem generate_answer_acquires_once (ext : externals) (max_per_minute : Z)
  (question : string) (context : GeminiService.context_arg) (w : world) :
  let run := GeminiService.generate_answer ext max_per_minute question context w in
  exists after,
    log (snd run) = (log w ++ EvAcquire :: after)%list /\
    count is_acquire after = 0 /\
    match fst run with
    | Return _ => 1 <= count is_generate after <= 3
    | Raise _ => count is_generate after = 0
    end.
Proof.
  unfold GeminiService.generate_answer. cbv zeta. unfold bind.
  destruct (acquire_log max_per_minute w) as (slept & Hlog & _ & Hacq & Hgen).
  destruct (RateLimiter.acquire max_per_minute w) as [[[]|e] w1] eqn:Hrun;
    cbn [snd] in Hlog.
  - set (prompt := GeminiService._build_prompt _ _).
    destruct (attempts_log ext prompt (GeminiService.context_text_of context)
                (GeminiService.range_from_1 (GeminiService.max_attempts + 1)) 1%Q w1)
      as (g & w' & made & Hatt & Hlog' & Hacq' & Hgen' & Hone).
    rewrite Hatt. cbn [fst snd].
    exists (slept ++ made)%list.
    split. { rewrite Hlog', Hlog, <- app_assoc. reflexivity. }
    rewrite !count_app, Hacq, Hacq', Hgen. split; [reflexivity|].
    change (length (GeminiService.range_from_1 (GeminiService.max_attempts + 1)))
      with 3 in Hgen'.
    assert (1 <= count is_generate made) by (apply Hone; discriminate).
    lia.
  - cbn [fst snd]. exists slept. auto.
Qed.

(** When every remaining attempt fails on a transient error, the loop uses
    up its range and gives the fallback. *)
Lemma attempts_all_transient (ext : externals) (prompt context_text : string)
  (range : list Z) :
  forall (delay : Q) (w : world),
  (forall i, i < length range ->
     GeminiService.transient_failure
       (generate_content ext (generate_calls w + i) prompt) = true) ->
  exists w',
    GeminiService.attempts ext prompt context_text range delay w
    = (Return GeminiService.fallback_generation, w') /\
    generate_calls w' = generate_calls w + length range.
Proof.
  induction range as [|attempt range IH]; intros delay w Hall.
  - exists w. split; [reflexivity | simpl; lia].
  - cbn [GeminiService.attempts]. unfold bind at 1, call_generate.
    pose proof (Hall 0 ltac:(simpl; lia)) as H0.
    rewrite Nat.add_0_r in H0.
    destruct (generate_content ext (generate_calls w) prompt) as [t | message];
      [discriminate|].
    cbn [GeminiService.transient_failure] in H0. rewrite H0.
    unfold bind, time_sleep.
    set (w2 := World _ _ _ _).
    destruct (IH (delay * 2)%Q w2) as (w' & Hrun & Hcalls).
    { intros i Hi. subst w2. cbn [generate_calls].
      replace (S (generate_calls w) + i) with (generate_calls w + S i) by lia.
      apply Hall. simpl. lia. }
    exists w'. rewrite Hrun. split; [reflexivity|].
    rewrite Hcalls. subst w2. simpl. lia.
Qed.

(** When attempt [k] fails on an error that is not transient, after [k]
    transient failures, the loop ends there and gives the fallback. *)
Lemma attempts_permanent (ext : externals) (prompt context_text : string)
  (range : list Z) :
  forall (k : nat) (delay : Q) (w : world),
  k < length range ->
  (forall i, i < k ->
     GeminiService.transient_failure
       (generate_content ext (generate_calls w + i) prompt) = true) ->
  GeminiService.permanent_failure
    (generate_content ext (generate_calls w + k) prompt) = true ->
  exists w',
    GeminiService.attempts ext prompt context_text range delay w
    = (Return GeminiService.fallback_generation, w') /\
    generate_calls w' = generate_calls w + S k.
Proof.
  induction range as [|attempt range IH]; intros k delay w Hk Hbefore Hperm.
  - simpl in Hk. lia.
  - cbn [GeminiService.attempts]. unfold bind at 1, call_generate.
    destruct k as [|k].
    + rewrite Nat.add_0_r in Hperm.
      destruct (generate_content ext (generate_calls w) prompt) as [t | message];
        [discriminate|].
      cbn [GeminiService.permanent_failure] in Hperm.
      apply negb_true_iff in Hperm. rewrite Hperm.
      eexists. split; [reflexivity|]. simpl. lia.
    + pose proof (Hbefore 0 ltac:(lia)) as H0.
      rewrite Nat.add_0_r in H0.
      destruct (generate_content ext (generate_calls w) prompt) as [t | message];
        [discriminate|].
      cbn [GeminiService.transient_failure] in H0. rewrite H0.
      unfold bind, time_sleep.
      set (w2 := World _ _ _ _).
      destruct (IH k (delay * 2)%Q w2) as (w' & Hrun & Hcalls).
      { simpl in Hk. lia. }
      { intros i Hi. subst w2. cbn [generate_calls].
        replace (S (generate_calls w) + i) with (generate_calls w + S i) by lia.
        apply Hbefore. lia. }
      { subst w2. cbn [generate_calls].
        replace (S (generate_calls w) + k) with (generate_calls w + S k) by lia.
        exact Hperm. }
      exists w'. rewrite Hrun. split; [reflexivity|].
      rewrite Hcalls. subst w2. simpl. lia.
Qed.

(** C5: with a limiter whose cap is positive (so that [acquire] returns),
    a call of [generate_answer] whose three backend invocations all raise a
    transient error invokes the backend exactly three times and returns the
    fallback answer with confidence 0.2; and when invocation [k] (after [k]
    transient failures) raises an error that is not transient, it is the
    last one and the same fallback is returned. No exception reaches the
    caller in either case. *)
Theorem generate_answer_fallback (ext : externals) (max_per_minute : Z)
  (question : string) (context : GeminiService.context_arg) (w : world) :
  (0 < max_per_minute)%Z ->
  let prompt :=
    GeminiService._build_prompt question (GeminiService.context_text_of context) in
  let reply_to i := generate_content ext (generate_calls w + i) prompt in
  let run := GeminiService.generate_answer ext max_per_minute question context w in
  let fallback_answer :=
    GeminiService.Generation
      (GeminiService.fallback +:+ nl +:+ nl +:+ "Confidence: low") 0.2%Q in
  ((forall i, i < 3 -> GeminiService.transient_failure (reply_to i) = true) ->
   fst run = Return fallback_answer /\
   generate_calls (snd run) = generate_calls w + 3) /\
  (forall k, k < 3 ->
   (forall i, i < k -> GeminiService.transient_failure (reply_to i) = true) ->
   GeminiService.permanent_failure (reply_to k) = true ->
   fst run = Return fallback_answer /\
   generate_calls (snd run) = generate_calls w + S k).
Proof.
  intros Hcap. cbv zeta.
  unfold GeminiService.generate_answer. cbv zeta. unfold bind.
  destruct (acquire_returns max_per_minute w Hcap)
    as (w1 & slept & Hacq & Hcalls & _).
  rewrite Hacq.
  change (GeminiService.range_from_1 (GeminiService.max_attempts + 1))
    with [1%Z; 2%Z; 3%Z].
  split.
  - intros Hall.
    destruct (attempts_all_transient ext
                (GeminiService._build_prompt question (GeminiService.context_text_of context))
                (GeminiService.context_text_of context) [1%Z; 2%Z; 3%Z] 1%Q w1)
      as (w' & Hrun & Hn).
    { intros i Hi. rewrite Hcalls. apply Hall. simpl in Hi. lia. }
    rewrite Hrun. cbn [fst snd]. split; [reflexivity|].
    rewrite Hn, Hcalls. reflexivity.
  - intros k Hk Hbefore Hperm.
    destruct (attempts_permanent ext
                (GeminiService._build_prompt question (GeminiService.context_text_of context))
                (GeminiService.context_text_of context) [1%Z; 2%Z; 3%Z] k 1%Q w1)
      as (w' & Hrun & Hn).
    { simpl. lia. }
    { intros i Hi. rewrite Hcalls. now apply Hbefore. }
    { rewrite Hcalls. exact Hperm. }
    rewrite Hrun. cbn [fst snd]. split; [reflexivity|].
    rewrite Hn, Hcalls. reflexivity.
Qed.

Lemma generate_answer_fallback_witness :
  (let run := GeminiService.generate_answer rate_limited_backend 60 "How many credits?"
                (GeminiService.CtxStr "Semester 1: 20 credits") fresh_world in
   fst run = Return (GeminiService.Generation
                       (GeminiService.fallback +:+ nl +:+ nl +:+ "Confidence: low") 0.2%Q) /\
   generate_calls (snd run) = 3) /\
  (let run := GeminiService.generate_answer rejecting_backend 60 "How many credits?"
                (GeminiService.CtxStr "Semester 1: 20 credits") fresh_world in
   fst run = Return (GeminiService.Generation
                       (GeminiService.fallback +:+ nl +:+ nl +:+ "Confidence: low") 0.2%Q) /\
   generate_calls (snd run) = 1).
Proof.
  split.
  - apply (proj1 (generate_answer_fallback rate_limited_backend 60 "How many credits?"
                    (GeminiService.CtxStr "Semester 1: 20 credits") fresh_world
                    ltac:(lia))).
    intros i _. reflexivity.
  - apply (proj2 (generate_answer_fallback rejecting_backend 60 "How many credits?"
                    (GeminiService.CtxStr "Semester 1: 20 credits") fresh_world
                    ltac:(lia)) 0).
    + lia.
    + intros i Hi. lia.
    + reflexivity.
Defined.

(** ** gemini_service.py: the limiter's window *)

Lemma drop_old_suffix (now : Q) (ts : list Q) :
  exists dropped, ts = (dropped ++ RateLimiter.drop_old now ts)%list.
Proof.
  induction ts as [|t0 rest IH]; [now exists []|].
  simpl. destruct (Py.Qltb 60 (now - t0)).
  - destruct IH as [dropped IH]. exists (t0 :: dropped). simpl. now rewrite <- IH.
  - now exists [].
Qed.

Lemma drop_old_length (now : Q) (ts : list Q) :
  length (RateLimiter.drop_old now ts) <= length ts.
Proof.
  destruct (drop_old_suffix now ts) as [dropped H].
  rewrite H at 2. rewrite length_app. lia.
Qed.

Lemma sorted_suffix (l1 l2 : list Q) :
  StronglySorted Qle (l1 ++ l2) -> StronglySorted Qle l2.
Proof.
  induction l1 as [|x l1 IH]; [trivial|].
  simpl. intros H. apply StronglySorted_inv in H. tauto.
Qed.

Lemma sorted_snoc (l : list Q) (x : Q) :
  StronglySorted Qle l -> Forall (fun t => (t <= x)%Q) l ->
  StronglySorted Qle (l ++ [x]).
Proof.
  induction l as [|y l IH]; intros Hs Hle; simpl.
  - constructor; constructor.
  - apply StronglySorted_inv in Hs. destruct Hs as [Hs Hy].
    apply List.Forall_cons_iff in Hle. destruct Hle as [Hyx Hle].
    constructor; [now apply IH|].
    apply List.Forall_app. split; [exact Hy | now constructor].
Qed.

(** After the pruning loop every entry left is at most 60 seconds old. *)
Lemma drop_old_recent (now : Q) (ts : list Q) :
  StronglySorted Qle ts ->
  Forall (fun t => (now - t <= 60)%Q) (RateLimiter.drop_old now ts).
Proof.
  induction ts as [|t0 rest IH]; intros Hs; simpl; [constructor|].
  apply StronglySorted_inv in Hs. destruct Hs as [Hs Ht0].
  destruct (Py.Qltb 60 (now - t0)) eqn:E; [now apply IH|].
  apply Qltb_ge in E. constructor; [exact E|].
  eapply List.Forall_impl; [|exact Ht0]. cbv beta. intros t Ht. lra.
Qed.

Lemma elapse_keeps_window (max_per_minute : Z) (gap : Q) (w : world) :
  (0 <= gap)%Q -> window_ok max_per_minute w ->
  window_ok max_per_minute (elapse gap w).
Proof.
  intros Hgap (Hs & Hpast & Hlen & Hstale).
  unfold window_ok, elapse. cbn [clock call_timestamps].
  repeat split; trivial.
  - eapply List.Forall_impl; [|exact Hpast]. cbv beta. intros t Ht. lra.
  - intros Hfull. destruct (Hstale Hfull) as (t0 & rest & Hts & Hold).
    exists t0, rest. split; [exact Hts | lra].
Qed.

(** [acquire] returns and keeps the window in that state. *)
Lemma acquire_keeps_window (max_per_minute : Z) (w : world) :
  (1 <= max_per_minute)%Z -> window_ok max_per_minute w ->
  exists w', RateLimiter.acquire max_per_minute w = (Return tt, w') /\
             window_ok max_per_minute w'.
Proof.
  intros Hcap (Hs & Hpast & Hlen & Hstale).
  rewrite acquire_unfold. cbv zeta.
  pose proof (drop_old_recent (clock w) _ Hs) as Hrecent.
  destruct (drop_old_suffix (clock w) (call_timestamps w)) as [dropped Hsuffix].
  assert (Hs' : StronglySorted Qle (RateLimiter.drop_old (clock w) (call_timestamps w))).
  { apply (sorted_suffix dropped). now rewrite <- Hsuffix. }
  assert (Hpast' : Forall (fun t => (t <= clock w)%Q)
                          (RateLimiter.drop_old (clock w) (call_timestamps w))).
  { rewrite Hsuffix in Hpast. apply List.Forall_app in Hpast. tauto. }
  assert (Hroom : (Z.of_nat (length (RateLimiter.drop_old (clock w) (call_timestamps w)))
                   <= max_per_minute)%Z).
  { pose proof (drop_old_length (clock w) (call_timestamps w)) as Hle.
    destruct (Z.eq_dec (Z.of_nat (length (call_timestamps w))) (max_per_minute + 1)%Z)
      as [Hfull | Hnot]; [|lia].
    destruct (Hstale Hfull) as (t0 & rest & Hts & Hold).
    rewrite Hts in *. simpl.
    apply Qltb_lt in Hold. rewrite Hold.
    pose proof (drop_old_length (clock w) rest). simpl in Hfull. lia. }
  set (ts := RateLimiter.drop_old (clock w) (call_timestamps w)) in *.
  destruct (Z.of_nat (length ts) >=? max_per_minute)%Z eqn:Hfull.
  - apply Z.geb_le in Hfull.
    destruct ts as [|t0 rest] eqn:Hts; [simpl in Hfull; lia|].
    apply List.Forall_cons_iff in Hrecent. destruct Hrecent as [Ht0 _].
    assert (Hpos : (0 < 60 - (clock w - t0) + 0.01)%Q) by lra.
    apply Qltb_lt in Hpos. rewrite Hpos. apply Qltb_lt in Hpos.
    eexists. split; [reflexivity|].
    unfold window_ok. cbn [clock call_timestamps].
    repeat split.
    + apply sorted_snoc; [exact Hs'|].
      eapply List.Forall_impl; [|exact Hpast']. cbv beta. intros t Ht. lra.
    + apply List.Forall_app. split.
      * eapply List.Forall_impl; [|exact Hpast']. cbv beta. intros t Ht. lra.
      * constructor; [lra | constructor].
    + rewrite length_app. simpl. simpl in Hroom. lia.
    + intros _. exists t0, (rest ++ [(clock w + (60 - (clock w - t0) + 0.01))%Q])%list.
      split; [reflexivity | lra].
  - rewrite Z.geb_leb in Hfull. apply Z.leb_gt in Hfull.
    eexists. split; [reflexivity|].
    unfold window_ok. cbn [clock call_timestamps].
    repeat split.
    + apply sorted_snoc; [exact Hs' | exact Hpast'].
    + apply List.Forall_app. split; [exact Hpast'|].
      constructor; [lra | constructor].
    + rewrite length_app. simpl. lia.
    + rewrite length_app. simpl. lia.
Qed.

Lemma recent_length (now : Q) (ts : list Q) :
  length (RateLimiter.recent now ts) <= length ts.
Proof. unfold RateLimiter.recent. apply List.filter_length_le. Qed.

(** In that state at most [max_per_minute] entries of the window are
    within the last 60 seconds. *)
Lemma window_recent (max_per_minute : Z) (w : world) :
  window_ok max_per_minute w ->
  (Z.of_nat (length (RateLimiter.recent (clock w) (call_timestamps w)))
   <= max_per_minute)%Z.
Proof.
  intros (_ & _ & Hlen & Hstale).
  pose proof (recent_length (clock w) (call_timestamps w)) as Hle.
  destruct (Z.eq_dec (Z.of_nat (length (call_timestamps w))) (max_per_minute + 1)%Z)
    as [Hfull | Hnot]; [|lia].
  destruct (Hstale Hfull) as (t0 & rest & Hts & Hold).
  rewrite Hts in *. unfold RateLimiter.recent. simpl.
  apply Qltb_lt in Hold. rewrite Hold. simpl.
  pose proof (recent_length (clock w) rest) as Hrest.
  unfold RateLimiter.recent in Hrest. simpl in Hfull. lia.
Qed.

Lemma acquire_each_keeps_window (max_per_minute : Z) (gaps : list Q) :
  (1 <= max_per_minute)%Z -> Forall (fun gap => (0 <= gap)%Q) gaps ->
  forall w, window_ok max_per_minute w ->
  exists w', RateLimiter.acquire_each max_per_minute gaps w = (Return tt, w') /\
             window_ok max_per_minute w'.
Proof.
  intros Hcap Hgaps.
  induction Hgaps as [|gap gaps Hgap _ IH]; intros w Hok.
  - now exists w.
  - simpl.
    destruct (acquire_keeps_window max_per_minute (elapse gap w) Hcap
                (elapse_keeps_window _ _ _ Hgap Hok)) as (w1 & Hrun & Hok1).
    rewrite Hrun. now apply IH.
Qed.

(** C3, as stated, fails. With a cap of one call per minute, a second call
    one second after the first sleeps until the first is 60.01 seconds old
    and then records itself without pruning again: the window holds two
    entries, the older of them issued more than 60 seconds ago. *)
Lemma acquire_window_over_cap :
  let run := RateLimiter.acquire_each 1 [0%Q; 1%Q] fresh_world in
  fst run = Return tt /\
  length (call_timestamps (snd run)) = 2 /\
  Py.Qltb 60 (clock (snd run) - hd 0%Q (call_timestamps (snd run))) = true.
Proof. vm_compute. repeat split. Qed.

(** C3 (amended): for a limiter with a cap of at least one, starting with
    an empty window, after every completed [acquire] -- whatever time
    passes between the calls -- the window holds at most
    [max_per_minute + 1] entries, and at most [max_per_minute] of them were
    issued within the last 60 seconds, at that moment and at any later
    time of inspection. Every call completes. *)
Theorem acquire_window (max_per_minute : Z) (gaps : list Q) (w : world) (later : Q) :
  (1 <= max_per_minute)%Z ->
  call_timestamps w = [] ->
  Forall (fun gap => (0 <= gap)%Q) gaps ->
  (0 <= later)%Q ->
  let run := RateLimiter.acquire_each max_per_minute gaps w in
  fst run = Return tt /\
  (Z.of_nat (length (call_timestamps (snd run))) <= max_per_minute + 1)%Z /\
  (Z.of_nat (length (RateLimiter.recent (clock (snd run) + later)
                                        (call_timestamps (snd run))))
   <= max_per_minute)%Z.
Proof.
  intros Hcap Hempty Hgaps Hlater. cbv zeta.
  assert (Hok : window_ok max_per_minute w).
  { unfold window_ok. rewrite Hempty. repeat split; try constructor.
    - simpl. lia.
    - simpl. lia. }
  destruct (acquire_each_keeps_window max_per_minute gaps Hcap Hgaps w Hok)
    as (w' & Hrun & Hok').
  rewrite Hrun. cbn [fst snd]. split; [reflexivity|].
  split; [apply Hok'|].
  apply (window_recent max_per_minute (elapse later w')).
  now apply elapse_keeps_window.
Qed.

Lemma acquire_window_witness :
  let run := RateLimiter.acquire_each 2 [0%Q; 1%Q; 1%Q; 30%Q] fresh_world in
  fst run = Return tt /\
  (Z.of_nat (length (call_timestamps (snd run))) <= 2 + 1)%Z /\
  (Z.of_nat (length (RateLimiter.recent (clock (snd run) + 5)
                                        (call_timestamps (snd run)))) <= 2)%Z.
Proof.
  apply (acquire_window 2 [0%Q; 1%Q; 1%Q; 30%Q] fresh_world 5%Q).
  - lia.
  - reflexivity.
  - repeat constructor; discriminate.
  - discriminate.
Defined.

(** ** enhanced_rag.py: the context packer *)

Import EnhancedRAGService.

Lemma length_append (s1 s2 : string) :
  String.length (s1 +:+ s2) = String.length s1 + String.length s2.
Proof. induction s1 as [|c s1 IH]; simpl; [reflexivity | now rewrite IH]. Qed.









(** *** Citation indices *)

Lemma source_of_index (idx : Z) (item : chunk) : index (source_of idx item) = idx.
Proof. now destruct item as [[score content] meta]. Qed.

Lemma try_append_sources (self : service) (idx : Z) (item : chunk) (st st' : packing) :
  try_append self idx item st = Some st' ->
  sources st' = (sources st ++ [source_of idx item])%list.
Proof.
  unfold try_append.
  destruct (total_chars st + len (segment_of idx item) >? max_context_chars self)%Z;
    [discriminate|].
  intros [= <-]. reflexivity.
Qed.

Lemma cites_shift (item : chunk) (items : list chunk) (base : Z) (new : list source) :
  cites items (base + 1) new ->
  cites (item :: items) base new /\ Forall (fun src => (base < index src)%Z) new.
Proof.
  intros [Hsorted Hall]. split; [split; [exact Hsorted|]|].
  - eapply List.Forall_impl; [|exact Hall]. cbv beta.
    intros src (n & it & Hnth & Hidx & Hsrc).
    exists (S n), it. repeat split; [exact Hnth | lia | exact Hsrc].
  - eapply List.Forall_impl; [|exact Hall]. cbv beta.
    intros src (n & it & _ & Hidx & _). lia.
Qed.

(** Either pass of the loop appends sources that cite the items by their
    position in the list walked. *)
Lemma pack_loop_cites (self : service) (a : analysis) (filtering : bool)
  (items : list chunk) :
  forall (idx : Z) (st : packing),
  exists new,
    sources (pack_loop self a filtering items idx st) = (sources st ++ new)%list /\
    cites items idx new.
Proof.
  induction items as [|item items IH]; intros idx st; simpl.
  - exists []. rewrite app_nil_r. repeat constructor.
  - destruct (filtering && negb (context_mentions_semester a (snd (fst item)))).
    + destruct (IH (idx + 1)%Z st) as (new & Hsrc & Hc).
      exists new. split; [exact Hsrc | now apply cites_shift].
    + destruct (try_append self idx item st) as [st'|] eqn:Happ.
      * destruct (IH (idx + 1)%Z st') as (new & Hsrc & Hc).
        apply try_append_sources in Happ.
        exists (source_of idx item :: new).
        split. { rewrite Hsrc, Happ, <- app_assoc. reflexivity. }
        destruct (cites_shift item items idx new Hc) as [[Hsorted Hall] Hlt].
        split.
        -- simpl. constructor; [exact Hsorted|].
           rewrite source_of_index. apply Forall_map. exact Hlt.
        -- constructor; [|exact Hall].
           exists 0, item. rewrite source_of_index.
           repeat split. simpl. lia.
      * exists []. rewrite app_nil_r. repeat constructor.
Qed.

(** Without the filter nothing is passed over: the indices appended are
    consecutive. *)
Lemma pack_loop_consecutive (self : service) (a : analysis) (items : list chunk) :
  forall (idx : Z) (st : packing),
  exists k,
    map index (sources (pack_loop self a false items idx st))
    = (map index (sources st) ++ map (fun i => idx + Z.of_nat i)%Z (seq 0 k))%list.
Proof.
  induction items as [|item items IH]; intros idx st; simpl.
  - exists 0. simpl. now rewrite app_nil_r.
  - destruct (try_append self idx item st) as [st'|] eqn:Happ.
    + destruct (IH (idx + 1)%Z st') as (k & Hk).
      apply try_append_sources in Happ.
      exists (S k). rewrite Hk, Happ, map_app, <- app_assoc. f_equal.
      cbn [map seq "++"]. rewrite source_of_index. f_equal; [f_equal; lia|].
      rewrite <- seq_shift, map_map. apply map_ext. intros i. lia.
    + exists 0. simpl. now rewrite app_nil_r.
Qed.

Lemma consecutive_from_one (k : nat) :
  map (fun i => 1 + Z.of_nat i)%Z (seq 0 k) = map Z.of_nat (seq 1 k).
Proof.
  rewrite <- seq_shift, map_map. apply map_ext. intros i. lia.
Qed.

(** The sources returned are those of the state after the two loops. *)
Lemma build_context_sources (self : service) (item : chunk) (retrieved : list chunk)
  (a : analysis) :
  let items := ranked (item :: retrieved) in
  let filtering := negb (is_nil (semesters a)) in
  let st := pack_loop self a filtering items 1 (initial a) in
  snd (_build_context self (item :: retrieved) a)
  = sources (if filtering && is_nil (sources st)
             then pack_loop self a false items 1 st else st).
Proof.
  cbv zeta. unfold _build_context.
  set (items := ranked (item :: retrieved)).
  set (st := pack_loop self a (negb (is_nil (semesters a))) items 1 (initial a)).
  set (st2 := if negb (is_nil (semesters a)) && is_nil (sources st)
              then pack_loop self a false items 1 st else st).
  cbn [snd].
  destruct (negb (is_nil (sources st2))); [|reflexivity].
  destruct (total_chars st2 + len (summary_text (sources st2)) <=? max_context_chars self)%Z;
    reflexivity.
Qed.

(** C4, as stated, fails. The question asks for semester 1; the best
    ranked chunk does not mention it and is passed over, the second one is
    packed and keeps its rank: the only source has index 2, not 1. *)
Lemma build_context_index_gap :
  let retrieved :=
    [(0.25%Q, "Grading: internal assessment 40, exam 60", [("source", Py.PStr "rules.pdf")]);
     (0.5%Q, "Semester 1: 20 credits", [("source", Py.PStr "mca.pdf")])] in
  let srcs := snd (_build_context default_service retrieved (Analysis ["sem1"] "credits")) in
  map index srcs = [2%Z] /\
  map index srcs <> map Z.of_nat (seq 1 (length srcs)).
Proof. vm_compute. split; [reflexivity | discriminate]. Qed.

(** C4 (amended): the index of a source is the 1-based position of its
    chunk in the ranked list (deduplicated, sorted by score); the indices
    increase strictly along the sources. They are exactly 1, 2, ..., n when the analysis names no
    semester, and when the filtered pass packs nothing and the packer
    falls back to the full ranked list. *)
Theorem build_context_indices (self : service) (retrieved : list chunk) (a : analysis) :
  let srcs := snd (_build_context self retrieved a) in
  let items := ranked retrieved in
  StronglySorted Z.lt (map index srcs) /\
  Forall (fun src => exists item,
            nth_error items (Z.to_nat (index src - 1)) = Some item /\
            (1 <= index src)%Z /\
            src = source_of (index src) item) srcs /\
  (semesters a = [] \/ sources (pack_loop self a true items 1 (initial a)) = [] ->
   map index srcs = map Z.of_nat (seq 1 (length srcs))).
Proof.
  cbv zeta. destruct retrieved as [|item retrieved].
  { simpl. repeat split; constructor. }
  rewrite build_context_sources. cbv zeta.
  set (items := ranked (item :: retrieved)).
  set (st := pack_loop self a (negb (is_nil (semesters a))) items 1 (initial a)).
  assert (Hcited : forall new, cites items 1 new ->
            StronglySorted Z.lt (map index new) /\
            Forall (fun src => exists it,
                      nth_error items (Z.to_nat (index src - 1)) = Some it /\
                      (1 <= index src)%Z /\ src = source_of (index src) it) new).
  { intros new [Hsorted Hall]. split; [exact Hsorted|].
    eapply List.Forall_impl; [|exact Hall]. cbv beta.
    intros src (n & it & Hnth & Hidx & Hsrc). exists it.
    replace (Z.to_nat (index src - 1)) with n by lia.
    repeat split; [exact Hnth | lia | exact Hsrc]. }
  destruct (pack_loop_cites self a (negb (is_nil (semesters a))) items 1 (initial a))
    as (new1 & Hsrc1 & Hc1).
  fold st in Hsrc1. cbn [sources initial "++"] in Hsrc1.
  destruct (negb (is_nil (semesters a)) && is_nil (sources st)) eqn:Hfall.
  - (* the fallback pass *)
    apply andb_true_iff in Hfall. destruct Hfall as [Hfilter Hnone].
    assert (Hempty : sources st = []) by (destruct (sources st); [reflexivity | discriminate]).
    destruct (pack_loop_cites self a false items 1 st) as (new2 & Hsrc2 & Hc2).
    rewrite Hempty in Hsrc2. cbn ["++"] in Hsrc2. rewrite Hsrc2.
    destruct (Hcited new2 Hc2) as [Hsorted Hall].
    repeat split; [exact Hsorted | exact Hall |].
    intros _. rewrite <- Hsrc2.
    destruct (pack_loop_consecutive self a items 1 st) as (k & Hk).
    rewrite Hempty in Hk. cbn [map "++"] in Hk.
    assert (Hlen : length (sources (pack_loop self a false items 1 st)) = k).
    { rewrite <- (length_map index), Hk, length_map. apply length_seq. }
    rewrite Hlen, Hk. apply consecutive_from_one.
  - rewrite Hsrc1. destruct (Hcited new1 Hc1) as [Hsorted Hall].
    repeat split; [exact Hsorted | exact Hall |].
    intros Hplain. rewrite <- Hsrc1.
    destruct (negb (is_nil (semesters a))) eqn:Hfilter.
    + (* the filter is on: the filtered pass packed something *)
      destruct Hplain as [Hsem | Hnone].
      * rewrite Hsem in Hfilter. discriminate.
      * fold items in Hnone. fold st in Hnone.
        rewrite Hnone in Hfall. discriminate.
    + destruct (pack_loop_consecutive self a items 1 (initial a)) as (k & Hk).
      fold st in Hk. cbn [sources initial map "++"] in Hk.
      assert (Hlen : length (sources st) = k).
      { rewrite <- (length_map index), Hk, length_map. apply length_seq. }
      rewrite Hlen, Hk. apply consecutive_from_one.
Qed.

Lemma build_context_indices_witness :
  let retrieved :=
    [(0.25%Q, "Grading: internal assessment 40, exam 60", [("source", Py.PStr "rules.pdf")]);
     (0.5%Q, "Semester 1: 20 credits", [("source", Py.PStr "mca.pdf")])] in
  let srcs := snd (_build_context default_service retrieved (Analysis [] "general")) in
  map index srcs = map Z.of_nat (seq 1 (length srcs)).
Proof.
  cbv zeta.
  apply (build_context_indices default_service
           [(0.25%Q, "Grading: internal assessment 40, exam 60", [("source", Py.PStr "rules.pdf")]);
            (0.5%Q, "Semester 1: 20 credits", [("source", Py.PStr "mca.pdf")])]
           (Analysis [] "general")).
  left. reflexivity.
Defined.

(** *** How far the text can pass the budget *)

Lemma append_assoc (s1 s2 s3 : string) : (s1 +:+ s2) +:+ s3 = s1 +:+ (s2 +:+ s3).
Proof.
  induction s1 as [|c s1 IH]; [reflexivity|].
  change (String c ((s1 +:+ s2) +:+ s3) = String c (s1 +:+ (s2 +:+ s3))).
  now f_equal.
Qed.

Lemma len_append (s1 s2 : string) : len (s1 +:+ s2) = (len s1 + len s2)%Z.
Proof. unfold len. rewrite length_append. lia. Qed.

Lemma lstrip_length (s : string) : String.length (Py.lstrip s) <= String.length s.
Proof.
  induction s as [|c s IH]; simpl; [lia|].
  destruct (Py.isspace c); simpl; lia.
Qed.

Lemma rstrip_length (s : string) : String.length (Py.rstrip s) <= String.length s.
Proof.
  induction s as [|c s IH]; simpl; [lia|].
  destruct (Py.rstrip s); [destruct (Py.isspace c)|]; simpl in *; lia.
Qed.

Lemma rstrip_newline (s : string) : Py.rstrip (s +:+ nl) = Py.rstrip s.
Proof.
  induction s as [|c s IH]; [reflexivity|].
  simpl. now rewrite IH.
Qed.

Lemma lstrip_newline (s : string) :
  Py.lstrip (s +:+ nl) = "" \/ Py.lstrip (s +:+ nl) = Py.lstrip s +:+ nl.
Proof.
  induction s as [|c s IH]; [now left|].
  simpl. destruct (Py.isspace c); [exact IH | now right].
Qed.

(** Stripping a text that ends in a newline removes that newline at
    least. *)
Lemma strip_newline (s : string) : (len (Py.strip (s +:+ nl)) <= len s)%Z.
Proof.
  unfold Py.strip, len.
  destruct (lstrip_newline s) as [-> | ->].
  - simpl. lia.
  - rewrite rstrip_newline.
    pose proof (rstrip_length (Py.lstrip s)). pose proof (lstrip_length s). lia.
Qed.

Lemma join_snoc (front : list string) (p : string) :
  front <> [] -> Py.join nl (front ++ [p]) = Py.join nl front +:+ nl +:+ p.
Proof.
  induction front as [|q front IH]; [congruence|]. intros _.
  destruct front as [|q' front]; [reflexivity|].
  change (Py.join nl ((q :: q' :: front) ++ [p]))
    with (q +:+ nl +:+ Py.join nl ((q' :: front) ++ [p])).
  rewrite IH by discriminate.
  change (Py.join nl (q :: q' :: front)) with (q +:+ nl +:+ Py.join nl (q' :: front)).
  now rewrite !append_assoc.
Qed.

Lemma sum_len_app (l1 l2 : list string) :
  sum_len (l1 ++ l2) = (sum_len l1 + sum_len l2)%Z.
Proof. induction l1 as [|p l1 IH]; simpl; [reflexivity | rewrite IH; lia]. Qed.

Lemma join_len (parts : list string) :
  parts <> [] ->
  len (Py.join nl parts) = (sum_len parts + Z.of_nat (length parts) - 1)%Z.
Proof.
  induction parts as [|p parts IH]; [congruence|]. intros _.
  destruct parts as [|q parts].
  - simpl. lia.
  - change (Py.join nl (p :: q :: parts)) with (p +:+ nl +:+ Py.join nl (q :: parts)).
    rewrite !len_append, IH by discriminate.
    change (len nl) with 1%Z. cbn [sum_len length]. lia.
Qed.

(** A text whose last part ends in a newline loses at least that newline
    when stripped. *)
Lemma strip_join_newline (front : list string) (body : string) :
  front <> [] ->
  (len (Py.strip (Py.join nl (front ++ [body +:+ nl])))
   <= len (Py.join nl (front ++ [body +:+ nl])) - 1)%Z.
Proof.
  intros Hne. rewrite join_snoc by exact Hne.
  rewrite <- !append_assoc.
  pose proof (strip_newline ((Py.join nl front +:+ nl) +:+ body)) as H.
  rewrite (len_append _ nl). change (len nl) with 1%Z. lia.
Qed.

Lemma segment_ends_newline (idx : Z) (item : chunk) :
  exists body, segment_of idx item = body +:+ nl.
Proof.
  destruct item as [[score content] meta]. unfold segment_of.
  match goal with
  | |- exists body, ?h +:+ nl +:+ content +:+ nl = _ =>
      exists (h +:+ nl +:+ content)
  end.
  now rewrite !append_assoc.
Qed.

Lemma summary_ends_newline (srcs : list source) :
  exists body, summary_text srcs = body +:+ nl.
Proof.
  unfold summary_text.
  match goal with
  | |- exists body, ?h +:+ nl +:+ ?lines +:+ nl = _ =>
      exists (h +:+ nl +:+ lines)
  end.
  now rewrite !append_assoc.
Qed.

Lemma try_append_accounted (self : service) (idx : Z) (item : chunk) (st st' : packing) :
  accounted self st -> try_append self idx item st = Some st' ->
  accounted self st' /\ sources st' <> [].
Proof.
  intros (Hsum & Hparts & Hpacked). unfold try_append.
  destruct (total_chars st + len (segment_of idx item) >? max_context_chars self)%Z eqn:E;
    [discriminate|].
  rewrite Z.gtb_ltb in E. apply Z.ltb_ge in E.
  intros [= <-]. unfold accounted. cbn [sources context_parts total_chars].
  split; [|now destruct (sources st)].
  repeat split.
  - rewrite sum_len_app, Hsum. simpl. lia.
  - rewrite !length_app, Hparts. simpl. lia.
  - exact E.
  - destruct (segment_ends_newline idx item) as [body ->].
    exists (context_parts st), body. split; [reflexivity|].
    destruct (context_parts st); [discriminate | discriminate].
Qed.

Lemma pack_loop_accounted (self : service) (a : analysis) (filtering : bool)
  (items : list chunk) :
  forall (idx : Z) (st : packing),
  accounted self st -> accounted self (pack_loop self a filtering items idx st).
Proof.
  induction items as [|item items IH]; intros idx st Hst; simpl; [exact Hst|].
  destruct (filtering && negb (context_mentions_semester a (snd (fst item)))).
  - now apply IH.
  - destruct (try_append self idx item st) as [st'|] eqn:Happ; [|exact Hst].
    apply IH. eapply try_append_accounted; eassumption.
Qed.

Lemma initial_accounted (self : service) (a : analysis) : accounted self (initial a).
Proof.
  unfold accounted. cbn [initial total_chars context_parts sources sum_len length].
  repeat split; try lia; congruence.
Qed.

(** The nearest bound that holds: when at least one chunk is packed, the
    parts of the text add up to at most [max_context_chars], and the text
    itself, with the newlines that join the parts, is longer than the
    budget by at most one character per packed chunk. *)
Lemma build_context_bound (self : service) (retrieved : list chunk) (a : analysis) :
  snd (_build_context self retrieved a) <> [] ->
  (len (fst (_build_context self retrieved a))
   <= max_context_chars self + Z.of_nat (length (snd (_build_context self retrieved a))))%Z.
Proof.
  destruct retrieved as [|item retrieved]; [simpl; congruence|].
  unfold _build_context.
  set (items := ranked (item :: retrieved)).
  set (st := pack_loop self a (negb (is_nil (semesters a))) items 1 (initial a)).
  set (st2 := if negb (is_nil (semesters a)) && is_nil (sources st)
              then pack_loop self a false items 1 st else st).
  assert (Hacc : accounted self st2).
  { assert (Hst : accounted self st)
      by (apply pack_loop_accounted, initial_accounted).
    subst st2. destruct (negb (is_nil (semesters a)) && is_nil (sources st));
      [now apply pack_loop_accounted | exact Hst]. }
  destruct Hacc as (Hsum & Hparts & Hpacked).
  destruct (sources st2) as [|src srcs] eqn:Hsrcs.
  { cbn [is_nil negb snd]. rewrite Hsrcs. congruence. }
  destruct Hpacked as (Hfit & front & body & Hlast & Hfront); [discriminate|].
  cbn [is_nil negb].
  destruct (total_chars st2 + len (summary_text (src :: srcs)) <=? max_context_chars self)%Z
    eqn:Hroom; cbn [fst snd context_parts sources]; rewrite ?Hsrcs; intros _.
  - apply Z.leb_le in Hroom.
    destruct (summary_ends_newline (src :: srcs)) as [tail Htail].
    rewrite Htail in *.
    assert (Hne : context_parts st2 <> []) by (rewrite Hlast; now destruct front).
    pose proof (strip_join_newline (context_parts st2) tail Hne) as Hstrip.
    rewrite join_len in Hstrip by (now destruct (context_parts st2)).
    rewrite sum_len_app, length_app, Hparts in Hstrip.
    cbn [sum_len length] in Hstrip. cbn [length]. lia.
  - pose proof (strip_join_newline front body Hfront) as Hstrip.
    rewrite join_len in Hstrip by (now destruct front).
    rewrite <- Hlast, Hparts in Hstrip.
    cbn [length] in *. lia.
Qed.

(** C1 fails on the code: one chunk of 5504 characters, packed with the
    default budget of 6000. Preamble (412), segment (5541) and summary (47)
    add up to 6000 exactly, so all three are accepted; the two newlines
    that join them are not counted, and the text returned has 6001
    characters. *)
Lemma build_context_over_budget :
  let content := string_of_list_ascii (repeat "a"%char (N.to_nat 5504)) in
  let retrieved := [(0.25%Q, content, [("source", Py.PStr "mca.pdf")])] in
  let bundle := _build_context default_service retrieved (Analysis [] "general") in
  max_context_chars default_service = 6000%Z /\
  len (fst bundle) = 6001%Z /\
  length (snd bundle) = 1.
Proof. vm_compute. repeat split. Qed.

(** ** enhanced_rag.py: [ask_question] *)

(** C6 fails on the code. The lines of the blank-question path, l.192-203
    (the [def], the docstring, the strip, [if not question:] and its
    [return]), are well formed in themselves, but the function they
    belong to is not: it does not compile, so the module cannot be
    imported and no question, blank or not, gets the fixed response. *)
Theorem ask_question_blank_not_reached :
  exists blank_path rest,
    ask_question_text = (blank_path ++ rest)%list /\
    map Syntax.first_line blank_path = [192; 193; 201; 202; 203]%Z /\
    Syntax.check class_body None blank_path = Syntax.Accepted /\
    compile_ask_question <> Syntax.Accepted.
Proof.
  exists (firstn 5 ask_question_text), (skipn 5 ask_question_text).
  split; [symmetry; apply firstn_skipn|].
  split; [reflexivity|]. split; [reflexivity|].
  vm_compute. discriminate.
Qed.

(** C8 fails on the code. The [return] of the insufficient-context path,
    l.211-217, stands at the indentation of its [if], l.210, so the [if]
    has no block: compiling [ask_question] raises [IndentationError] at
    l.211 (expected an indented block after the [if] statement on line
    210), and no answer package, with five fields or fewer, is ever
    returned. *)
Theorem ask_question_indentation_error :
  compile_ask_question
  = Syntax.IndentationError (Syntax.ExpectedBlock "if" 210) (Some 211%Z).
Proof. reflexivity. Qed.

(** ** routers/chat.py: pruning the session store *)

Lemma fold_delete_lookup (ids : list string) :
  forall (store : gmap string (list chat.message)) (sid : string),
  fold_left (fun store sid => delete sid store) ids store !! sid
  = if decide (sid ∈ ids) then None else store !! sid.
Proof.
  induction ids as [|id ids IH]; intros store sid; simpl.
  - destruct (decide (sid ∈ [])) as [Hin | _]; [|reflexivity].
    now apply elem_of_nil in Hin.
  - rewrite IH.
    destruct (decide (sid ∈ ids)) as [Hin | Hnot].
    + destruct (decide (sid ∈ id :: ids)) as [_ | Hout]; [reflexivity|].
      exfalso. apply Hout. now apply list_elem_of_further.
    + destruct (decide (sid ∈ id :: ids)) as [Hin | Hout].
      * apply elem_of_cons in Hin. destruct Hin as [-> | Hin]; [|contradiction].
        apply lookup_delete_eq.
      * apply lookup_delete_ne. intros ->. apply Hout. apply list_elem_of_here.
Qed.

Lemma to_delete_spec (now : Q) (store : gmap string (list chat.message)) (sid : string) :
  In sid (chat.to_delete now store) <->
  exists msgs, store !! sid = Some msgs /\ chat.expired now msgs = true.
Proof.
  unfold chat.to_delete. rewrite in_map_iff. split.
  - intros ([sid' msgs] & <- & Hin). apply List.filter_In in Hin.
    destruct Hin as [Hin Hexp]. exists msgs. split; [|exact Hexp].
    apply elem_of_map_to_list. now apply list_elem_of_In.
  - intros (msgs & Hlook & Hexp). exists (sid, msgs). split; [reflexivity|].
    apply List.filter_In. split; [|exact Hexp].
    apply list_elem_of_In. now apply elem_of_map_to_list.
Qed.

(** What pruning does to one session id. *)
Lemma prune_lookup (w : world) (store : gmap string (list chat.message)) (sid : string) :
  chat._prune_sessions w store !! sid
  = match store !! sid with
    | Some msgs => if chat.expired (clock w) msgs then None else Some msgs
    | None => None
    end.
Proof.
  unfold chat._prune_sessions. rewrite fold_delete_lookup.
  destruct (decide (sid ∈ chat.to_delete (clock w) store)) as [Hin | Hnot].
  - apply list_elem_of_In, to_delete_spec in Hin. destruct Hin as (msgs & -> & ->). reflexivity.
  - destruct (store !! sid) as [msgs|] eqn:Hlook; [|reflexivity].
    destruct (chat.expired (clock w) msgs) eqn:Hexp; [|reflexivity].
    exfalso. apply Hnot. apply list_elem_of_In, to_delete_spec. eauto.
Qed.

(** [last_ts] of a session with messages is the largest of their
    timestamps. *)
Lemma last_ts_fold (rest : list chat.message) :
  forall best : Q,
  let top := fold_left (fun best m' => Py.max best (chat.ts m')) rest best in
  (best <= top)%Q /\
  Forall (fun m => (chat.ts m <= top)%Q) rest /\
  (top = best \/ Exists (fun m => top = chat.ts m) rest).
Proof.
  induction rest as [|m rest IH]; intros best; cbn [fold_left]; cbv zeta.
  - split; [apply Qle_refl | split; [constructor | now left]].
  - destruct (IH (Py.max best (chat.ts m))) as (Hle & Hall & Hwit).
    destruct (max_cases best (chat.ts m)) as [[Hmax Hcmp] | [Hmax Hcmp]];
      rewrite Hmax in *.
    + split; [exact Hle|]. split.
      * constructor; [lra | exact Hall].
      * destruct Hwit as [-> | Hex]; [now left | right; now constructor 2].
    + split; [lra|]. split.
      * constructor; [exact Hle | exact Hall].
      * right. destruct Hwit as [-> | Hex]; [now constructor 1 | now constructor 2].
Qed.

(** C7 fails on the code: a session created empty by [create_session] is
    removed by a pruning one second later, long before the TTL has elapsed
    since its creation. For a session without messages [_prune_sessions]
    takes 0.0 as the time of its last activity. *)
Lemma prune_fresh_empty_session :
  let store := chat.create_session fresh_world "3f2a" (∅ : gmap string (list chat.message)) in
  store !! "3f2a" = Some [] /\
  chat._prune_sessions (elapse 1 fresh_world) store !! "3f2a" = None.
Proof.
  cbv zeta. unfold chat.create_session.
  split; [apply lookup_insert_eq|].
  rewrite prune_lookup, lookup_insert_eq. reflexivity.
Qed.

(** What pruning does keep to: it removes a session that has messages
    exactly when its most recent message timestamp -- the largest among
    its messages -- is more than the TTL (86400 seconds) before the time
    of pruning; a session with messages that is kept is kept unchanged,
    and pruning adds no session. *)
Theorem prune_sessions_spec (w : world) (store : gmap string (list chat.message)) :
  (forall sid m msgs,
     store !! sid = Some (m :: msgs) ->
     chat._prune_sessions w store !! sid
     = if Py.Qltb chat.SESSION_TTL_SECONDS (clock w - chat.last_ts (m :: msgs))
       then None else Some (m :: msgs)) /\
  (forall sid, store !! sid = None -> chat._prune_sessions w store !! sid = None) /\
  chat.SESSION_TTL_SECONDS = 86400%Q /\
  (forall m msgs,
     Forall (fun m' => (chat.ts m' <= chat.last_ts (m :: msgs))%Q) (m :: msgs) /\
     Exists (fun m' => chat.last_ts (m :: msgs) = chat.ts m') (m :: msgs)).
Proof.
  split; [intros sid m msgs Hlook; rewrite prune_lookup, Hlook; reflexivity|].
  split; [intros sid Hlook; rewrite prune_lookup, Hlook; reflexivity|].
  split; [reflexivity|].
  intros m msgs. unfold chat.last_ts.
  destruct (last_ts_fold msgs (chat.ts m)) as (Hle & Hall & Hwit).
  split.
  - constructor; [exact Hle | exact Hall].
  - destruct Hwit as [-> | Hex]; [now constructor 1 | now constructor 2].
Qed.

Lemma prune_sessions_spec_witness :
  let store : gmap string (list chat.message) :=
    {[ "3f2a" := [asked_at 1699900000; asked_at 1699990000] ]} in
  chat._prune_sessions fresh_world store !! "3f2a"
  = Some [asked_at 1699900000; asked_at 1699990000] /\
  chat._prune_sessions (elapse 86400 fresh_world) store !! "3f2a" = None.
Proof.
  cbv zeta. split.
  - rewrite (proj1 (prune_sessions_spec fresh_world _) "3f2a"
               (asked_at 1699900000) [asked_at 1699990000]
               ltac:(apply lookup_singleton_eq)).
    reflexivity.
  - rewrite (proj1 (prune_sessions_spec (elapse 86400 fresh_world) _) "3f2a"
               (asked_at 1699900000) [asked_at 1699990000]
               ltac:(apply lookup_singleton_eq)).
    reflexivity.
Defined.

(** * Further properties *)

(** ** gemini_service.py: the limiter as a rate limit *)

Lemma drop_old_dropped (now : Q) (ts : list Q) :
  exists dropped,
    ts = (dropped ++ RateLimiter.drop_old now ts)%list /\
    Forall (fun d => (60 < now - d)%Q) dropped.
Proof.
  induction ts as [|t0 rest IH]; [exists []; split; [reflexivity | constructor]|].
  simpl. destruct (Py.Qltb 60 (now - t0)) eqn:E.
  - destruct IH as (dropped & Hsplit & Hold). exists (t0 :: dropped). split.
    + simpl. now rewrite <- Hsplit.
    + constructor; [now apply Qltb_lt | exact Hold].
  - exists []. split; [reflexivity | constructor].
Qed.

Lemma elapse_keeps_history (max_per_minute : Z) (history : list Q) (gap : Q) (w : world) :
  (0 <= gap)%Q -> history_ok max_per_minute history w ->
  history_ok max_per_minute history (elapse gap w).
Proof.
  intros Hgap (Hok & (dropped & Hsplit & Hold) & Hspaced).
  split; [now apply elapse_keeps_window|]. split; [|exact Hspaced].
  exists dropped. split; [exact Hsplit|].
  eapply List.Forall_impl; [|exact Hold]. cbv beta. unfold elapse. cbn [clock].
  intros d Hd. lra.
Qed.

Lemma last_snoc (l : list Q) (x d : Q) : List.last (l ++ [x]) d = x.
Proof. apply last_last. Qed.

(** One more call: it completes, and the history with its timestamp added
    is still spaced. *)
Lemma acquire_keeps_history (max_per_minute : Z) (history : list Q) (w : world) :
  (1 <= max_per_minute)%Z -> history_ok max_per_minute history w ->
  exists w',
    RateLimiter.acquire max_per_minute w = (Return tt, w') /\
    history_ok max_per_minute (history ++ [List.last (call_timestamps w') 0%Q]) w'.
Proof.
  intros Hcap (Hok & (dropped & Hsplit & Hold) & Hspaced).
  destruct (acquire_keeps_window max_per_minute w Hcap Hok) as (w' & Hrun & Hok').
  exists w'. split; [exact Hrun|]. split; [exact Hok'|].
  destruct Hok as (Hs & Hpast & Hlen & Hstale).
  destruct (drop_old_dropped (clock w) (call_timestamps w)) as (dropped2 & Hsplit2 & Hold2).
  pose proof (drop_old_recent (clock w) _ Hs) as Hrecent.
  assert (Hroom : (Z.of_nat (length (RateLimiter.drop_old (clock w) (call_timestamps w)))
                   <= max_per_minute)%Z).
  { pose proof (drop_old_length (clock w) (call_timestamps w)) as Hle.
    destruct (Z.eq_dec (Z.of_nat (length (call_timestamps w))) (max_per_minute + 1)%Z)
      as [Hfull | Hnot]; [|lia].
    destruct (Hstale Hfull) as (t0 & rest & Hts & Hstale0).
    rewrite Hts in *. simpl.
    apply Qltb_lt in Hstale0. rewrite Hstale0.
    pose proof (drop_old_length (clock w) rest). simpl in Hfull. lia. }
  rewrite acquire_unfold in Hrun. cbv zeta in Hrun.
  set (ts := RateLimiter.drop_old (clock w) (call_timestamps w)) in *.
  (* the time recorded, and what is known of it *)
  assert (Hnew : exists t',
             call_timestamps w' = (ts ++ [t'])%list /\ clock w' = t' /\
             (clock w <= t')%Q /\
             (Z.of_nat (length ts) = max_per_minute ->
              exists t0 rest, ts = t0 :: rest /\ (60 < t' - t0)%Q)).
  { destruct (Z.of_nat (length ts) >=? max_per_minute)%Z eqn:Hfull.
    - destruct ts as [|t0 rest] eqn:Hts; [discriminate|].
      apply List.Forall_cons_iff in Hrecent. destruct Hrecent as [Ht0 _].
      assert (Hpos : (0 < 60 - (clock w - t0) + 0.01)%Q) by lra.
      apply Qltb_lt in Hpos. rewrite Hpos in Hrun. apply Qltb_lt in Hpos.
      injection Hrun as <-. eexists. cbn [call_timestamps clock].
      repeat split; [lra|]. intros _. exists t0, rest. split; [reflexivity | lra].
    - rewrite Z.geb_leb in Hfull. apply Z.leb_gt in Hfull.
      injection Hrun as <-. eexists. cbn [call_timestamps clock].
      repeat split; [lra | lia]. }
  destruct Hnew as (t' & Hts' & Hclock & Hlater & Hslept).
  rewrite Hts', last_snoc. split.
  - exists (dropped ++ dropped2)%list. split.
    + rewrite Hsplit, Hsplit2 at 1. fold ts. now rewrite <- !app_assoc.
    + rewrite Hclock. apply List.Forall_app. split.
      * eapply List.Forall_impl; [|exact Hold]. cbv beta. intros d Hd. lra.
      * eapply List.Forall_impl; [|exact Hold2]. cbv beta. intros d Hd. lra.
  - (* the new pairs end at the new timestamp *)
    intros i a b Ha Hb.
    assert (Hhist : history = ((dropped ++ dropped2) ++ ts)%list).
    { rewrite Hsplit, Hsplit2 at 1. fold ts. now rewrite <- !app_assoc. }
    destruct (Nat.lt_ge_cases (i + Z.to_nat max_per_minute) (length history)) as [Hin | Hout].
    + rewrite nth_error_app1 in Hb by exact Hin.
      rewrite nth_error_app1 in Ha by lia.
      exact (Hspaced i a b Ha Hb).
    + assert (Hi : i + Z.to_nat max_per_minute = length history).
      { assert (Hlt : i + Z.to_nat max_per_minute < length (history ++ [t']))
          by (apply nth_error_Some; rewrite Hb; discriminate).
        rewrite length_app in Hlt. simpl in Hlt. lia. }
      rewrite Hi, nth_error_app2, Nat.sub_diag in Hb by lia.
      injection Hb as <-.
      rewrite nth_error_app1 in Ha by lia.
      rewrite Hhist in Ha, Hi. rewrite length_app in Hi.
      destruct (Nat.lt_ge_cases i (length (dropped ++ dropped2))) as [Hold_i | Hwin].
      * rewrite nth_error_app1 in Ha by exact Hold_i.
        apply nth_error_In in Ha. apply in_app_or in Ha.
        destruct Ha as [Ha | Ha].
        -- rewrite List.Forall_forall in Hold. specialize (Hold a Ha). lra.
        -- rewrite List.Forall_forall in Hold2. specialize (Hold2 a Ha). lra.
      * assert (Hfull : Z.of_nat (length ts) = max_per_minute) by lia.
        destruct (Hslept Hfull) as (t0 & rest & Hts0 & Hgap).
        rewrite nth_error_app2 in Ha by exact Hwin.
        replace (i - length (dropped ++ dropped2)) with 0 in Ha by lia.
        rewrite Hts0 in Ha. injection Ha as <-. exact Hgap.
Qed.

Lemma issued_spaced (max_per_minute : Z) (gaps : list Q) :
  (1 <= max_per_minute)%Z -> Forall (fun gap => (0 <= gap)%Q) gaps ->
  forall history w,
  history_ok max_per_minute history w ->
  length (issued max_per_minute gaps w) = length gaps /\
  spaced (Z.to_nat max_per_minute) (history ++ issued max_per_minute gaps w).
Proof.
  intros Hcap Hgaps.
  induction Hgaps as [|gap gaps Hgap _ IH]; intros history w Hok.
  - simpl. rewrite app_nil_r. split; [reflexivity | apply Hok].
  - cbn [issued].
    destruct (acquire_keeps_history max_per_minute history (elapse gap w) Hcap
                (elapse_keeps_history _ _ _ _ Hgap Hok)) as (w1 & Hrun & Hok1).
    rewrite Hrun.
    destruct (IH _ _ Hok1) as [Hlen Hsp].
    split; [simpl; now rewrite Hlen|].
    now rewrite <- app_assoc in Hsp.
Qed.

(** X1. With a cap of at least one and a window that starts empty, every
    call of [acquire] completes, and the calls issued obey the rate limit:
    the call that comes [max_per_minute] calls after another is recorded
    more than 60 seconds after it, so no 60 seconds hold more than
    [max_per_minute] calls. *)
Theorem acquire_rate_limit (max_per_minute : Z) (gaps : list Q) (w : world) :
  (1 <= max_per_minute)%Z ->
  call_timestamps w = [] ->
  Forall (fun gap => (0 <= gap)%Q) gaps ->
  length (issued max_per_minute gaps w) = length gaps /\
  forall i a b,
    nth_error (issued max_per_minute gaps w) i = Some a ->
    nth_error (issued max_per_minute gaps w) (i + Z.to_nat max_per_minute) = Some b ->
    (60 < b - a)%Q.
Proof.
  intros Hcap Hempty Hgaps.
  assert (Hok : history_ok max_per_minute [] w).
  { split; [|split].
    - unfold window_ok. rewrite Hempty. repeat split; try constructor; simpl; lia.
    - exists []. rewrite Hempty. split; [reflexivity | constructor].
    - intros i a b Ha. destruct i; discriminate. }
  exact (issued_spaced max_per_minute gaps Hcap Hgaps [] w Hok).
Qed.

Lemma acquire_rate_limit_witness :
  let calls := issued 2 [0%Q; 1%Q; 1%Q; 30%Q] fresh_world in
  (60 < nth 2 calls 0 - nth 0 calls 0)%Q.
Proof.
  cbv zeta.
  apply (proj2 (acquire_rate_limit 2 [0%Q; 1%Q; 1%Q; 30%Q] fresh_world
                  ltac:(lia) ltac:(reflexivity)
                  ltac:(repeat constructor; discriminate)) 0);
    vm_compute; reflexivity.
Defined.

(** ** gemini_service.py: what [generate_answer] returns *)

Lemma prefix_append (n s : string) : String.prefix n (n +:+ s) = true.
Proof.
  induction n as [|c n IH]; [now destruct s|].
  change (String c n +:+ s) with (String c (n +:+ s)). simpl.
  destruct (ascii_dec c c); [exact IH | congruence].
Qed.

Lemma contains_prefix (n s : string) : String.prefix n s = true -> Py.contains n s = true.
Proof. intros H. destruct s; cbn [Py.contains]; now rewrite H. Qed.

Lemma contains_cons (n : string) (c : ascii) (s : string) :
  Py.contains n s = true -> Py.contains n (String c s) = true.
Proof.
  intros H. cbn [Py.contains]. rewrite H.
  now destruct (String.prefix n (String c s)).
Qed.

(** A string that holds [n] still holds it with anything put in front or
    behind. *)
Lemma contains_append (n a b : string) : Py.contains n (a +:+ n +:+ b) = true.
Proof.
  induction a as [|c a IH].
  - change ("" +:+ n +:+ b) with (n +:+ b). apply contains_prefix, prefix_append.
  - change (String c a +:+ n +:+ b) with (String c (a +:+ n +:+ b)).
    now apply contains_cons.
Qed.

(** The score and the label of the heuristic, in every branch. *)
Lemma estimate_confidence_bounds (answer_text context_text : string) :
  let label := fst (GeminiService._estimate_confidence answer_text context_text) in
  let score := snd (GeminiService._estimate_confidence answer_text context_text) in
  (0.2 <= score <= 1)%Q /\
  (label = "high" /\ (0.75 < score)%Q
   \/ label = "medium" /\ (0.5 < score <= 0.75)%Q
   \/ label = "low" /\ (score <= 0.5)%Q).
Proof.
  cbv zeta. unfold GeminiService._estimate_confidence.
  destruct (String.eqb (Py.strip answer_text) "").
  { cbn [fst snd]. split; [lra|]. right. right. split; [reflexivity | lra]. }
  pose proof (len_score_nonneg (String.length answer_text)) as Hn.
  set (r := (inject_Z (Z.of_nat (String.length answer_text)) / 600)%Q) in *.
  set (cf := if String.eqb (Py.strip context_text) "" then 0%Q else 0.5%Q).
  assert (Hcf : (0 <= cf <= 0.5)%Q)
    by (subst cf; destruct (String.eqb (Py.strip context_text) ""); lra).
  set (score := Py.max 0 (Py.min (0.3 + 0.5 * Py.min r 1 + cf) 1)).
  assert (Hrange : (0.3 <= score <= 1)%Q).
  { subst score.
    destruct (min_cases r 1) as [[-> ?]|[-> ?]];
      match goal with
      | |- context [Py.min ?x 1] => destruct (min_cases x 1) as [[-> ?]|[-> ?]]
      end;
      match goal with
      | |- context [Py.max 0 ?x] => destruct (max_cases 0 x) as [[-> ?]|[-> ?]]
      end; lra. }
  cbn [fst snd]. split; [lra|].
  destruct (Py.Qltb 0.75 score) eqn:Ehigh.
  - apply Qltb_lt in Ehigh. left. now split.
  - apply Qltb_ge in Ehigh. destruct (Py.Qltb 0.5 score) eqn:Emed.
    + apply Qltb_lt in Emed. right. left. split; [reflexivity | lra].
    + apply Qltb_ge in Emed. right. right. now split.
Qed.

(** X5. The heuristic score always lies between 0.2 and 1, and the label
    says which side of the thresholds 0.75 and 0.5 it is on. *)
Theorem estimate_confidence_range (answer_text context_text : string) :
  let label := fst (GeminiService._estimate_confidence answer_text context_text) in
  let score := snd (GeminiService._estimate_confidence answer_text context_text) in
  (0.2 <= score <= 1)%Q /\
  (label = "high" /\ (0.75 < score)%Q
   \/ label = "medium" /\ (0.5 < score <= 0.75)%Q
   \/ label = "low" /\ (score <= 0.5)%Q).
Proof. exact (estimate_confidence_bounds answer_text context_text). Qed.

Lemma formatted_answer_confidence_line (text context_text : string) :
  Py.contains "Confidence:" (GeminiService.answer (formatted_answer text context_text))
  = true.
Proof.
  unfold formatted_answer. cbn [GeminiService.answer].
  destruct (Py.contains "Confidence:" (Py.strip text)) eqn:E; [exact E|].
  cbn [negb].
  change (nl +:+ nl +:+ "Confidence: " +:+ ?l)
    with ((nl +:+ nl) +:+ "Confidence:" +:+ (" " +:+ l)).
  rewrite <- append_assoc. apply contains_append.
Qed.

(** The loop returns the fallback or the formatted text of a response. *)
Lemma attempts_result (ext : externals) (prompt context_text : string)
  (range : list Z) :
  forall (delay : Q) (w : world),
  exists g w',
    GeminiService.attempts ext prompt context_text range delay w = (Return g, w') /\
    (g = GeminiService.fallback_generation \/
     exists text, g = formatted_answer text context_text).
Proof.
  induction range as [|attempt range IH]; intros delay w.
  - exists GeminiService.fallback_generation, w. split; [reflexivity | now left].
  - cbn [GeminiService.attempts]. unfold bind at 1, call_generate.
    destruct (generate_content ext (generate_calls w) prompt) as [t | message].
    + unfold formatted_answer.
      destruct (GeminiService._estimate_confidence _ context_text) as [label score] eqn:E.
      eexists _, _. split; [reflexivity|]. right.
      exists (match t with Some s => s | None => "" end). rewrite E. reflexivity.
    + destruct (GeminiService.is_transient (Py.lower message)).
      * unfold bind, time_sleep. apply IH.
      * eexists _, _. split; [reflexivity | now left].
Qed.

(** With a positive cap [generate_answer] returns, and what it returns is
    well formed. *)
Lemma generate_answer_total (ext : externals) (max_per_minute : Z)
  (question : string) (context : GeminiService.context_arg) (w : world) :
  (0 < max_per_minute)%Z ->
  exists g w',
    GeminiService.generate_answer ext max_per_minute question context w = (Return g, w') /\
    Py.contains "Confidence:" (GeminiService.answer g) = true /\
    (0.2 <= GeminiService.confidence g <= 1)%Q.
Proof.
  intros Hcap. unfold GeminiService.generate_answer. cbv zeta. unfold bind.
  destruct (acquire_returns max_per_minute w Hcap) as (w1 & slept & Hacq & _).
  rewrite Hacq.
  destruct (attempts_result ext
              (GeminiService._build_prompt question (GeminiService.context_text_of context))
              (GeminiService.context_text_of context)
              (GeminiService.range_from_1 (GeminiService.max_attempts + 1)) 1%Q w1)
    as (g & w' & Hrun & Hg).
  exists g, w'. split; [exact Hrun|].
  destruct Hg as [-> | [text ->]].
  - split; [reflexivity | split; discriminate].
  - split; [apply formatted_answer_confidence_line|].
    apply (estimate_confidence_bounds text (GeminiService.context_text_of context)).
Qed.

(** X3. With a positive cap [generate_answer] never raises, whatever the
    backend does: it returns an answer that holds a confidence line and a
    confidence between 0.2 and 1. *)
Theorem generate_answer_returns (ext : externals) (max_per_minute : Z)
  (question : string) (context : GeminiService.context_arg) (w : world) :
  (0 < max_per_minute)%Z ->
  exists g w',
    GeminiService.generate_answer ext max_per_minute question context w = (Return g, w') /\
    Py.contains "Confidence:" (GeminiService.answer g) = true /\
    (0.2 <= GeminiService.confidence g <= 1)%Q.
Proof. apply generate_answer_total. Qed.

Lemma generate_answer_returns_witness :
  exists g w',
    GeminiService.generate_answer flaky_backend 60 "How many credits?"
      (GeminiService.CtxStr "Semester 1: 20 credits") fresh_world = (Return g, w') /\
    Py.contains "Confidence:" (GeminiService.answer g) = true /\
    (0.2 <= GeminiService.confidence g <= 1)%Q.
Proof.
  apply (generate_answer_returns flaky_backend 60 "How many credits?"
           (GeminiService.CtxStr "Semester 1: 20 credits") fresh_world).
  lia.
Defined.

(** X2. A cap of zero or less on a limiter whose window is empty: [acquire]
    raises [IndexError] -- it indexes the empty deque -- and records no
    call; [generate_answer] lets the exception through and never invokes
    the backend. *)
Theorem acquire_without_cap (ext : externals) (max_per_minute : Z)
  (question : string) (context : GeminiService.context_arg) (w : world) :
  (max_per_minute <= 0)%Z ->
  call_timestamps w = [] ->
  let w' := World (clock w) [] (generate_calls w) (log w ++ [EvAcquire]) in
  RateLimiter.acquire max_per_minute w = (Raise IndexError, w') /\
  GeminiService.generate_answer ext max_per_minute question context w
  = (Raise IndexError, w').
Proof.
  intros Hcap Hempty. cbv zeta.
  assert (Hacq : RateLimiter.acquire max_per_minute w
                 = (Raise IndexError,
                    World (clock w) [] (generate_calls w) (log w ++ [EvAcquire]))).
  { rewrite acquire_unfold. cbv zeta. rewrite Hempty. cbn [RateLimiter.drop_old length].
    destruct (Z.of_nat 0 >=? max_per_minute)%Z eqn:E; [reflexivity|].
    rewrite Z.geb_leb in E. apply Z.leb_gt in E. simpl in E. lia. }
  split; [exact Hacq|].
  unfold GeminiService.generate_answer. cbv zeta. unfold bind. now rewrite Hacq.
Qed.

Lemma acquire_without_cap_witness :
  fst (GeminiService.generate_answer flaky_backend 0 "How many credits?"
         (GeminiService.CtxStr "Semester 1: 20 credits") fresh_world)
  = Raise IndexError.
Proof.
  rewrite (proj2 (acquire_without_cap flaky_backend 0 "How many credits?"
                    (GeminiService.CtxStr "Semester 1: 20 credits") fresh_world
                    ltac:(lia) ltac:(reflexivity))).
  reflexivity.
Defined.

(** After [k] transient failures a response ends the loop: the failed
    attempts and their sleeps are logged, then the attempt that
    succeeded. *)
Lemma attempts_backoff (ext : externals) (prompt context_text : string)
  (range : list Z) :
  forall (k : nat) (delay : Q) (w : world) (t : option string),
  k < length range ->
  (forall i, i < k ->
     GeminiService.transient_failure
       (generate_content ext (generate_calls w + i) prompt) = true) ->
  generate_content ext (generate_calls w + k) prompt = Response t ->
  exists w',
    GeminiService.attempts ext prompt context_text range delay w
    = (Return (formatted_answer (match t with Some s => s | None => "" end) context_text),
       w') /\
    generate_calls w' = generate_calls w + S k /\
    log w' = (log w ++ retries prompt delay k ++ [EvGenerate prompt])%list.
Proof.
  induction range as [|attempt range IH]; intros k delay w t Hk Hbefore Hok.
  - simpl in Hk. lia.
  - cbn [GeminiService.attempts]. unfold bind at 1, call_generate.
    destruct k as [|k].
    + rewrite Nat.add_0_r in Hok. rewrite Hok.
      unfold formatted_answer.
      destruct (GeminiService._estimate_confidence _ context_text) as [label score].
      eexists. split; [reflexivity|]. cbn [generate_calls log retries "++"].
      split; [lia | reflexivity].
    + pose proof (Hbefore 0 ltac:(lia)) as H0.
      rewrite Nat.add_0_r in H0.
      destruct (generate_content ext (generate_calls w) prompt) as [t0 | message];
        [discriminate|].
      cbn [GeminiService.transient_failure] in H0. rewrite H0.
      unfold bind, time_sleep.
      set (w2 := World _ _ _ _).
      destruct (IH k (delay * 2)%Q w2 t) as (w' & Hrun & Hcalls & Hlog).
      { simpl in Hk. lia. }
      { intros i Hi. subst w2. cbn [generate_calls].
        replace (S (generate_calls w) + i) with (generate_calls w + S i) by lia.
        apply Hbefore. lia. }
      { subst w2. cbn [generate_calls].
        replace (S (generate_calls w) + k) with (generate_calls w + S k) by lia.
        exact Hok. }
      exists w'. rewrite Hrun. split; [reflexivity|].
      split; [rewrite Hcalls; subst w2; simpl; lia|].
      rewrite Hlog. subst w2. cbn [log retries]. now rewrite <- !app_assoc.
Qed.

(** X4. Retry with backoff: when the first [k] invocations (at most two)
    fail on transient errors and the next one answers, the backend is
    invoked [k + 1] times, the loop sleeps 1 second after the first
    failure and 2 after the second, and the answer returned is the
    response, stripped, with a confidence line added when it has none. *)
Theorem generate_answer_backoff (ext : externals) (max_per_minute : Z)
  (question : string) (context : GeminiService.context_arg) (w : world)
  (k : nat) (t : option string) :
  (0 < max_per_minute)%Z ->
  k < 3 ->
  let context_text := GeminiService.context_text_of context in
  let prompt := GeminiService._build_prompt question context_text in
  (forall i, i < k ->
     GeminiService.transient_failure
       (generate_content ext (generate_calls w + i) prompt) = true) ->
  generate_content ext (generate_calls w + k) prompt = Response t ->
  exists w1 w',
    RateLimiter.acquire max_per_minute w = (Return tt, w1) /\
    GeminiService.generate_answer ext max_per_minute question context w
    = (Return (formatted_answer (match t with Some s => s | None => "" end) context_text),
       w') /\
    generate_calls w' = generate_calls w + S k /\
    log w' = (log w1
              ++ firstn (2 * k) [EvGenerate prompt; EvSleep 1; EvGenerate prompt; EvSleep 2]
              ++ [EvGenerate prompt])%list.
Proof.
  intros Hcap Hk context_text prompt Hbefore Hok.
  destruct (acquire_returns max_per_minute w Hcap) as (w1 & slept & Hacq & Hcalls & _).
  destruct (attempts_backoff ext prompt context_text [1%Z; 2%Z; 3%Z] k 1%Q w1 t)
    as (w' & Hrun & Hn & Hlog).
  { simpl. lia. }
  { intros i Hi. rewrite Hcalls. now apply Hbefore. }
  { rewrite Hcalls. exact Hok. }
  exists w1, w'. split; [exact Hacq|].
  split.
  { unfold GeminiService.generate_answer. cbv zeta. unfold bind. rewrite Hacq.
    exact Hrun. }
  split; [rewrite Hn, Hcalls; reflexivity|].
  rewrite Hlog.
  destruct k as [|[|[|k]]]; [reflexivity | reflexivity | reflexivity | lia].
Qed.

Lemma generate_answer_backoff_witness :
  exists w1 w',
    RateLimiter.acquire 60 fresh_world = (Return tt, w1) /\
    GeminiService.generate_answer flaky_backend 60 "How many credits?"
      (GeminiService.CtxStr "Semester 1: 20 credits") fresh_world
    = (Return (formatted_answer "Semester 1 carries 20 credits." "Semester 1: 20 credits"),
       w') /\
    generate_calls w' = 2 /\
    log w' = (log w1
              ++ [EvGenerate (GeminiService._build_prompt "How many credits?"
                                "Semester 1: 20 credits");
                  EvSleep 1]
              ++ [EvGenerate (GeminiService._build_prompt "How many credits?"
                                "Semester 1: 20 credits")])%list.
Proof.
  apply (generate_answer_backoff flaky_backend 60 "How many credits?"
           (GeminiService.CtxStr "Semester 1: 20 credits") fresh_world 1
           (Some "Semester 1 carries 20 credits.")).
  - lia.
  - lia.
  - intros i Hi. destruct i; [reflexivity | lia].
  - reflexivity.
Defined.

(** ** enhanced_rag.py: query expansion and analysis *)

Lemma NoDup_snoc (v : string) (l : list string) :
  NoDup l -> ~ In v l -> NoDup (l ++ [v]).
Proof.
  intros Hnd Hnot. apply NoDup_app. split; [exact Hnd|]. split.
  - intros x Hx Hv. apply list_elem_of_singleton in Hv. subst x.
    apply Hnot. now apply list_elem_of_In.
  - apply NoDup_singleton.
Qed.

Lemma set_add_spec (v : string) (l : list string) :
  NoDup l ->
  NoDup (set_add v l) /\ incl l (set_add v l) /\
  (forall x, In x (set_add v l) -> x = v \/ In x l) /\
  length (set_add v l) <= S (length l).
Proof.
  intros Hnd. unfold set_add.
  destruct (existsb (String.eqb v) l) eqn:E.
  - repeat split; [exact Hnd | apply incl_refl | now right | lia].
  - assert (Hnot : ~ In v l).
    { intros Hin. apply not_true_iff_false in E. apply E.
      apply existsb_exists. exists v. split; [exact Hin | apply String.eqb_refl]. }
    repeat split.
    + now apply NoDup_snoc.
    + apply incl_appl, incl_refl.
    + intros x Hx. apply in_app_or in Hx. destruct Hx as [Hx | [<- | []]]; auto.
    + rewrite length_app. simpl. lia.
Qed.

Lemma expanded_step (q suffix : string) (n : nat) (trigger : bool) (variants : list string) :
  expanded q n variants ->
  expanded q (S n) (if trigger then set_add (q +:+ suffix) variants else variants).
Proof.
  intros (Hq & Hnd & Hpre & Hlen).
  destruct trigger; [|repeat split; auto].
  destruct (set_add_spec (q +:+ suffix) variants Hnd) as (Hnd' & Hincl & Hfrom & Hlen').
  repeat split; [now apply Hincl | exact Hnd' | | lia].
  apply List.Forall_forall. intros x Hx.
  destruct (Hfrom x Hx) as [-> | Hin]; [apply prefix_append|].
  rewrite List.Forall_forall in Hpre. now apply Hpre.
Qed.

Lemma prefix_refl (s : string) : String.prefix s s = true.
Proof.
  induction s as [|c s IH]; [reflexivity|].
  simpl. destruct (ascii_dec c c); [exact IH | congruence].
Qed.

(** X6. Query expansion, for a runtime that iterates over a set without
    losing or repeating an element: the stripped question is always among
    the variants, there are at most six, no two are equal, and each of
    them is the question followed by a suffix. *)
Theorem expand_query_variants (ext : externals) (question : string) :
  (forall l, Permutation (set_order ext l) l) ->
  let variants := _expand_query ext question in
  In (Py.strip question) variants /\
  length variants <= 6 /\
  NoDup variants /\
  Forall (fun v => String.prefix (Py.strip question) v = true) variants.
Proof.
  intros Hperm. cbv zeta. unfold _expand_query. cbv zeta.
  set (q := Py.strip question).
  match goal with
  | |- context [set_order ext ?l] =>
      assert (Hl : expanded q 6 l); [|specialize (Hperm l); set (vs := l) in *]
  end.
  { repeat apply expanded_step.
    repeat split; [now left | apply NoDup_singleton | | simpl; lia].
    constructor; [apply prefix_refl | constructor]. }
  destruct Hl as (Hq & Hnd & Hpre & Hlen).
  repeat split.
  - eapply Permutation_in; [symmetry; exact Hperm | exact Hq].
  - rewrite (Permutation_length Hperm). exact Hlen.
  - now rewrite Hperm.
  - eapply Permutation_Forall; [symmetry; exact Hperm | exact Hpre].
Qed.

Lemma expand_query_variants_witness :
  let variants := _expand_query flaky_backend "  What are the credits per semester? " in
  In "What are the credits per semester?" variants /\
  length variants <= 6 /\
  NoDup variants /\
  Forall (fun v => String.prefix "What are the credits per semester?" v = true) variants.
Proof.
  apply (expand_query_variants flaky_backend "  What are the credits per semester? ").
  intros l. apply Permutation_refl.
Defined.

Lemma lower_char_idempotent (c : ascii) : Py.lower_char (Py.lower_char c) = Py.lower_char c.
Proof. destruct c as [[] [] [] [] [] [] [] []]; reflexivity. Qed.

Lemma lower_idempotent (s : string) : Py.lower (Py.lower s) = Py.lower s.
Proof.
  induction s as [|c s IH]; [reflexivity|].
  simpl. now rewrite lower_char_idempotent, IH.
Qed.

(** X7. The analysis looks at the lower-cased question only, so it does not
    depend on the case of the letters; and the focus is always one of the
    six labels. *)
Theorem analyze_question_case (question : string) :
  _analyze_question (Py.lower question) = _analyze_question question /\
  In (focus (_analyze_question question))
     ["credits"; "prerequisite"; "grading"; "career"; "project"; "general"].
Proof.
  split.
  - unfold _analyze_question. now rewrite lower_idempotent.
  - unfold _analyze_question. cbn [focus].
    set (hit := fun '((_, keywords) : string * list string) =>
                  existsb (fun word => Py.contains word (Py.lower question)) keywords).
    unfold focus_keywords. cbn [find].
    repeat match goal with
           | |- context [hit ?p] => destruct (hit p)
           end; simpl; tauto.
Qed.

(** ** enhanced_rag.py: retrieval *)

Lemma only_searched_refl (w : world) : only_searched w w.
Proof.
  repeat split. exists []. now rewrite app_nil_r.
Qed.

Lemma only_searched_trans (w1 w2 w3 : world) :
  only_searched w1 w2 -> only_searched w2 w3 -> only_searched w1 w3.
Proof.
  intros (Hc & Ht & Hg & a1 & Hl1 & Hs1) (Hc' & Ht' & Hg' & a2 & Hl2 & Hs2).
  repeat split; try congruence.
  exists (a1 ++ a2)%list. split.
  - now rewrite Hl2, Hl1, <- app_assoc.
  - rewrite forallb_app. now rewrite Hs1, Hs2.
Qed.

Lemma record_search_only (w : world) (e : event) :
  is_search e = true ->
  only_searched w (World (clock w) (call_timestamps w) (generate_calls w) (log w ++ [e])).
Proof.
  intros He. repeat split. exists [e]. split; [reflexivity|]. simpl. now rewrite He.
Qed.

Lemma found_by_weaken (ext : externals) (k : Z) (variant : string)
  (variants : list string) (c : chunk) :
  found_by ext k variants c -> found_by ext k (variant :: variants) c.
Proof. intros (v & Hin & Hc). exists v. split; [now right | exact Hc]. Qed.

(** The loop over the variants never raises, does nothing but search, and
    adds to [results] only what the searches gave. *)
Lemma retrieve_loop_spec (ext : externals) (k : Z) (variants : list string) :
  forall (results : list chunk) (w : world),
  exists found w',
    retrieve_loop ext k variants results w = (Return (results ++ found)%list, w') /\
    only_searched w w' /\
    Forall (found_by ext k variants) found.
Proof.
  induction variants as [|variant variants IH]; intros results w.
  - exists [], w. rewrite app_nil_r. repeat split; [apply only_searched_refl | constructor].
  - cbn [retrieve_loop].
    cbv beta iota delta [bind try_except call_search_with_score call_search record raise ret].
    assert (H1 : only_searched w (World (clock w) (call_timestamps w) (generate_calls w)
                                        (log w ++ [EvSearchWithScore variant k])))
      by now apply record_search_only.
    destruct (similarity_search_with_score ext variant k) as [with_scores|] eqn:Escored;
      cbv beta iota.
    + match goal with
      | |- context [retrieve_loop ext k variants ?r ?w0] =>
          destruct (IH r w0) as (found & w' & Hrun & Honly & Hfound)
      end.
      rewrite Hrun. exists (map scored with_scores ++ found)%list, w'.
      split; [now rewrite app_assoc|]. split; [eapply only_searched_trans; eassumption|].
      apply List.Forall_app. split.
      * apply List.Forall_forall. intros c Hc. exists variant.
        split; [now left | now rewrite Escored].
      * eapply List.Forall_impl; [|exact Hfound]. apply found_by_weaken.
    + cbn [clock call_timestamps generate_calls log].
      assert (H2 : only_searched w
                     (World (clock w) (call_timestamps w) (generate_calls w)
                            ((log w ++ [EvSearchWithScore variant k])
                             ++ [EvSearch variant k]))).
      { eapply only_searched_trans; [exact H1|].
        now apply (record_search_only
                     (World (clock w) (call_timestamps w) (generate_calls w)
                            (log w ++ [EvSearchWithScore variant k]))). }
      destruct (similarity_search ext variant k) as [docs|] eqn:Eplain;
        cbv beta iota.
      * match goal with
        | |- context [retrieve_loop ext k variants ?r ?w0] =>
            destruct (IH r w0) as (found & w' & Hrun & Honly & Hfound)
        end.
        rewrite Hrun. exists (map unscored docs ++ found)%list, w'.
        split; [now rewrite app_assoc|]. split; [eapply only_searched_trans; eassumption|].
        apply List.Forall_app. split.
        -- apply List.Forall_forall. intros c Hc. exists variant.
           split; [now left | now rewrite Escored, Eplain].
        -- eapply List.Forall_impl; [|exact Hfound]. apply found_by_weaken.
      * eexists [], _. rewrite app_nil_r.
        split; [reflexivity|]. split; [exact H2 | constructor].
Qed.

(** Retrieval returns, and what it returns was found by a search. *)
Lemma retrieve_with_sources_spec (self : service) (ext : externals)
  (question : string) (w : world) :
  exists chunks w',
    _retrieve_with_sources self ext question w = (Return chunks, w') /\
    only_searched w w' /\
    Forall (found_by ext (per_variant_k self) (_expand_query ext question)) chunks.
Proof.
  unfold _retrieve_with_sources.
  destruct (retrieve_loop_spec ext (per_variant_k self) (_expand_query ext question) [] w)
    as (found & w' & Hrun & Honly & Hfound).
  exists found, w'. now rewrite Hrun.
Qed.

(** X8. Retrieval never raises, whatever the store does: it returns chunks
    that each come from a search for one of the query variants -- with
    the store's score, or with the placeholder score 1.0 from the plain
    search when the scored one raised -- and it does nothing but search:
    the clock, the limiter and the generation backend are left alone. *)
Theorem retrieve_with_sources_safe (self : service) (ext : externals)
  (question : string) (w : world) :
  exists chunks w',
    _retrieve_with_sources self ext question w = (Return chunks, w') /\
    only_searched w w' /\
    Forall (found_by ext (per_variant_k self) (_expand_query ext question)) chunks.
Proof. apply retrieve_with_sources_spec. Qed.

(** ** enhanced_rag.py: deduplication and ranking *)

Lemma dict_get_set_same (k : string) (v : chunk) (d : list (string * chunk)) :
  Py.dict_get String.eqb k (Py.dict_set String.eqb k v d) = Some v.
Proof.
  induction d as [|[k' v'] d IH]; simpl.
  - now rewrite String.eqb_refl.
  - destruct (String.eqb k k') eqn:E; simpl.
    + now rewrite String.eqb_refl.
    + now rewrite E.
Qed.

Lemma dict_get_set_other (k k' : string) (v : chunk) (d : list (string * chunk)) :
  k' <> k ->
  Py.dict_get String.eqb k' (Py.dict_set String.eqb k v d) = Py.dict_get String.eqb k' d.
Proof.
  intros Hne. apply String.eqb_neq in Hne.
  induction d as [|[k0 v0] d IH]; simpl.
  - now rewrite Hne.
  - destruct (String.eqb k k0) eqn:E; simpl.
    + apply String.eqb_eq in E. subst k0. now rewrite Hne.
    + now rewrite IH.
Qed.

Lemma dict_set_keys (k : string) (v : chunk) (d : list (string * chunk)) :
  map fst (Py.dict_set String.eqb k v d)
  = match Py.dict_get String.eqb k d with
    | Some _ => map fst d
    | None => (map fst d ++ [k])%list
    end.
Proof.
  induction d as [|[k' v'] d IH]; simpl; [reflexivity|].
  destruct (String.eqb k k') eqn:E; simpl.
  - apply String.eqb_eq in E. now subst k'.
  - rewrite IH. now destruct (Py.dict_get String.eqb k d).
Qed.

Lemma dict_set_entries (k : string) (v : chunk) (d : list (string * chunk))
  (entry : string * chunk) :
  In entry (Py.dict_set String.eqb k v d) -> entry = (k, v) \/ In entry d.
Proof.
  induction d as [|[k' v'] d IH]; simpl.
  - intros [<- | []]. now left.
  - destruct (String.eqb k k'); simpl.
    + intros [<- | Hin]; [now left | right; now right].
    + intros [<- | Hin]; [right; now left|].
      destruct (IH Hin); [now left | right; now right].
Qed.

Lemma dict_get_absent (k : string) (d : list (string * chunk)) :
  Py.dict_get String.eqb k d = None -> ~ In k (map fst d).
Proof.
  induction d as [|[k' v'] d IH]; simpl; [tauto|].
  destruct (String.eqb k k') eqn:E; [discriminate|].
  apply String.eqb_neq in E. intros Hnone [Heq | Hin]; [congruence | now apply IH].
Qed.

Lemma dedup_step_keeps (by_hash : list (string * chunk)) (seen : list chunk) (item : chunk) :
  deduplicated by_hash seen ->
  deduplicated (dedup_step by_hash item) (seen ++ [item]).
Proof.
  intros (Hkeys & Hentries & Hseen).
  destruct item as [[score content] meta]. unfold dedup_step.
  set (item := (score, content, meta)).
  set (h := _hash_text content).
  assert (Hold : Forall (fun entry => fst entry = _hash_text (content_of (snd entry)) /\
                                      In (snd entry) (seen ++ [item])) by_hash).
  { eapply List.Forall_impl; [|exact Hentries]. cbv beta.
    intros entry [Hh Hin]. split; [exact Hh | apply in_or_app; now left]. }
  assert (Hset : deduplicated (Py.dict_set String.eqb h item by_hash) (seen ++ [item])
                 \/ ~ (forall kept, Py.dict_get String.eqb h by_hash = Some kept ->
                                    (score < score_of kept)%Q)).
  { destruct (Py.dict_get String.eqb h by_hash) as [kept|] eqn:Hget.
    - destruct (Py.Qltb score (score_of kept)) eqn:Hlt.
      + apply Qltb_lt in Hlt. left. split; [|split].
        * now rewrite dict_set_keys, Hget.
        * apply List.Forall_forall. intros entry Hin.
          apply dict_set_entries in Hin. destruct Hin as [-> | Hin].
          -- split; [reflexivity | apply in_or_app; right; now left].
          -- rewrite List.Forall_forall in Hold. now apply Hold.
        * apply List.Forall_app. split.
          -- eapply List.Forall_impl; [|exact Hseen]. cbv beta.
             intros old (kept' & Hk & Hle).
             destruct (string_dec (_hash_text (content_of old)) h) as [Heq | Hne].
             ++ exists item. rewrite Heq, dict_get_set_same. split; [reflexivity|].
                rewrite Heq, Hget in Hk. injection Hk as <-.
                change (score_of item) with score. lra.
             ++ exists kept'. rewrite dict_get_set_other by exact Hne. now split.
          -- constructor; [|constructor]. exists item.
             change (content_of item) with content. fold h.
             rewrite dict_get_set_same. split; [reflexivity | apply Qle_refl].
      + right. intros Hall. specialize (Hall kept eq_refl).
        apply Qltb_ge in Hlt. lra.
    - left. split; [|split].
      + rewrite dict_set_keys, Hget. apply NoDup_snoc; [exact Hkeys|].
        now apply dict_get_absent.
      + apply List.Forall_forall. intros entry Hin.
        apply dict_set_entries in Hin. destruct Hin as [-> | Hin].
        * split; [reflexivity | apply in_or_app; right; now left].
        * rewrite List.Forall_forall in Hold. now apply Hold.
      + apply List.Forall_app. split.
        * eapply List.Forall_impl; [|exact Hseen]. cbv beta.
          intros old (kept' & Hk & Hle).
          destruct (string_dec (_hash_text (content_of old)) h) as [Heq | Hne].
          -- rewrite Heq, Hget in Hk. discriminate.
          -- exists kept'. rewrite dict_get_set_other by exact Hne. now split.
        * constructor; [|constructor]. exists item.
          change (content_of item) with content. fold h.
          rewrite dict_get_set_same. split; [reflexivity | apply Qle_refl]. }
  destruct (Py.dict_get String.eqb h by_hash) as [[[score' content'] meta']|] eqn:Hget.
  - destruct (Py.Qltb score score') eqn:Hlt.
    + destruct Hset as [Hset | Hnot]; [exact Hset|].
      exfalso. apply Hnot. intros kept [= <-]. now apply Qltb_lt.
    + apply Qltb_ge in Hlt. split; [exact Hkeys|]. split; [exact Hold|].
      apply List.Forall_app. split.
      * exact Hseen.
      * constructor; [|constructor]. exists (score', content', meta').
        change (content_of item) with content. fold h. now split.
  - destruct Hset as [Hset | Hnot]; [exact Hset|].
    exfalso. apply Hnot. intros kept [=].
Qed.

Lemma dedup_keeps (retrieved : list chunk) :
  forall (by_hash : list (string * chunk)) (seen : list chunk),
  deduplicated by_hash seen ->
  deduplicated (fold_left dedup_step retrieved by_hash) (seen ++ retrieved).
Proof.
  induction retrieved as [|item retrieved IH]; intros by_hash seen Hd; simpl.
  - now rewrite app_nil_r.
  - replace (seen ++ item :: retrieved)%list with ((seen ++ [item]) ++ retrieved)%list
      by now rewrite <- app_assoc.
    apply IH. now apply dedup_step_keeps.
Qed.

Lemma insert_by_score_perm (x : chunk) (l : list chunk) :
  Permutation (insert_by_score x l) (x :: l).
Proof.
  induction l as [|y l IH]; simpl; [reflexivity|].
  destruct (Py.Qltb (fst (fst y)) (fst (fst x))); [|reflexivity].
  rewrite IH. apply perm_swap.
Qed.

Lemma sorted_by_score_perm (l : list chunk) : Permutation (sorted_by_score l) l.
Proof.
  induction l as [|x l IH]; simpl; [reflexivity|].
  rewrite insert_by_score_perm. now constructor.
Qed.

Lemma insert_by_score_sorted (x : chunk) (l : list chunk) :
  StronglySorted by_score l -> StronglySorted by_score (insert_by_score x l).
Proof.
  induction l as [|y l IH]; intros Hs; simpl.
  - constructor; constructor.
  - apply StronglySorted_inv in Hs. destruct Hs as [Hs Hy].
    destruct (Py.Qltb (fst (fst y)) (fst (fst x))) eqn:E.
    + apply Qltb_lt in E. constructor; [now apply IH|].
      rewrite insert_by_score_perm. constructor; [|exact Hy].
      unfold by_score, score_of. lra.
    + apply Qltb_ge in E. constructor; [now constructor|].
      constructor; [exact E|].
      eapply List.Forall_impl; [|exact Hy]. cbv beta.
      unfold by_score, score_of. intros z Hz. lra.
Qed.

Lemma sorted_by_score_sorted (l : list chunk) : StronglySorted by_score (sorted_by_score l).
Proof.
  induction l as [|x l IH]; simpl; [constructor | now apply insert_by_score_sorted].
Qed.

(** The list the packer walks, in terms of what was retrieved. *)
Lemma ranked_facts (retrieved : list chunk) :
  StronglySorted by_score (ranked retrieved) /\
  NoDup (map content_of (ranked retrieved)) /\
  (forall item, In item (ranked retrieved) -> In item retrieved) /\
  (forall item, In item retrieved ->
     exists kept, In kept (ranked retrieved) /\
                  _hash_text (content_of kept) = _hash_text (content_of item) /\
                  (score_of kept <= score_of item)%Q) /\
  length (ranked retrieved) <= length retrieved.
Proof.
  unfold ranked.
  pose proof (dedup_keeps retrieved [] []) as Hd. cbn ["++"] in Hd.
  destruct Hd as (Hkeys & Hentries & Hseen).
  { repeat split; constructor. }
  fold (dedup retrieved) in *.
  pose proof (sorted_by_score_perm (map snd (dedup retrieved))) as Hperm.
  assert (Hhashes : map _hash_text (map content_of (map snd (dedup retrieved)))
                    = map fst (dedup retrieved)).
  { rewrite !map_map. apply map_ext_in. intros entry Hin.
    rewrite List.Forall_forall in Hentries. symmetry. now apply Hentries. }
  split; [apply sorted_by_score_sorted|].
  split.
  { rewrite Hperm. apply (NoDup_fmap_1 _hash_text).
    change (NoDup (map _hash_text (map content_of (map snd (dedup retrieved))))).
    now rewrite Hhashes. }
  split.
  { intros item Hin. apply (Permutation_in _ Hperm) in Hin.
    apply in_map_iff in Hin. destruct Hin as (entry & <- & Hin).
    rewrite List.Forall_forall in Hentries. now apply Hentries. }
  split.
  { intros item Hin. rewrite List.Forall_forall in Hseen.
    destruct (Hseen item Hin) as (kept & Hget & Hle).
    exists kept. split; [|split; [|exact Hle]].
    - apply (Permutation_in _ (Permutation_sym Hperm)).
      apply in_map_iff. exists (_hash_text (content_of item), kept). split; [reflexivity|].
      clear -Hget. induction (dedup retrieved) as [|[k v] d IH]; [discriminate|].
      simpl in Hget. destruct (String.eqb _ k) eqn:E.
      + apply String.eqb_eq in E. injection Hget as <-. left. now rewrite E.
      + right. now apply IH.
    - assert (Hin' : In (_hash_text (content_of item), kept) (dedup retrieved)).
      { clear -Hget. induction (dedup retrieved) as [|[k v] d IH]; [discriminate|].
        simpl in Hget. destruct (String.eqb _ k) eqn:E.
        + apply String.eqb_eq in E. injection Hget as <-. left. now rewrite E.
        + right. now apply IH. }
      rewrite List.Forall_forall in Hentries.
      destruct (Hentries _ Hin') as [Hh _]. cbn [fst snd] in Hh. now symmetry. }
  rewrite (Permutation_length Hperm), length_map.
  (* one entry per key, one key per seen hash *)
  assert (Hsub : incl (map snd (dedup retrieved)) retrieved).
  { intros item Hin. apply in_map_iff in Hin. destruct Hin as (entry & <- & Hin).
    rewrite List.Forall_forall in Hentries. now apply Hentries. }
  rewrite <- (length_map snd).
  apply NoDup_incl_length; [|exact Hsub].
  apply NoDup_ListNoDup.
  apply (NoDup_fmap_1 content_of). apply (NoDup_fmap_1 _hash_text).
  change (NoDup (map _hash_text (map content_of (map snd (dedup retrieved))))).
  now rewrite Hhashes.
Qed.

(** X9. The list the packer walks is sorted by ascending score and holds
    only retrieved chunks, no text twice; and every retrieved chunk has
    its content hash in the list, with a score that is not larger than
    its own: of chunks with the same text the best scored one is kept. *)
Theorem build_context_ranking (retrieved : list chunk) :
  StronglySorted by_score (ranked retrieved) /\
  NoDup (map content_of (ranked retrieved)) /\
  (forall item, In item (ranked retrieved) -> In item retrieved) /\
  (forall item, In item retrieved ->
     exists kept, In kept (ranked retrieved) /\
                  _hash_text (content_of kept) = _hash_text (content_of item) /\
                  (score_of kept <= score_of item)%Q).
Proof.
  destruct (ranked_facts retrieved) as (H1 & H2 & H3 & H4 & _). auto.
Qed.

(** ** enhanced_rag.py: what gets packed *)

(** A pass of the loop leaves the state as it was or adds a source. *)
Lemma pack_loop_grows (self : service) (a : analysis) (filtering : bool)
  (items : list chunk) :
  forall (idx : Z) (st : packing),
  pack_loop self a filtering items idx st = st \/
  length (sources st) < length (sources (pack_loop self a filtering items idx st)).
Proof.
  induction items as [|item items IH]; intros idx st; simpl; [now left|].
  destruct (filtering && negb (context_mentions_semester a (snd (fst item)))).
  - apply IH.
  - destruct (try_append self idx item st) as [st'|] eqn:Happ; [|now left].
    right. apply try_append_sources in Happ.
    assert (Hst' : length (sources st') = S (length (sources st)))
      by (rewrite Happ, length_app; simpl; lia).
    destruct (IH (idx + 1)%Z st') as [-> | Hlt]; lia.
Qed.

Lemma pack_loop_length (self : service) (a : analysis) (filtering : bool)
  (items : list chunk) :
  forall (idx : Z) (st : packing),
  length (sources (pack_loop self a filtering items idx st))
  <= length (sources st) + length items.
Proof.
  induction items as [|item items IH]; intros idx st; simpl; [lia|].
  destruct (filtering && negb (context_mentions_semester a (snd (fst item)))).
  - specialize (IH (idx + 1)%Z st). lia.
  - destruct (try_append self idx item st) as [st'|] eqn:Happ; [|lia].
    apply try_append_sources in Happ. specialize (IH (idx + 1)%Z st').
    rewrite Happ, length_app in IH. simpl in IH. lia.
Qed.

(** From the initial state the unfiltered pass packs the first item when it
    fits. *)
Lemma pack_loop_first_fits (self : service) (a : analysis) (first : chunk)
  (rest : list chunk) :
  (len (preamble a) + len (segment_of 1 first) <= max_context_chars self)%Z ->
  sources (pack_loop self a false (first :: rest) 1 (initial a)) <> [].
Proof.
  intros Hfits. cbn [pack_loop andb].
  unfold try_append. cbn [initial total_chars context_parts sources].
  destruct (len (preamble a) + len (segment_of 1 first) >? max_context_chars self)%Z eqn:E.
  { rewrite Z.gtb_ltb in E. apply Z.ltb_lt in E. lia. }
  match goal with
  | |- sources (pack_loop _ _ _ _ ?i ?s) <> [] =>
      destruct (pack_loop_cites self a false rest i s) as (new & Hsrc & _)
  end.
  rewrite Hsrc. cbn [sources "++"]. discriminate.
Qed.

Lemma ranked_nil : ranked [] = [].
Proof. reflexivity. Qed.

(** X10. The semester filter is soft: whatever semesters the analysis
    names, when the best ranked chunk fits the budget next to the
    preamble, at least one source is packed -- by the filtered pass, or,
    if that one packs nothing, by the pass over the full ranked list. *)
Theorem build_context_packs_best (self : service) (retrieved : list chunk)
  (a : analysis) (first : chunk) (rest : list chunk) :
  ranked retrieved = first :: rest ->
  (len (preamble a) + len (segment_of 1 first) <= max_context_chars self)%Z ->
  snd (_build_context self retrieved a) <> [].
Proof.
  intros Hranked Hfits.
  destruct retrieved as [|item retrieved]; [rewrite ranked_nil in Hranked; discriminate|].
  rewrite build_context_sources. cbv zeta. rewrite Hranked.
  set (st := pack_loop self a (negb (is_nil (semesters a))) (first :: rest) 1 (initial a)).
  destruct (negb (is_nil (semesters a))) eqn:Hfilter; cbn [andb].
  - destruct (is_nil (sources st)) eqn:Hnone.
    + assert (Hst : st = initial a).
      { destruct (pack_loop_grows self a true (first :: rest) 1 (initial a)) as [H | H];
          [exact H|].
        fold st in H. destruct (sources st); [simpl in H; lia | discriminate]. }
      rewrite Hst. now apply pack_loop_first_fits.
    + destruct (sources st); [discriminate | discriminate].
  - now apply pack_loop_first_fits.
Qed.

Lemma build_context_packs_best_witness :
  snd (_build_context default_service
         [(0.25%Q, "Grading: internal assessment 40, exam 60", [("source", Py.PStr "rules.pdf")])]
         (Analysis ["sem7"] "credits")) <> [].
Proof.
  apply (build_context_packs_best default_service
           [(0.25%Q, "Grading: internal assessment 40, exam 60", [("source", Py.PStr "rules.pdf")])]
           (Analysis ["sem7"] "credits")
           (0.25%Q, "Grading: internal assessment 40, exam 60", [("source", Py.PStr "rules.pdf")])
           []).
  - vm_compute. reflexivity.
  - vm_compute. discriminate.
Defined.

Lemma source_of_named (idx : Z) (item : chunk) : Py.truthy (name (source_of idx item)) = true.
Proof.
  destruct item as [[score content] meta]. cbn [source_of name]. unfold Py.or_.
  destruct (Py.truthy (if Py.truthy (meta_get meta "source")
                       then meta_get meta "source" else meta_get meta "file_path")) eqn:E;
    [exact E | reflexivity].
Qed.

(** X13. Every source of a bundle cites a retrieved chunk, with that
    chunk's score, and has a name: the chunk's source, else its file_path,
    else the word document. There is at most one source per retrieved
    chunk. *)
Theorem build_context_citations (self : service) (retrieved : list chunk) (a : analysis) :
  let srcs := snd (_build_context self retrieved a) in
  Forall (fun src => Py.truthy (name src) = true /\
                     exists item, In item retrieved /\
                                  src = source_of (index src) item /\
                                  score src = score_of item) srcs /\
  length srcs <= length retrieved.
Proof.
  cbv zeta. destruct retrieved as [|item0 retrieved]; [split; [constructor | simpl; lia]|].
  rewrite build_context_sources. cbv zeta.
  set (items := ranked (item0 :: retrieved)).
  set (st := pack_loop self a (negb (is_nil (semesters a))) items 1 (initial a)).
  destruct (ranked_facts (item0 :: retrieved)) as (_ & _ & Hsub & _ & Hlen).
  fold items in Hsub, Hlen.
  assert (Hcited : forall new, cites items 1 new ->
            Forall (fun src => Py.truthy (name src) = true /\
                               exists item, In item (item0 :: retrieved) /\
                                            src = source_of (index src) item /\
                                            score src = score_of item) new).
  { intros new [_ Hall]. eapply List.Forall_impl; [|exact Hall]. cbv beta.
    intros src (n & it & Hnth & _ & Hsrc). split.
    - rewrite Hsrc. apply source_of_named.
    - exists it. split; [apply Hsub; eapply nth_error_In; exact Hnth|].
      split; [exact Hsrc|]. rewrite Hsrc. now destruct it as [[s c] m]. }
  destruct (pack_loop_cites self a (negb (is_nil (semesters a))) items 1 (initial a))
    as (new1 & Hsrc1 & Hc1).
  fold st in Hsrc1. cbn [sources initial "++"] in Hsrc1.
  pose proof (pack_loop_length self a (negb (is_nil (semesters a))) items 1 (initial a)) as Hl1.
  fold st in Hl1. cbn [sources initial length] in Hl1.
  destruct (negb (is_nil (semesters a)) && is_nil (sources st)) eqn:Hfall.
  - apply andb_true_iff in Hfall. destruct Hfall as [_ Hnone].
    assert (Hempty : sources st = []) by (destruct (sources st); [reflexivity | discriminate]).
    destruct (pack_loop_cites self a false items 1 st) as (new2 & Hsrc2 & Hc2).
    pose proof (pack_loop_length self a false items 1 st) as Hl2.
    rewrite Hempty in Hsrc2, Hl2. cbn ["++" length] in Hsrc2, Hl2.
    split; [rewrite Hsrc2; now apply Hcited | lia].
  - split; [rewrite Hsrc1; now apply Hcited | lia].
Qed.

(** X14. The text of a bundle with at least one source: the parts are
    counted against the budget, the newlines that join them are not, so
    the text can be longer than [max_context_chars], by at most one
    character for each source. *)
Theorem build_context_length (self : service) (retrieved : list chunk) (a : analysis) :
  snd (_build_context self retrieved a) <> [] ->
  (len (fst (_build_context self retrieved a))
   <= max_context_chars self + Z.of_nat (length (snd (_build_context self retrieved a))))%Z.
Proof. apply build_context_bound. Qed.

Lemma build_context_length_witness :
  let bundle :=
    _build_context default_service
      [(0.25%Q, "Grading: internal assessment 40, exam 60", [("source", Py.PStr "rules.pdf")]);
       (0.5%Q, "Semester 1: 20 credits", [("source", Py.PStr "mca.pdf")])]
      (Analysis [] "general") in
  (len (fst bundle) <= 6000 + Z.of_nat (length (snd bundle)))%Z.
Proof.
  cbv zeta.
  apply (build_context_length default_service
           [(0.25%Q, "Grading: internal assessment 40, exam 60", [("source", Py.PStr "rules.pdf")]);
            (0.5%Q, "Semester 1: 20 credits", [("source", Py.PStr "mca.pdf")])]
           (Analysis [] "general")).
  vm_compute. discriminate.
Defined.

(** ** enhanced_rag.py: the semester filter *)

Lemma cites_semester_shift (a : analysis) (item : chunk) (items : list chunk)
  (idx : Z) (flag : bool) (new : list source) :
  Forall (cites_semester a items (idx + 1) flag) new ->
  Forall (cites_semester a (item :: items) idx flag) new.
Proof.
  apply List.Forall_impl. intros src (n & it & Hnth & Hidx & Hsrc & Hflag).
  exists (S n), it. repeat split; [exact Hnth | lia | exact Hsrc | exact Hflag].
Qed.

Lemma len_nonneg (s : string) : (0 <= len s)%Z.
Proof. unfold len. lia. Qed.

Lemma try_append_total (self : service) (idx : Z) (item : chunk) (st st' : packing) :
  try_append self idx item st = Some st' -> (total_chars st <= total_chars st')%Z.
Proof.
  unfold try_append.
  destruct (total_chars st + len (segment_of idx item) >? max_context_chars self)%Z;
    [discriminate|].
  intros [= <-]. cbn [total_chars]. pose proof (len_nonneg (segment_of idx item)). lia.
Qed.

(** A later state has no more room: what does not fit now does not fit
    after more has been packed. *)
Lemma try_append_blocked (self : service) (idx : Z) (item : chunk) (st0 st : packing) :
  (total_chars st0 <= total_chars st)%Z ->
  try_append self idx item st0 = None -> try_append self idx item st = None.
Proof.
  unfold try_append. intros Hle.
  destruct (total_chars st0 + len (segment_of idx item) >? max_context_chars self)%Z eqn:E0;
    [|discriminate].
  intros _. rewrite Z.gtb_ltb in E0. apply Z.ltb_lt in E0.
  destruct (total_chars st + len (segment_of idx item) >? max_context_chars self)%Z eqn:E;
    [reflexivity|].
  rewrite Z.gtb_ltb in E. apply Z.ltb_ge in E. lia.
Qed.

(** The filtered pass packs only chunks that mention a named semester. *)
Lemma pack_loop_filtered (self : service) (a : analysis) (items : list chunk) :
  forall (idx : Z) (st : packing),
  exists new,
    sources (pack_loop self a true items idx st) = (sources st ++ new)%list /\
    Forall (cites_semester a items idx true) new.
Proof.
  induction items as [|item items IH]; intros idx st; cbn [pack_loop andb].
  - exists []. rewrite app_nil_r. split; [reflexivity | constructor].
  - destruct (context_mentions_semester a (snd (fst item))) eqn:Hm; cbn [negb].
    + destruct (try_append self idx item st) as [st'|] eqn:Happ.
      * destruct (IH (idx + 1)%Z st') as (new & Hsrc & Hall).
        apply try_append_sources in Happ.
        exists (source_of idx item :: new).
        split. { rewrite Hsrc, Happ, <- app_assoc. reflexivity. }
        constructor; [|now apply cites_semester_shift].
        exists 0, item. rewrite source_of_index.
        repeat split; [simpl; lia | exact Hm].
      * exists []. rewrite app_nil_r. split; [reflexivity | constructor].
    + destruct (IH (idx + 1)%Z st) as (new & Hsrc & Hall).
      exists new. split; [exact Hsrc | now apply cites_semester_shift].
Qed.

(** When the filtered pass packs nothing from [st0], the pass over the
    full list, started with no more room than [st0] has, packs only chunks
    that mention no named semester: it ends at the chunk that ended the
    filtered pass, if not before. *)
Lemma pack_loop_fallback (self : service) (a : analysis) (items : list chunk) :
  forall (idx : Z) (st0 st : packing),
  (total_chars st0 <= total_chars st)%Z ->
  pack_loop self a true items idx st0 = st0 ->
  exists new,
    sources (pack_loop self a false items idx st) = (sources st ++ new)%list /\
    Forall (cites_semester a items idx false) new.
Proof.
  induction items as [|item items IH]; intros idx st0 st Hle Hnone;
    cbn [pack_loop andb] in *.
  - exists []. rewrite app_nil_r. split; [reflexivity | constructor].
  - destruct (context_mentions_semester a (snd (fst item))) eqn:Hm; cbn [negb] in Hnone.
    + destruct (try_append self idx item st0) as [st0'|] eqn:Happ0.
      * exfalso.
        destruct (pack_loop_cites self a true items (idx + 1)%Z st0') as (new & Hsrc & _).
        apply try_append_sources in Happ0.
        rewrite Hnone, Happ0 in Hsrc. apply (f_equal (@length source)) in Hsrc.
        rewrite !length_app in Hsrc. simpl in Hsrc. lia.
      * rewrite (try_append_blocked self idx item st0 st Hle Happ0).
        exists []. rewrite app_nil_r. split; [reflexivity | constructor].
    + destruct (try_append self idx item st) as [st'|] eqn:Happ.
      * pose proof (try_append_total self idx item st st' Happ) as Htot.
        destruct (IH (idx + 1)%Z st0 st' ltac:(lia) Hnone) as (new & Hsrc & Hall).
        apply try_append_sources in Happ.
        exists (source_of idx item :: new).
        split. { rewrite Hsrc, Happ, <- app_assoc. reflexivity. }
        constructor; [|now apply cites_semester_shift].
        exists 0, item. rewrite source_of_index.
        repeat split; [simpl; lia | exact Hm].
      * exists []. rewrite app_nil_r. split; [reflexivity | constructor].
Qed.

(** X20. The semester filter is all or nothing. Either every source of a
    bundle cites a ranked chunk whose content mentions a semester the
    analysis names (every chunk counts as one when it names none), or none
    of them does: the pass over the full list runs only when the filtered
    pass packs nothing, and it ends at the chunk that ended the filtered
    pass, if not before. *)
Theorem build_context_semester_filter (self : service) (retrieved : list chunk)
  (a : analysis) :
  let srcs := snd (_build_context self retrieved a) in
  Forall (cites_semester a (ranked retrieved) 1 true) srcs \/
  Forall (cites_semester a (ranked retrieved) 1 false) srcs.
Proof.
  cbv zeta. destruct retrieved as [|item0 retrieved]; [left; constructor|].
  rewrite build_context_sources. cbv zeta.
  set (items := ranked (item0 :: retrieved)).
  set (filtering := negb (is_nil (semesters a))).
  set (st := pack_loop self a filtering items 1 (initial a)).
  destruct filtering eqn:Hfilter; cbn [andb].
  - destruct (is_nil (sources st)) eqn:Hnone.
    + right.
      assert (Hst : st = initial a).
      { destruct (pack_loop_grows self a true items 1 (initial a)) as [H | H]; [exact H|].
        fold st in H. destruct (sources st); [simpl in H; lia | discriminate]. }
      rewrite Hst.
      destruct (pack_loop_fallback self a items 1 (initial a) (initial a)
                  ltac:(lia) Hst) as (new & Hsrc & Hall).
      rewrite Hsrc. exact Hall.
    + left. destruct (pack_loop_filtered self a items 1 (initial a)) as (new & Hsrc & Hall).
      fold st in Hsrc. rewrite Hsrc. exact Hall.
  - left. subst st.
    destruct (pack_loop_cites self a false items 1 (initial a)) as (new & Hsrc & _ & Hall).
    rewrite Hsrc. cbn [initial sources app].
    eapply List.Forall_impl; [|exact Hall]. cbv beta.
    intros src (n & it & Hnth & Hidx & Hcite). exists n, it.
    repeat split; [exact Hnth | exact Hidx | exact Hcite|].
    unfold context_mentions_semester.
    subst filtering. destruct (semesters a); [reflexivity | discriminate].
Qed.

(** ** routers/chat.py: the endpoints *)

Lemma ensure_session_lookup (sid other : string) (store : gmap string (list chat.message)) :
  chat.ensure_session sid store !! other
  = if decide (other = sid) then Some (messages_of sid store) else store !! other.
Proof.
  unfold chat.ensure_session, messages_of.
  destruct (store !! sid) as [msgs|] eqn:Hsid.
  - destruct (decide (other = sid)) as [-> | Hne]; [exact Hsid | reflexivity].
  - destruct (decide (other = sid)) as [-> | Hne].
    + apply lookup_insert_eq.
    + now apply lookup_insert_ne.
Qed.

(** What a successful [ask] returns and stores. *)
Lemma ask_stores (ask_question : string -> M chat.AskResult.t)
  (parse_int : string -> option Z) (uuid4 : string) (request : chat.AskRequest.t)
  (w w' : world) (store : gmap string (list chat.message))
  (result : chat.AskResult.t) (srcs : list source) :
  ask_question (chat.AskRequest.question request) w = (Return result, w') ->
  chat.source_items parse_int (chat.get (chat.AskResult.sources result) []) = Some srcs ->
  (0 <= chat.get (chat.AskResult.confidence result) 0 <= 1)%Q ->
  let sid := session_of uuid4 request in
  let pruned := chat._prune_sessions w store in
  exists resp store',
    chat.ask ask_question parse_int uuid4 request w store = (chat.Ok resp, w', store') /\
    chat.AskResponse.session_id resp = sid /\
    chat.AskResponse.sources resp = srcs /\
    store' !! sid
    = Some (messages_of sid pruned
            ++ [chat.Message (clock w') (chat.AskRequest.question request)
                  (chat.AskResponse.answer resp) srcs
                  (chat.AskResponse.confidence resp)
                  (chat.AskResponse.confidence_explanation resp)
                  (chat.AskResponse.follow_up_question resp)])%list /\
    (forall other, other <> sid -> store' !! other = pruned !! other).
Proof.
  intros Hrun Hvalid Hrange sid pruned.
  unfold chat.ask. cbv zeta. fold (session_of uuid4 request). fold sid. fold pruned.
  rewrite Hrun, Hvalid.
  assert (Hconf : Py.Qltb (chat.get (chat.AskResult.confidence result) 0%Q) 0
                  || Py.Qltb 1 (chat.get (chat.AskResult.confidence result) 0%Q) = false).
  { apply orb_false_iff. split; apply Qltb_ge; lra. }
  rewrite Hconf.
  rewrite (ensure_session_lookup sid sid pruned).
  destruct (decide (sid = sid)) as [_ | Hne]; [|congruence].
  eexists _, _. split; [reflexivity|].
  cbn [chat.AskResponse.session_id chat.AskResponse.sources chat.AskResponse.answer
       chat.AskResponse.confidence chat.AskResponse.confidence_explanation
       chat.AskResponse.follow_up_question].
  split; [reflexivity|]. split; [reflexivity|].
  split; [apply lookup_insert_eq|].
  intros other Hother. rewrite lookup_insert_ne by congruence.
  rewrite ensure_session_lookup.
  destruct (decide (other = sid)); [contradiction | reflexivity].
Qed.

(** X15. A successful [ask]: when the call of [_rag.ask_question] returns
    a result whose sources pass validation and whose confidence lies
    between 0 and 1, [ask] answers with the session id of the request (a
    fresh one if it has none), and exactly one message is appended to that
    session, stamped with the time after the call and carrying the
    question, the answer, the sources and the confidence of the response.
    Every other session is as pruning left it. *)
Theorem ask_appends_message (ask_question : string -> M chat.AskResult.t)
  (parse_int : string -> option Z) (uuid4 : string) (request : chat.AskRequest.t)
  (w w' : world) (store : gmap string (list chat.message))
  (result : chat.AskResult.t) (srcs : list source) :
  ask_question (chat.AskRequest.question request) w = (Return result, w') ->
  chat.source_items parse_int (chat.get (chat.AskResult.sources result) []) = Some srcs ->
  (0 <= chat.get (chat.AskResult.confidence result) 0 <= 1)%Q ->
  let sid := session_of uuid4 request in
  let pruned := chat._prune_sessions w store in
  exists resp store',
    chat.ask ask_question parse_int uuid4 request w store = (chat.Ok resp, w', store') /\
    chat.AskResponse.session_id resp = sid /\
    chat.AskResponse.sources resp = srcs /\
    store' !! sid
    = Some (messages_of sid pruned
            ++ [chat.Message (clock w') (chat.AskRequest.question request)
                  (chat.AskResponse.answer resp) srcs
                  (chat.AskResponse.confidence resp)
                  (chat.AskResponse.confidence_explanation resp)
                  (chat.AskResponse.follow_up_question resp)])%list /\
    (forall other, other <> sid -> store' !! other = pruned !! other).
Proof. apply ask_stores. Qed.

Lemma ask_appends_message_witness :
  exists resp store',
    chat.ask answering_pipeline no_coercion "9c1e"
      (chat.AskRequest.Make "How many credits in sem 1?" None) fresh_world ∅
    = (chat.Ok resp, elapse 2 fresh_world, store') /\
    chat.AskResponse.session_id resp = "9c1e" /\
    length (messages_of "9c1e" store') = 1.
Proof.
  destruct (ask_appends_message answering_pipeline no_coercion "9c1e"
              (chat.AskRequest.Make "How many credits in sem 1?" None)
              fresh_world (elapse 2 fresh_world) ∅ _ _
              ltac:(reflexivity) ltac:(reflexivity)
              ltac:(split; vm_compute; discriminate))
    as (resp & store' & Hask & Hsid & _ & Hstored & _).
  exists resp, store'. split; [exact Hask|]. split; [exact Hsid|].
  unfold messages_of.
  change (session_of "9c1e" (chat.AskRequest.Make "How many credits in sem 1?" None))
    with "9c1e" in Hstored.
  rewrite Hstored, length_app. unfold messages_of.
  rewrite prune_lookup, lookup_empty. reflexivity.
Defined.

(** X16. A failed [ask]: when the call of [_rag.ask_question] raises,
    [ask] raises [HTTPException] 500 and stores no message; the session of
    the request exists all the same afterwards, created empty if it was
    not there. *)
Theorem ask_failure_keeps_history (ask_question : string -> M chat.AskResult.t)
  (parse_int : string -> option Z) (uuid4 : string) (request : chat.AskRequest.t)
  (w w' : world) (store : gmap string (list chat.message)) (e : exn) :
  ask_question (chat.AskRequest.question request) w = (Raise e, w') ->
  let sid := session_of uuid4 request in
  let pruned := chat._prune_sessions w store in
  exists store',
    chat.ask ask_question parse_int uuid4 request w store
    = (chat.HTTPException 500 "Failed to generate answer", w', store') /\
    store' !! sid = Some (messages_of sid pruned) /\
    (forall other, other <> sid -> store' !! other = pruned !! other).
Proof.
  intros Hrun sid pruned.
  unfold chat.ask. cbv zeta. fold (session_of uuid4 request). fold sid. fold pruned.
  rewrite Hrun. eexists. split; [reflexivity|]. split.
  - rewrite ensure_session_lookup. destruct (decide (sid = sid)); [reflexivity | congruence].
  - intros other Hother. rewrite ensure_session_lookup.
    destruct (decide (other = sid)); [contradiction | reflexivity].
Qed.

Lemma ask_failure_keeps_history_witness :
  exists store',
    chat.ask failing_pipeline no_coercion "9c1e"
      (chat.AskRequest.Make "How many credits in sem 1?" None) fresh_world ∅
    = (chat.HTTPException 500 "Failed to generate answer", fresh_world, store') /\
    store' !! "9c1e" = Some [].
Proof.
  destruct (ask_failure_keeps_history failing_pipeline no_coercion "9c1e"
              (chat.AskRequest.Make "How many credits in sem 1?" None)
              fresh_world fresh_world ∅ SearchError ltac:(reflexivity))
    as (store' & Hask & Hsid & _).
  exists store'. split; [exact Hask|].
  change (session_of "9c1e" (chat.AskRequest.Make "How many credits in sem 1?" None))
    with "9c1e" in Hsid.
  rewrite Hsid. unfold messages_of. rewrite prune_lookup, lookup_empty. reflexivity.
Defined.

Lemma last_ts_bound (msgs : list chat.message) (m : chat.message) :
  In m msgs -> (chat.ts m <= chat.last_ts msgs)%Q.
Proof.
  destruct msgs as [|m0 rest]; [intros []|].
  intros Hin. unfold chat.last_ts.
  destruct (last_ts_fold rest (chat.ts m0)) as (Hle & Hall & _).
  destruct Hin as [<- | Hin]; [exact Hle|].
  rewrite List.Forall_forall in Hall. now apply Hall.
Qed.

(** X17. [history]: for a session that holds a message at most
    86400 seconds old, it returns the messages of the session, all of
    them and in order; for an id that is not in the store it raises
    [HTTPException] 404. *)
Theorem history_of_session (w : world) (store : gmap string (list chat.message))
  (sid : string) :
  (forall msgs m,
     store !! sid = Some msgs -> In m msgs ->
     (clock w - chat.ts m <= chat.SESSION_TTL_SECONDS)%Q ->
     fst (chat.history w sid store) = chat.Ok (sid, msgs)) /\
  (store !! sid = None ->
   fst (chat.history w sid store) = chat.HTTPException 404 "Session not found").
Proof.
  unfold chat.history. cbv zeta. rewrite prune_lookup. split.
  - intros msgs m Hlook Hin Hrecent. rewrite Hlook.
    assert (Hkeep : chat.expired (clock w) msgs = false).
    { apply Qltb_ge. pose proof (last_ts_bound msgs m Hin). lra. }
    now rewrite Hkeep.
  - intros Hnone. now rewrite Hnone.
Qed.

Lemma history_of_session_witness :
  fst (chat.history (elapse 3600 fresh_world) "3f2a"
         {[ "3f2a" := [asked_at 1699990000; asked_at 1700000000] ]})
  = chat.Ok ("3f2a", [asked_at 1699990000; asked_at 1700000000]).
Proof.
  apply (proj1 (history_of_session (elapse 3600 fresh_world)
                  {[ "3f2a" := [asked_at 1699990000; asked_at 1700000000] ]} "3f2a")
           _ (asked_at 1700000000)).
  - apply lookup_singleton_eq.
  - right. now left.
  - vm_compute. discriminate.
Defined.

(** X18. [delete_session]: for an id that pruning leaves in the store it
    removes that session and no other; for any other id it raises
    [HTTPException] 404 and the store is as pruning left it. Either way a
    later [history] of that id raises [HTTPException] 404. *)
Theorem delete_session_removes (w later : world) (store : gmap string (list chat.message))
  (sid : string) :
  let pruned := chat._prune_sessions w store in
  let outcome := chat.delete_session w sid store in
  fst outcome = match pruned !! sid with
                | Some _ => chat.Ok (sid, "deleted")
                | None => chat.HTTPException 404 "Session not found"
                end /\
  (forall other, other <> sid -> snd outcome !! other = pruned !! other) /\
  fst (chat.history later sid (snd outcome))
  = chat.HTTPException 404 "Session not found".
Proof.
  cbv zeta.
  assert (Hgone : snd (chat.delete_session w sid store) !! sid = None).
  { unfold chat.delete_session. cbv zeta.
    destruct (chat._prune_sessions w store !! sid) eqn:Hsid; cbn [snd];
      [apply lookup_delete_eq | exact Hsid]. }
  split; [|split].
  - unfold chat.delete_session. cbv zeta.
    now destruct (chat._prune_sessions w store !! sid).
  - intros other Hother. unfold chat.delete_session. cbv zeta.
    destruct (chat._prune_sessions w store !! sid); cbn [snd]; [|reflexivity].
    apply lookup_delete_ne. congruence.
  - unfold chat.history. cbv zeta. rewrite prune_lookup, Hgone. reflexivity.
Qed.

(** X19. [list_sessions] reports exactly the sessions that pruning leaves
    in the store, each once, with the number of its messages. *)
Theorem list_sessions_complete (w : world) (store : gmap string (list chat.message)) :
  let pruned := chat._prune_sessions w store in
  let infos := fst (chat.list_sessions w store) in
  NoDup (map chat.SessionInfo.session_id infos) /\
  (forall sid count,
     (exists info, In info infos /\ chat.SessionInfo.session_id info = sid /\
                   chat.SessionInfo.message_count info = count)
     <-> exists msgs, pruned !! sid = Some msgs /\ count = Z.of_nat (length msgs)).
Proof.
  cbv zeta. unfold chat.list_sessions. cbv zeta. cbn [fst].
  set (pruned := chat._prune_sessions w store). split.
  - rewrite map_map. cbn [chat.SessionInfo.session_id].
    apply (NoDup_fst_map_to_list pruned).
  - intros sid count. split.
    + intros (info & Hin & <- & <-). apply in_map_iff in Hin.
      destruct Hin as ([sid' msgs] & <- & Hin). exists msgs. split; [|reflexivity].
      apply elem_of_map_to_list. now apply list_elem_of_In.
    + intros (msgs & Hlook & ->).
      exists (chat.SessionInfo.Make sid (Z.of_nat (length msgs)) (chat.latest (clock w) msgs)).
      split; [|now split]. apply in_map_iff. exists (sid, msgs). split; [reflexivity|].
      apply list_elem_of_In. now apply elem_of_map_to_list.
Qed.

(** X21. [ask] then [history]: when [ask] answers, the session id of its
    response is good for [history] for at least 86400 seconds after the
    answer was stored, and the last message that [history] returns is that
    exchange: the question of the request with the answer of the
    response. *)
Theorem ask_then_history (ask_question : string -> M chat.AskResult.t)
  (parse_int : string -> option Z) (uuid4 : string) (request : chat.AskRequest.t)
  (w w' later : world) (store store' : gmap string (list chat.message))
  (resp : chat.AskResponse.t) :
  chat.ask ask_question parse_int uuid4 request w store = (chat.Ok resp, w', store') ->
  (clock later - clock w' <= chat.SESSION_TTL_SECONDS)%Q ->
  exists earlier stored,
    fst (chat.history later (chat.AskResponse.session_id resp) store')
    = chat.Ok (chat.AskResponse.session_id resp, (earlier ++ [stored])%list) /\
    chat.ts stored = clock w' /\
    chat.question stored = chat.AskRequest.question request /\
    chat.answer stored = chat.AskResponse.answer resp /\
    chat.sources stored = chat.AskResponse.sources resp /\
    chat.confidence stored = chat.AskResponse.confidence resp.
Proof.
  unfold chat.ask. cbv zeta. fold (session_of uuid4 request).
  set (sid := session_of uuid4 request).
  set (pruned := chat._prune_sessions w store).
  destruct (ask_question (chat.AskRequest.question request) w)
    as [[result | e] w0]; [|discriminate].
  destruct (chat.source_items parse_int (chat.get (chat.AskResult.sources result) []))
    as [srcs|]; [|discriminate].
  destruct (Py.Qltb (chat.get (chat.AskResult.confidence result) 0%Q) 0
            || Py.Qltb 1 (chat.get (chat.AskResult.confidence result) 0%Q)); [discriminate|].
  rewrite (ensure_session_lookup sid sid pruned).
  destruct (decide (sid = sid)) as [_ | Hne]; [|congruence].
  intros [= <- <- <-] Hrecent. cbn [chat.AskResponse.session_id chat.AskResponse.answer
    chat.AskResponse.sources chat.AskResponse.confidence].
  eexists (messages_of sid pruned), _. split; [|shelve].
  unfold chat.history. cbv zeta. rewrite prune_lookup, lookup_insert_eq.
  match goal with
  | |- context [chat.expired ?now ?msgs] =>
      assert (Hkeep : chat.expired now msgs = false)
  end.
  { apply Qltb_ge.
    match goal with
    | |- context [chat.last_ts (?msgs ++ [?m])%list] =>
        pose proof (last_ts_bound (msgs ++ [m])%list m
                      ltac:(apply in_or_app; right; now left)) as Hts
    end.
    cbn [chat.ts] in Hts. lra. }
  rewrite Hkeep. reflexivity.
  Unshelve. now repeat split.
Qed.

Lemma ask_then_history_witness :
  exists resp store' earlier stored,
    chat.ask answering_pipeline no_coercion "9c1e"
      (chat.AskRequest.Make "How many credits in sem 1?" None) fresh_world ∅
    = (chat.Ok resp, elapse 2 fresh_world, store') /\
    fst (chat.history (elapse 3600 (elapse 2 fresh_world))
           (chat.AskResponse.session_id resp) store')
    = chat.Ok (chat.AskResponse.session_id resp, (earlier ++ [stored])%list) /\
    chat.question stored = "How many credits in sem 1?".
Proof.
  destruct (ask_stores answering_pipeline no_coercion "9c1e"
              (chat.AskRequest.Make "How many credits in sem 1?" None)
              fresh_world (elapse 2 fresh_world) ∅ _ _
              ltac:(reflexivity) ltac:(reflexivity)
              ltac:(split; vm_compute; discriminate))
    as (resp & store' & Hask & _).
  destruct (ask_then_history answering_pipeline no_coercion "9c1e"
              (chat.AskRequest.Make "How many credits in sem 1?" None)
              fresh_world (elapse 2 fresh_world) (elapse 3600 (elapse 2 fresh_world))
              ∅ store' resp Hask ltac:(vm_compute; discriminate))
    as (earlier & stored & Hhist & _ & Hq & _).
  exists resp, store', earlier, stored.
  split; [exact Hask|]. split; [exact Hhist | exact Hq].
Defined.
